(** * psu-bridge: a shallow embedding of [app.py] and its verified properties

    The bridge translates a small REST API into the HTTP protocol of one
    power-supply unit.  This file embeds the pure helpers
    ([_clamp_balanced_amp], [validate_params], [payload_for_device],
    [_parse_float]), the state store ([load_state], [save_state]), the
    retrying device client ([psu_get], [psu_post]) and the route handlers
    of [app.py], and proves properties of them.

    Modelling conventions.
    - A Python [float] is a [pyfloat]: NaN, a signed infinity, or a finite
      value carried as an exact rational.  Every binary64 value is such a
      rational, so a statement over all [pyfloat] covers every float; the
      sign of zero is not tracked.
    - JSON documents and Python dictionaries are [jval] and
      [gmap string jval].
    - Effects (the dictionary heap, the two cache globals, the state file,
      the wall clock, the device and [time.sleep]) are threaded through a
      state-and-exception monad [M] over [world].
    - Library functions whose exact text output is not the bridge's
      business ([repr] of a float, [strftime], exception messages, ...)
      are fields of a [pylib] record that the development is parametric
      in. *)

Set Warnings "-register-all".
From Stdlib Require Import ZArith QArith Qround Qabs Qminmax Lia String Ascii.
From stdpp Require Import base option gmap strings list pretty.

#[local] Open Scope string_scope.
#[local] Open Scope list_scope.
#[local] Open Scope Z_scope.

(** ** Python floats *)

Inductive pyfloat : Type :=
| PNaN
| PInf (neg : bool)
| PFin (q : Q).

Definition Qlt_bool (x y : Q) : bool := negb (Qle_bool y x).

(** [a < b] on floats: false as soon as one side is NaN. *)
Definition flt (a b : pyfloat) : bool :=
  match a, b with
  | PNaN, _ | _, PNaN => false
  | PFin x, PFin y => Qlt_bool x y
  | PInf true, PInf true => false
  | PInf true, _ => true
  | _, PInf true => false
  | PInf false, _ => false
  | PFin _, PInf false => true
  end.

(** [a <= b] on floats. *)
Definition fle (a b : pyfloat) : bool :=
  match a, b with
  | PNaN, _ | _, PNaN => false
  | PFin x, PFin y => Qle_bool x y
  | PInf true, _ => true
  | _, PInf true => false
  | _, PInf false => true
  | PInf false, PFin _ => false
  end.

(** [a == b] on floats. *)
Definition feq (a b : pyfloat) : bool :=
  match a, b with
  | PFin x, PFin y => Qeq_bool x y
  | PInf s, PInf t => Bool.eqb s t
  | _, _ => false
  end.

(** The builtins [min(a, b)] and [max(a, b)]: the first argument is kept
    unless the second one is strictly smaller (resp. greater). *)
Definition py_min (a b : pyfloat) : pyfloat := if flt b a then b else a.
Definition py_max (a b : pyfloat) : pyfloat := if flt a b then b else a.

Definition fz (z : Z) : pyfloat := PFin (inject_Z z).

(** *** Fixed-point formatting, [f"{x:.<d>f}"] *)

(** Round to the nearest integer, ties to even (the rounding of the
    correctly rounded decimal conversion used by [format]). *)
Definition round_half_even (q : Q) : Z :=
  let fl := Qfloor q in
  match Qcompare (q - inject_Z fl) (1 # 2) with
  | Lt => fl
  | Gt => fl + 1
  | Eq => if Z.even fl then fl else fl + 1
  end.

Fixpoint zero_pad (width : nat) (s : string) : string :=
  match width with
  | O => s
  | S w => if (String.length s <? width)%nat then zero_pad w ("0" +:+ s) else s
  end.

Definition format_f (d : nat) (x : pyfloat) : string :=
  match x with
  | PNaN => "nan"
  | PInf false => "inf"
  | PInf true => "-inf"
  | PFin q =>
      let scale := 10 ^ Z.of_nat d in
      let n := round_half_even (Qabs q * inject_Z scale) in
      let sign := if Qlt_bool q 0 then "-" else "" in
      let frac := match d with
                  | O => ""
                  | S _ => "." +:+ zero_pad d (pretty (n mod scale))
                  end in
      sign +:+ pretty (n / scale) +:+ frac
  end.

(** ** JSON values and dictionaries *)

Inductive jval : Type :=
| JNull
| JBool (b : bool)
| JInt (z : Z)
| JFloat (x : pyfloat)
| JStr (s : string)
| JList (l : list jval)
| JObj (m : gmap string jval).

Abbreviation dict := (gmap string jval).

(** Python truthiness of a JSON value ([x or default], [if x]). *)
Definition truthy (v : jval) : bool :=
  match v with
  | JNull => false
  | JBool b => b
  | JInt z => negb (Z.eqb z 0)
  | JFloat x => negb (feq x (fz 0))
  | JStr s => negb (String.eqb s "")
  | JList l => match l with [] => false | _ => true end
  | JObj m => negb (bool_decide (m = ∅))
  end.

(** [a or b] on optional values, [None] being Python's [None]. *)
Definition py_or (a : option jval) (b : jval) : jval :=
  match a with
  | Some v => if truthy v then v else b
  | None => b
  end.

(** ** Exceptions *)

(** The exception classes the bridge can meet.  [ConnectTimeout] is the
    [requests] class that inherits from both [ConnectionError] and
    [Timeout]; [Timeout] stands for the other timeouts (read timeouts);
    [Abort code] is the HTTP exception raised by Flask's [abort]. *)
Inductive exn_class : Type :=
| ValueError | TypeError | KeyError | AttributeError | OverflowError
| ConnectionError | ConnectTimeout | Timeout | HTTPError | JSONDecodeError
| Abort (code : Z).

Record exn : Type := Exn { exn_cls : exn_class; exn_msg : string }.

(** [isinstance(e, requests.exceptions.ConnectionError)] *)
Definition is_connection_error (e : exn) : bool :=
  match exn_cls e with ConnectionError | ConnectTimeout => true | _ => false end.

(** [isinstance(e, requests.exceptions.Timeout)] *)
Definition is_timeout (e : exn) : bool :=
  match exn_cls e with Timeout | ConnectTimeout => true | _ => false end.

(** [isinstance(e, ValueError)]; [json.JSONDecodeError] is a subclass. *)
Definition is_value_error (e : exn) : bool :=
  match exn_cls e with ValueError | JSONDecodeError => true | _ => false end.

(** ** Library functions taken as parameters *)

Record pylib : Type := PyLib {
  (** [float(s)] on a string; [None] is a [ValueError]. *)
  float_of_str : string -> option pyfloat;
  (** [float(n)] on an integer beyond 2^53 in magnitude; [None] is an
      [OverflowError]. *)
  float_of_bigint : Z -> option pyfloat;
  (** [repr(x)] / [str(x)] of a float. *)
  repr_float : pyfloat -> string;
  (** [str(v)] of a float, list or dictionary. *)
  str_other : jval -> string;
  (** [time.strftime("%Y-%m-%dT%H:%M:%SZ", time.gmtime(t))] for the whole
      second [t]. *)
  iso_utc : Z -> string;
  (** [json.loads] of a response body; [None] is a decode error. *)
  json_loads : string -> option jval;
  (** The message of the error raised by [float(v)]. *)
  float_err_msg : jval -> string;
  (** The message of the error raised by [v[key]] or [v.get] on a value
      that is not a dictionary. *)
  not_dict_msg : jval -> string;
  (** The message of the [HTTPError] of [raise_for_status]. *)
  http_error_msg : Z -> string;
  (** The message of a JSON decode error. *)
  decode_err_msg : string
}.

(** ** Configuration constants *)

Definition VOLT_MIN : pyfloat := fz 0.
Definition VOLT_MAX : pyfloat := fz 100.
Definition CURR_MIN : pyfloat := fz 0.
Definition CURR_MAX : pyfloat := fz 50.

(** The environment-derived settings. *)
Record config : Type := Config {
  PSU_BASE : string;
  API_TOKEN : string;
  STATE_FILE : string;
  BALANCED_AMP_ENV : pyfloat
}.

Definition default_config : config :=
  {| PSU_BASE := "http://192.168.4.1"; API_TOKEN := "";
     STATE_FILE := "/var/lib/psu-bridge/state.json"; BALANCED_AMP_ENV := fz 1 |}.

(** ** Pure helpers *)

Definition _clamp_balanced_amp (v : pyfloat) : pyfloat :=
  py_max (fz 1) (py_min (fz 5) v).

Section Pure.
Context (L : pylib) (C : config).

(** [validate_params]: [inr tt] on success, [inl e] for the raised
    [ValueError]. *)
Definition validate_params (voltage max_current : pyfloat) : exn + unit :=
  if negb (flt VOLT_MIN voltage && fle voltage VOLT_MAX) then
    inl (Exn ValueError
           ("Voltage " +:+ repr_float L voltage
            +:+ " V außerhalb sicherer Grenzen (" +:+ repr_float L VOLT_MIN
            +:+ ", " +:+ repr_float L VOLT_MAX +:+ "]"))
  else if negb (flt CURR_MIN max_current && fle max_current CURR_MAX) then
    inl (Exn ValueError
           ("Current " +:+ repr_float L max_current
            +:+ " A außerhalb sicherer Grenzen (" +:+ repr_float L CURR_MIN
            +:+ ", " +:+ repr_float L CURR_MAX +:+ "]"))
  else inr tt.

(** [str(access or "0")] for a string [access]. *)
Definition access_or_default (access : string) : string :=
  if String.eqb access "" then "0" else access.

Definition payload_for_device (voltage max_current : pyfloat) (access : string)
  : dict :=
  let balanced_amp := _clamp_balanced_amp (BALANCED_AMP_ENV C) in
  <["voltageValue" := JStr (format_f 1 voltage)]>
  (<["currentValue" := JStr (format_f 2 max_current)]>
  (<["accessibilityStatus" := JStr (access_or_default access)]>
  (<["balancedVoltage" := JStr (format_f 1 voltage)]>
  (<["balancedCurrent" := JStr (format_f 1 balanced_amp)]>
  (<["mode" := JStr "2"]> ∅))))).

End Pure.

Example format_54 : format_f 1 (fz 54) = "54.0".
Proof. vm_compute. reflexivity. Qed.
Example format_6 : format_f 2 (fz 6) = "6.00".
Proof. vm_compute. reflexivity. Qed.
Example format_tie : format_f 1 (PFin (1 # 4)) = "0.2".
Proof. vm_compute. reflexivity. Qed.
Example format_neg : format_f 2 (PFin (- 5 # 4)) = "-1.25".
Proof. vm_compute. reflexivity. Qed.
Example format_small : format_f 2 (PFin (1 # 32)) = "0.03".
Proof. vm_compute. reflexivity. Qed.

(** ** The world: heap, globals, state file, clock, device *)

Definition loc := positive.

Inductive request : Type :=
| HttpGet (url : string)
| HttpPost (url : string) (payload : dict).

(** What one HTTP exchange gives: an exception of the transport, or a
    response with its status code and body text. *)
Inductive http_result : Type :=
| HttpFail (e : exn)
| HttpResp (status : Z) (text : string).

Inductive event : Type :=
| EvRequest (r : request)
| EvSleep (seconds : pyfloat).

(** - [heap]: the dictionary objects, by reference;
    - [state_cache], [cache_time]: the globals [_state_cache] and
      [_cache_time];
    - [state_file]: [None] when [STATE_FILE] does not exist, [Some None]
      when its content is not a JSON document, [Some (Some v)] when it
      holds the document [v];
    - [clock], [ticks]: the wall clock as the sequence of its readings and
      the number of readings taken so far;
    - [device]: the answer of the device to the last of the requests sent
      so far;
    - [trace]: the requests sent and the sleeps done, oldest first. *)
Record world : Type := World {
  heap : gmap loc dict;
  state_cache : loc;
  cache_time : Q;
  state_file : option (option jval);
  clock : nat -> Q;
  ticks : nat;
  device : list request -> http_result;
  trace : list event
}.

Definition set_heap (h : gmap loc dict) (w : world) : world :=
  World h (state_cache w) (cache_time w) (state_file w) (clock w) (ticks w)
        (device w) (trace w).
Definition set_state_cache (l : loc) (w : world) : world :=
  World (heap w) l (cache_time w) (state_file w) (clock w) (ticks w)
        (device w) (trace w).
Definition set_cache_time (t : Q) (w : world) : world :=
  World (heap w) (state_cache w) t (state_file w) (clock w) (ticks w)
        (device w) (trace w).
Definition set_state_file (f : option (option jval)) (w : world) : world :=
  World (heap w) (state_cache w) (cache_time w) f (clock w) (ticks w)
        (device w) (trace w).
Definition set_ticks (n : nat) (w : world) : world :=
  World (heap w) (state_cache w) (cache_time w) (state_file w) (clock w) n
        (device w) (trace w).
Definition set_trace (t : list event) (w : world) : world :=
  World (heap w) (state_cache w) (cache_time w) (state_file w) (clock w)
        (ticks w) (device w) t.

(** The requests among the events of a trace. *)
Fixpoint requests_of (t : list event) : list request :=
  match t with
  | [] => []
  | EvRequest r :: t' => r :: requests_of t'
  | EvSleep _ :: t' => requests_of t'
  end.

Fixpoint sleeps_of (t : list event) : list pyfloat :=
  match t with
  | [] => []
  | EvSleep d :: t' => d :: sleeps_of t'
  | EvRequest _ :: t' => sleeps_of t'
  end.

(** ** The state-and-exception monad *)

Inductive res (A : Type) : Type :=
| Ok (a : A)
| Raise (e : exn).
Arguments Ok {A} a.
Arguments Raise {A} e.

Definition M (A : Type) : Type := world -> res A * world.

Definition ret {A} (a : A) : M A := fun w => (Ok a, w).
Definition raise {A} (e : exn) : M A := fun w => (Raise e, w).
Definition bind {A B} (m : M A) (k : A -> M B) : M B :=
  fun w => match m w with
           | (Ok a, w') => k a w'
           | (Raise e, w') => (Raise e, w')
           end.

(** [try: m except Exception as e: ...]: the outcome of [m] as a value. *)
Definition try_ {A} (m : M A) : M (exn + A) :=
  fun w => match m w with
           | (Ok a, w') => (Ok (inr a), w')
           | (Raise e, w') => (Ok (inl e), w')
           end.

Definition gets {A} (f : world -> A) : M A := fun w => (Ok (f w), w).
Definition modify (f : world -> world) : M unit := fun w => (Ok tt, f w).

Declare Scope py_scope.
Delimit Scope py_scope with py.
Notation "x <- m ;; k" := (bind m (fun x => k))
  (at level 100, m at next level, right associativity) : py_scope.
Notation "m ;;; k" := (bind m (fun _ => k))
  (at level 100, right associativity) : py_scope.
#[local] Open Scope py_scope.

(** *** Primitive effects *)

(** [time.time()] *)
Definition time_time : M Q :=
  fun w => (Ok (clock w (ticks w)), set_ticks (S (ticks w)) w).

(** [time.sleep(d)] *)
Definition time_sleep (d : pyfloat) : M unit :=
  modify (fun w => set_trace (trace w ++ [EvSleep d]) w).

(** A new dictionary object holding [d]. *)
Definition alloc (d : dict) : M loc :=
  fun w => let l := fresh (dom (heap w)) in
           (Ok l, set_heap (<[l := d]> (heap w)) w).

Definition deref (l : loc) : M dict :=
  gets (fun w => default ∅ (heap w !! l)).

(** [obj[k] = v] on the dictionary object at [l]. *)
Definition setitem (l : loc) (k : string) (v : jval) : M unit :=
  modify (fun w => set_heap (alter (insert k v) l (heap w)) w).

(** [d.setdefault(k, v)] on the content of a dictionary. *)
Definition dict_setdefault (k : string) (v : jval) (d : dict) : dict :=
  match d !! k with
  | Some _ => d
  | None => <[k := v]> d
  end.

(** [obj.setdefault(k, v)] on the dictionary object at [l]. *)
Definition setdefault (l : loc) (k : string) (v : jval) : M unit :=
  modify (fun w => set_heap (alter (dict_setdefault k v) l (heap w)) w).

(** One HTTP exchange through the pooled session. *)
Definition http (r : request) : M http_result :=
  fun w => let t := trace w ++ [EvRequest r] in
           (Ok (device w (requests_of t)), set_trace t w).

Section Bridge.
Context (L : pylib) (C : config).

(** ** Builtins on JSON values *)

(** [float(v)]: the float, or the exception raised. *)
Definition float_of (v : jval) : exn + pyfloat :=
  match v with
  | JFloat x => inr x
  | JInt z =>
      if Z.abs z <=? 2 ^ 53 then inr (fz z)
      else match float_of_bigint L z with
           | Some x => inr x
           | None => inl (Exn OverflowError (float_err_msg L v))
           end
  | JBool b => inr (fz (if b then 1 else 0))
  | JStr s =>
      match float_of_str L s with
      | Some x => inr x
      | None => inl (Exn ValueError (float_err_msg L v))
      end
  | JNull | JList _ | JObj _ => inl (Exn TypeError (float_err_msg L v))
  end.

Definition py_float (v : jval) : M pyfloat :=
  match float_of v with
  | inr x => ret x
  | inl e => raise e
  end.

(** [str(v)] *)
Definition py_str (v : jval) : string :=
  match v with
  | JStr s => s
  | JNull => "None"
  | JBool true => "True"
  | JBool false => "False"
  | JInt z => pretty z
  | JFloat _ | JList _ | JObj _ => str_other L v
  end.

(** [v[key]] for a string key. *)
Definition py_index (v : jval) (key : string) : M jval :=
  match v with
  | JObj m =>
      match m !! key with
      | Some x => ret x
      | None => raise (Exn KeyError ("'" +:+ key +:+ "'"))
      end
  | _ => raise (Exn TypeError (not_dict_msg L v))
  end.

(** [v.get(key)]: [None] of the result is Python's [None]. *)
Definition py_get (v : jval) (key : string) : M (option jval) :=
  match v with
  | JObj m => ret (m !! key)
  | _ => raise (Exn AttributeError (not_dict_msg L v))
  end.

(** [v.get(key, dflt)] *)
Definition py_get_default (v : jval) (key : string) (dflt : jval) : M jval :=
  match v with
  | JObj m => ret (default dflt (m !! key))
  | _ => raise (Exn AttributeError (not_dict_msg L v))
  end.

(** [str(e)] of a caught exception. *)
Definition str_exn (e : exn) : string := exn_msg e.

(** ** State store *)

Definition _now_iso : M string :=
  t <- time_time ;;
  ret (iso_utc L (Qfloor t)).

(** The all-default record of the first run. *)
Definition default_state : dict :=
  <["voltage" := JNull]> (<["max_current" := JNull]>
  (<["access" := JStr "0"]> (<["updated_at" := JNull]> ∅))).

(** [json.dump(obj, f)] into the freshly opened (truncated) state file. *)
Definition dump_state_file (l : loc) : M unit :=
  d <- deref l ;;
  modify (set_state_file (Some (Some (JObj d)))).

(** [save_state(state)], [state] a reference to a dictionary. *)
Definition save_state (state : loc) : M unit :=
  s <- deref state ;;
  tmp <- alloc s ;;
  stamp <- _now_iso ;;
  setitem tmp "updated_at" (JStr stamp) ;;;
  dump_state_file tmp ;;;
  modify (set_state_cache tmp) ;;;
  t <- time_time ;;
  modify (set_cache_time t).

(** [load_state()]; the [.copy()] handed back is returned by value. *)
Definition load_state : M dict :=
  now <- time_time ;;
  ct <- gets cache_time ;;
  c <- gets state_cache ;;
  cached <- deref c ;;
  if Qlt_bool (now - ct) 1 && truthy (JObj cached) then ret cached
  else
    f <- gets state_file ;;
    match f with
    | None =>
        state <- alloc default_state ;;
        save_state state ;;;
        modify (set_state_cache state) ;;;
        modify (set_cache_time now) ;;;
        deref state
    | Some None => raise (Exn JSONDecodeError (decode_err_msg L))
    | Some (Some (JObj d)) =>
        data <- alloc d ;;
        setdefault data "voltage" JNull ;;;
        setdefault data "max_current" JNull ;;;
        setdefault data "access" (JStr "0") ;;;
        setdefault data "updated_at" JNull ;;;
        modify (set_state_cache data) ;;;
        modify (set_cache_time now) ;;;
        deref data
    | Some (Some v) => raise (Exn AttributeError (not_dict_msg L v))
    end.

(** ** Device client *)

(** The arguments of the [tenacity.retry] decorator: [stop_after_attempt],
    [wait_exponential(multiplier, min, max)] and the retry predicate;
    [reraise=True] throughout. *)
Record retry_policy : Type := RetryPolicy {
  stop_after_attempt : nat;
  wait_multiplier : Q;
  wait_min : Q;
  wait_max : Q;
  retry_if : exn -> bool
}.

(** [wait_exponential]: [multiplier * 2^(attempt_number - 1)] clamped into
    [[min, max]]. *)
Definition wait_exponential (p : retry_policy) (attempt_number : nat) : Q :=
  Qmax (Qmax 0 (wait_min p))
       (Qmin (wait_multiplier p * inject_Z (2 ^ Z.of_nat (attempt_number - 1)))
             (wait_max p)).

(** The retry loop from attempt [attempt_number] on, with [remaining]
    further attempts allowed after this one.  A failure that the predicate
    rejects, or the failure of the last allowed attempt, is raised as it
    is. *)
Fixpoint attempts_from {A} (p : retry_policy) (f : M A)
    (remaining attempt_number : nat) : M A :=
  r <- try_ f ;;
  match r with
  | inr a => ret a
  | inl e =>
      if retry_if p e then
        match remaining with
        | O => raise e
        | S remaining' =>
            time_sleep (PFin (wait_exponential p attempt_number)) ;;;
            attempts_from p f remaining' (S attempt_number)
        end
      else raise e
  end.

Definition retry {A} (p : retry_policy) (f : M A) : M A :=
  attempts_from p f (stop_after_attempt p - 1) 1.

(** The policy written on both [psu_get] and [psu_post]. *)
Definition psu_policy : retry_policy :=
  {| stop_after_attempt := 3;
     wait_multiplier := 1 # 2;
     wait_min := 1 # 2;
     wait_max := 2;
     retry_if := fun e => is_connection_error e || is_timeout e |}.

(** [r.raise_for_status()] *)
Definition raise_for_status (status : Z) : M unit :=
  if (400 <=? status) && (status <? 600)
  then raise (Exn HTTPError (http_error_msg L status))
  else ret tt.

(** The decorated body of [psu_get]: one attempt. *)
Definition psu_get_once (path : string) : M jval :=
  r <- http (HttpGet (PSU_BASE C +:+ path)) ;;
  match r with
  | HttpFail e => raise e
  | HttpResp status text =>
      raise_for_status status ;;;
      match json_loads L text with
      | Some v => ret v
      | None => raise (Exn JSONDecodeError (decode_err_msg L))
      end
  end.

(** The decorated body of [psu_post]: one attempt. *)
Definition psu_post_once (path : string) (payload : dict) : M string :=
  r <- http (HttpPost (PSU_BASE C +:+ path) payload) ;;
  match r with
  | HttpFail e => raise e
  | HttpResp status text =>
      raise_for_status status ;;;
      ret text
  end.

Definition psu_get (path : string) : M jval :=
  retry psu_policy (psu_get_once path).

Definition psu_post (path : string) (payload : dict) : M string :=
  retry psu_policy (psu_post_once path payload).

(** ** Route handlers *)

(** What a handler sees of the Flask request. *)
Record http_request : Type := HttpRequest {
  hdr_api_key : option string;     (* request.headers.get("X-Api-Key") *)
  req_json : option jval;          (* request.get_json(silent=True) *)
  req_args : gmap string string    (* request.args *)
}.

(** [jsonify(body), status] *)
Inductive response : Type := Response (status : Z) (body : jval).

Definition resp_status (r : response) : Z :=
  match r with Response s _ => s end.
Definition resp_body (r : response) : jval :=
  match r with Response _ b => b end.

Definition error_body (msg : string) : dict := {[ "error" := JStr msg ]}.

Definition require_token (rq : http_request) : M unit :=
  if negb (String.eqb (API_TOKEN C) "")
     && negb (bool_decide (hdr_api_key rq = Some (API_TOKEN C)))
  then raise (Exn (Abort 401) "Unauthorized")
  else ret tt.

Definition lift_validate (r : exn + unit) : M unit :=
  match r with inl e => raise e | inr _ => ret tt end.

(** The entry appended for a step that went through. *)
Definition ok_entry (idx : Z) (payload : dict) (psu_resp : string) : jval :=
  JObj (<["step" := JInt idx]> (<["sent" := JObj payload]>
       (<["psu_response" := JStr psu_resp]> (<["ok" := JBool true]> ∅)))).

(** The entry appended for a step that raised. *)
Definition fail_entry (idx : Z) (e : exn) : jval :=
  JObj (<["step" := JInt idx]> (<["error" := JStr (str_exn e)]>
       (<["ok" := JBool false]> ∅))).

(** The record handed to [save_state] after a successful command. *)
Definition commanded_state (v i : pyfloat) (a : string) : dict :=
  <["voltage" := JFloat v]> (<["max_current" := JFloat i]>
  (<["access" := JStr a]> ∅)).

(** The [try] block of one sequence step. *)
Definition step_try (idx : Z) (step : jval) : M jval :=
  vv <- py_index step "voltage" ;;
  v <- py_float vv ;;
  iv <- py_index step "max_current" ;;
  i <- py_float iv ;;
  av <- py_get_default step "access" (JStr "0") ;;
  let a := py_str av in
  lift_validate (validate_params L v i) ;;;
  let payload := payload_for_device C v i a in
  psu_resp <- psu_post "/api/send_data" payload ;;
  st <- alloc (commanded_state v i a) ;;
  save_state st ;;;
  ret (ok_entry idx payload psu_resp).

(** The statements after the [try] of a step: the inter-step delay. *)
Definition step_delay (step : jval) : M unit :=
  dv <- py_get_default step "delay" (JInt 0) ;;
  delay <- py_float dv ;;
  if flt (fz 0) delay then time_sleep (py_min delay (fz 10)) else ret tt.

(** The [for idx, step in enumerate(seq, start=1)] loop. *)
Fixpoint seq_loop (idx : Z) (steps results : list jval) : M (list jval) :=
  match steps with
  | [] => ret results
  | step :: rest =>
      r <- try_ (step_try idx step) ;;
      match r with
      | inl e => ret (results ++ [fail_entry idx e])
      | inr entry =>
          step_delay step ;;;
          seq_loop (idx + 1) rest (results ++ [entry])
      end
  end.

Definition set_sequence (rq : http_request) : M response :=
  require_token rq ;;;
  let body := py_or (req_json rq) (JObj ∅) in
  sv <- py_get body "sequence" ;;
  match py_or sv (JList []) with
  | JList seq =>
      if (10 <? length seq)%nat
      then ret (Response 400 (JObj (error_body "Max 10 steps allowed")))
      else
        results <- seq_loop 1 seq [] ;;
        st <- load_state ;;
        ret (Response 200
               (JObj (<["results" := JList results]>
                     (<["state" := JObj st]> ∅))))
  | _ => ret (Response 400 (JObj (error_body "sequence must be a list")))
  end.

(** [s.endswith(suf)] *)
Definition endswith (s suf : string) : bool :=
  (String.length suf <=? String.length s)%nat
  && String.eqb (substring (String.length s - String.length suf)
                           (String.length suf) s) suf.

(** [s.replace(old, "")] for a non-empty [old]: every occurrence, found
    from left to right without overlap, is dropped.  [skip] counts the
    characters of a found occurrence still to drop. *)
Fixpoint remove_go (old : string) (skip : nat) (s : string) : string :=
  match s with
  | EmptyString => EmptyString
  | String c s' =>
      match skip with
      | S k => remove_go old k s'
      | O => if String.prefix old s
             then remove_go old (String.length old - 1) s'
             else String c (remove_go old 0 s')
      end
  end.

Definition remove_all (old s : string) : string := remove_go old 0 s.

(** The [for suf in (...)] loop of [_parse_float]. *)
Fixpoint parse_suffixes (s : string) (sufs : list string) : option pyfloat :=
  match sufs with
  | [] => None
  | suf :: rest =>
      if endswith s suf then
        match float_of_str L (remove_all suf s) with
        | Some x => Some x
        | None => parse_suffixes s rest
        end
      else parse_suffixes s rest
  end.

Definition unit_suffixes : list string := [" V"; "V"; " A"; "A"].

(** [_parse_float(v)]; the argument and the result are optional, [None]
    and [JNull] both being Python's [None]. *)
Definition _parse_float (v : option jval) : option pyfloat :=
  match v with
  | None | Some JNull => None
  | Some x =>
      match float_of x with
      | inr f => Some f
      | inl _ =>
          match x with
          | JStr s => parse_suffixes s unit_suffixes
          | _ => None
          end
      end
  end.

(** [x or 0.0] for an optional float. *)
Definition float_or_zero (x : option pyfloat) : pyfloat :=
  match x with
  | Some f => if feq f (fz 0) then fz 0 else f
  | None => fz 0
  end.

(** [jsonify] of an optional value. *)
Definition opt_json (o : option jval) : jval := default JNull o.

Definition is_none (o : option jval) : bool :=
  match o with None | Some JNull => true | _ => false end.

(** [GET /psu/status] *)
Definition psu_status (rq : http_request) : M response :=
  require_token rq ;;;
  r <- try_ (psu_get "/api/chargeStatus") ;;
  match r with
  | inr js => ret (Response 200 js)
  | inl e =>
      if is_connection_error e
      then ret (Response 503 (JObj (error_body "PSU nicht erreichbar")))
      else if is_timeout e
      then ret (Response 504 (JObj (error_body "PSU Timeout")))
      else ret (Response 502 (JObj (error_body (str_exn e))))
  end.

(** The [try] block of [psu_current]. *)
Definition psu_current_try (set_max_current : option jval) : M response :=
  js <- psu_get "/api/chargeStatus" ;;
  c1 <- py_get js "currentNow" ;;
  let current_now := _parse_float c1 in
  v1 <- py_get js "voltageNow" ;;
  let voltage_now := _parse_float v1 in
  current_now <- match current_now with
                 | None => c2 <- py_get js "current_now" ;; ret (_parse_float c2)
                 | Some _ => ret current_now
                 end ;;
  voltage_now <- match voltage_now with
                 | None => v2 <- py_get js "voltage_now" ;; ret (_parse_float v2)
                 | Some _ => ret voltage_now
                 end ;;
  ret (Response 200
         (JObj (<["current_now" := JStr (format_f 2 (float_or_zero current_now))]>
               (<["voltage_now" := JStr (format_f 2 (float_or_zero voltage_now))]>
               (<["set_max_current" := opt_json set_max_current]> ∅))))).

(** [GET /psu/current] *)
Definition psu_current (rq : http_request) : M response :=
  require_token rq ;;;
  state <- load_state ;;
  let set_max_current := state !! "max_current" in
  r <- try_ (psu_current_try set_max_current) ;;
  match r with
  | inr resp => ret resp
  | inl e =>
      if is_connection_error e
      then ret (Response 503 (JObj (error_body "PSU nicht erreichbar")))
      else if is_timeout e
      then ret (Response 504 (JObj (error_body "PSU Timeout")))
      else ret (Response 502
                  (JObj (<["error" := JStr (str_exn e)]>
                        (<["set_max_current" := opt_json set_max_current]> ∅))))
  end.

(** [GET /psu/last_set] *)
Definition last_set (rq : http_request) : M response :=
  require_token rq ;;;
  st <- load_state ;;
  ret (Response 200 (JObj st)).

(** [request.args.get(key) or data.get(key)] *)
Definition arg_or_body (rq : http_request) (data : jval) (key : string)
  : M (option jval) :=
  match req_args rq !! key with
  | Some s => if String.eqb s "" then py_get data key else ret (Some (JStr s))
  | None => py_get data key
  end.

(** The first [try] of [/set]: conversion and validation. *)
Definition set_parse (v_str i_str : jval) : M (pyfloat * pyfloat) :=
  voltage <- py_float v_str ;;
  max_current <- py_float i_str ;;
  lift_validate (validate_params L voltage max_current) ;;;
  ret (voltage, max_current).

(** The second [try] of [/set]: send, persist, answer. *)
Definition set_send (voltage max_current : pyfloat) (access : string)
    (payload : dict) : M response :=
  resp_text <- psu_post "/api/send_data" payload ;;
  st <- alloc (commanded_state voltage max_current access) ;;
  save_state st ;;;
  state <- load_state ;;
  ret (Response 200
         (JObj (<["sent" := JObj payload]>
               (<["psu_response" := JStr resp_text]>
               (<["state" := JObj state]> ∅))))).

Definition sent_error (msg : string) (payload : dict) : dict :=
  <["error" := JStr msg]> (<["sent" := JObj payload]> ∅).

(** [POST /set] *)
Definition set_voltage_current (rq : http_request) : M response :=
  require_token rq ;;;
  let data := py_or (req_json rq) (JObj ∅) in
  v_str <- arg_or_body rq data "voltage" ;;
  i_str <- arg_or_body rq data "max_current" ;;
  ao <- arg_or_body rq data "access" ;;
  let access := py_str (py_or ao (JStr "0")) in
  if is_none v_str || is_none i_str
  then ret (Response 400
              (JObj (error_body "Provide 'voltage' and 'max_current'.")))
  else
    p <- try_ (set_parse (opt_json v_str) (opt_json i_str)) ;;
    match p with
    | inl ve =>
        if is_value_error ve
        then ret (Response 400 (JObj (error_body (str_exn ve))))
        else raise ve
    | inr (voltage, max_current) =>
        let payload := payload_for_device C voltage max_current access in
        r <- try_ (set_send voltage max_current access payload) ;;
        match r with
        | inr resp => ret resp
        | inl e =>
            if is_connection_error e
            then ret (Response 503
                        (JObj (sent_error "PSU nicht erreichbar" payload)))
            else if is_timeout e
            then ret (Response 504 (JObj (sent_error "PSU Timeout" payload)))
            else ret (Response 502 (JObj (sent_error (str_exn e) payload)))
        end
    end.

(** [POST /set_vc] *)
Definition set_vc_alias (rq : http_request) : M response :=
  set_voltage_current rq.

(** [GET /health] *)
Definition health (rq : http_request) : M response :=
  st <- load_state ;;
  let last_comm := st !! "updated_at" in
  r <- try_ (psu_get "/api/chargeStatus") ;;
  let psu_ok := match r with inr _ => true | inl _ => false end in
  ret (Response 200
         (JObj (<["bridge_ok" := JBool true]>
               (<["psu_reachable" := JBool psu_ok]>
               (<["psu_base" := JStr (PSU_BASE C)]>
               (<["state_file" := JStr (STATE_FILE C)]>
               (<["last_communication" := opt_json last_comm]>
               (<["version" := JStr "1.5.0"]>
               (<["features" := JObj (<["retry" := JBool true]>
                                     (<["rate_limit" := JBool true]> ∅))]>
                ∅))))))))).

End Bridge.

(** ** A concrete library and a freshly started process

    Used to run the definitions on concrete inputs. *)

(** [strftime("%Y-%m-%dT%H:%M:%SZ", gmtime(t))] through the civil-from-days
    computation of the proleptic Gregorian calendar. *)
Definition iso8601 (t : Z) : string :=
  let days := t / 86400 in
  let secs := t mod 86400 in
  let z := days + 719468 in
  let era := z / 146097 in
  let doe := z - era * 146097 in
  let yoe := (doe - doe / 1460 + doe / 36524 - doe / 146096) / 365 in
  let doy := doe - (365 * yoe + yoe / 4 - yoe / 100) in
  let mp := (5 * doy + 2) / 153 in
  let d := doy - (153 * mp + 2) / 5 + 1 in
  let m := if mp <? 10 then mp + 3 else mp - 9 in
  let y := yoe + era * 400 + (if m <=? 2 then 1 else 0) in
  zero_pad 4 (pretty y) +:+ "-" +:+ zero_pad 2 (pretty m) +:+ "-"
  +:+ zero_pad 2 (pretty d) +:+ "T" +:+ zero_pad 2 (pretty (secs / 3600))
  +:+ ":" +:+ zero_pad 2 (pretty (secs mod 3600 / 60)) +:+ ":"
  +:+ zero_pad 2 (pretty (secs mod 60)) +:+ "Z".

(** A library instance: no string converts to a float except the three
    listed, [repr] is given on floats with one decimal, and the messages
    are short texts. *)
Definition demo_lib : pylib :=
  {| float_of_str := fun s =>
       if String.eqb s "54" then Some (fz 54)
       else if String.eqb s "6.5" then Some (PFin (13 # 2))
       else if String.eqb s "12.5" then Some (PFin (25 # 2))
       else None;
     float_of_bigint := fun z => Some (fz z);
     repr_float := format_f 1;
     str_other := fun _ => "<object>";
     iso_utc := iso8601;
     json_loads := fun s =>
       if String.eqb s "{}" then Some (JObj ∅) else None;
     float_err_msg := fun _ => "could not convert to float";
     not_dict_msg := fun _ => "not a dictionary";
     http_error_msg := fun st => pretty st +:+ " Error";
     decode_err_msg := "Expecting value" |}.

(** The process right after import: [_state_cache = {}] and
    [_cache_time = 0.0], nothing sent yet. *)
Definition boot_world (file : option (option jval)) (clk : nat -> Q)
    (dev : list request -> http_result) : world :=
  World {[ 1%positive := ∅ ]} 1%positive 0 file clk 0 dev [].

(** A clock read at 100.5 s, then every eighth of a second. *)
Definition eighths_clock (n : nat) : Q := (201 # 2) + inject_Z (Z.of_nat n) * (1 # 8).

Definition idle_device (_ : list request) : http_result := HttpResp 200 "OK".

Example iso8601_epoch : iso8601 0 = "1970-01-01T00:00:00Z".
Proof. vm_compute. reflexivity. Qed.
Example iso8601_leap : iso8601 1709251199 = "2024-02-29T23:59:59Z".
Proof. vm_compute. reflexivity. Qed.
Example iso8601_2025 : iso8601 1762332960 = "2025-11-05T08:56:00Z".
Proof. vm_compute. reflexivity. Qed.

(** * Properties *)

(** ** Float comparisons *)

Lemma Qlt_bool_iff (x y : Q) : Qlt_bool x y = true <-> (x < y)%Q.
Proof.
  unfold Qlt_bool. rewrite Bool.negb_true_iff. split.
  - intros H. apply Qnot_le_lt. intros Hle.
    apply Qle_bool_iff in Hle. congruence.
  - intros H. destruct (Qle_bool y x) eqn:E; [|reflexivity].
    apply Qle_bool_iff in E. exfalso. exact (Qlt_not_le _ _ H E).
Qed.

Lemma Qlt_bool_false_iff (x y : Q) : Qlt_bool x y = false <-> (y <= x)%Q.
Proof.
  unfold Qlt_bool. rewrite Bool.negb_false_iff. apply Qle_bool_iff.
Qed.

(** A float lies in the interval (lo, hi] of rationals: it is finite and
    its value does. *)
Definition within (lo hi : Q) (x : pyfloat) : Prop :=
  exists q, x = PFin q /\ (lo < q)%Q /\ (q <= hi)%Q.

Lemma range_test_iff (lo hi : Z) (x : pyfloat) :
  flt (fz lo) x && fle x (fz hi) = true
  <-> within (inject_Z lo) (inject_Z hi) x.
Proof.
  rewrite Bool.andb_true_iff. unfold within, fz. split.
  - intros [H1 H2]. destruct x as [|[]|q]; simpl in *; try discriminate.
    exists q. split; [reflexivity|]. split.
    + apply Qlt_bool_iff, H1.
    + apply Qle_bool_iff, H2.
  - intros (q & -> & H1 & H2). simpl. split.
    + apply Qlt_bool_iff, H1.
    + apply Qle_bool_iff, H2.
Qed.

Lemma range_test_false (lo hi : Z) (x : pyfloat) :
  ~ within (inject_Z lo) (inject_Z hi) x ->
  flt (fz lo) x && fle x (fz hi) = false.
Proof.
  intros H. destruct (flt (fz lo) x && fle x (fz hi)) eqn:E; [|reflexivity].
  exfalso. apply H, range_test_iff, E.
Qed.

(** ** Validation *)

(** The text of a range error. *)
Definition range_error (L : pylib) (what unit_ : string) (x lo hi : pyfloat)
  : exn :=
  Exn ValueError
      (what +:+ " " +:+ repr_float L x +:+ " " +:+ unit_
       +:+ " außerhalb sicherer Grenzen (" +:+ repr_float L lo +:+ ", "
       +:+ repr_float L hi +:+ "]").

Lemma validate_params_cases (L : pylib) (v i : pyfloat) :
  validate_params L v i =
    if flt VOLT_MIN v && fle v VOLT_MAX
    then if flt CURR_MIN i && fle i CURR_MAX
         then inr tt
         else inl (range_error L "Current" "A" i CURR_MIN CURR_MAX)
    else inl (range_error L "Voltage" "V" v VOLT_MIN VOLT_MAX).
Proof.
  unfold validate_params, range_error.
  destruct (flt VOLT_MIN v && fle v VOLT_MAX);
    destruct (flt CURR_MIN i && fle i CURR_MAX); reflexivity.
Qed.

(** A step or a [/set] request whose values fail validation raises before
    anything is sent: the world is left as it was. *)
Lemma set_parse_invalid_no_io (L : pylib) (v i : pyfloat) (e : exn) (w : world) :
  validate_params L v i = inl e ->
  set_parse L (JFloat v) (JFloat i) w = (Raise e, w).
Proof.
  intros H. unfold set_parse, bind, py_float, lift_validate, ret, raise.
  simpl. rewrite H. reflexivity.
Qed.

(** C4. [validate_params] succeeds exactly when the voltage lies in
    (0, 100] and the current in (0, 50].  Otherwise it raises a
    [ValueError] whose text names the quantity checked first that is out
    of range, its value and the legal interval; and it does so before any
    device I/O: the conversion-and-validation block of [/set] then raises
    with the world untouched. *)
Theorem validate_params_range (L : pylib) (voltage max_current : pyfloat) :
  (validate_params L voltage max_current = inr tt
   <-> within 0 100 voltage /\ within 0 50 max_current)
  /\ (~ within 0 100 voltage ->
      validate_params L voltage max_current
      = inl (range_error L "Voltage" "V" voltage VOLT_MIN VOLT_MAX))
  /\ (within 0 100 voltage -> ~ within 0 50 max_current ->
      validate_params L voltage max_current
      = inl (range_error L "Current" "A" max_current CURR_MIN CURR_MAX))
  /\ (forall w, ~ (within 0 100 voltage /\ within 0 50 max_current) ->
      exists e, exn_cls e = ValueError
                /\ set_parse L (JFloat voltage) (JFloat max_current) w
                   = (Raise e, w)).
Proof.
  pose proof (range_test_iff 0 100 voltage) as Hv.
  pose proof (range_test_iff 0 50 max_current) as Hi.
  pose proof (range_test_false 0 100 voltage) as Hv'.
  pose proof (range_test_false 0 50 max_current) as Hi'.
  change (inject_Z 0) with 0%Q in *.
  change (inject_Z 100) with 100%Q in *.
  change (inject_Z 50) with 50%Q in *.
  assert (Hcases := validate_params_cases L voltage max_current).
  change (flt VOLT_MIN voltage && fle voltage VOLT_MAX)
    with (flt (fz 0) voltage && fle voltage (fz 100)) in Hcases.
  change (flt CURR_MIN max_current && fle max_current CURR_MAX)
    with (flt (fz 0) max_current && fle max_current (fz 50)) in Hcases.
  assert (Hbad_v : ~ within 0 100 voltage ->
            validate_params L voltage max_current
            = inl (range_error L "Voltage" "V" voltage VOLT_MIN VOLT_MAX)).
  { intros Hn. rewrite Hcases, (Hv' Hn). reflexivity. }
  assert (Hbad_i : within 0 100 voltage -> ~ within 0 50 max_current ->
            validate_params L voltage max_current
            = inl (range_error L "Current" "A" max_current CURR_MIN CURR_MAX)).
  { intros Hy Hn. rewrite Hcases, (proj2 Hv Hy), (Hi' Hn). reflexivity. }
  split; [|split; [exact Hbad_v|split; [exact Hbad_i|]]].
  - split.
    + intros Hok. rewrite Hcases in Hok.
      destruct (flt (fz 0) voltage && fle voltage (fz 100)) eqn:Ev;
        [|discriminate].
      destruct (flt (fz 0) max_current && fle max_current (fz 50)) eqn:Ei;
        [|discriminate].
      split; [apply Hv|apply Hi]; reflexivity.
    + intros [Hy1 Hy2].
      rewrite Hcases, (proj2 Hv Hy1), (proj2 Hi Hy2). reflexivity.
  - intros w Hn.
    destruct (flt (fz 0) voltage && fle voltage (fz 100)) eqn:Ev.
    + assert (Hy : within 0 100 voltage) by (apply Hv; reflexivity).
      assert (Hni : ~ within 0 50 max_current) by tauto.
      eexists. split; [|apply set_parse_invalid_no_io, Hbad_i; assumption].
      reflexivity.
    + assert (Hnv : ~ within 0 100 voltage).
      { intros H. apply Hv in H. discriminate. }
      eexists. split; [|apply set_parse_invalid_no_io, Hbad_v; assumption].
      reflexivity.
Qed.

(** ** Payload *)

(** The value of the clamp, by the position of its argument. *)
Lemma clamp_balanced_amp_value (v : pyfloat) :
  exists c,
    _clamp_balanced_amp v = PFin c /\ (1 <= c)%Q /\ (c <= 5)%Q
    /\ (forall q, v = PFin q -> (1 < q)%Q -> (q < 5)%Q -> c = q)
    /\ (forall q, v = PFin q -> (q <= 1)%Q -> c = 1%Q)
    /\ (forall q, v = PFin q -> (5 <= q)%Q -> c = 5%Q)
    /\ (v = PNaN \/ v = PInf false -> c = 5%Q)
    /\ (v = PInf true -> c = 1%Q).
Proof.
  unfold _clamp_balanced_amp, py_max, py_min, fz.
  destruct v as [|[]|q]; cbn [flt].
  - exists 5%Q. repeat split; try discriminate; intros; try reflexivity;
      try congruence.
  - exists 1%Q. repeat split; try discriminate; intros; try reflexivity;
      try congruence.
    destruct H as [H|H]; discriminate H.
  - exists 5%Q. repeat split; try discriminate; intros; try reflexivity;
      try congruence.
  - destruct (Qlt_bool q (inject_Z 5)) eqn:E5; cbn [flt].
    + destruct (Qlt_bool (inject_Z 1) q) eqn:E1.
      * apply Qlt_bool_iff in E5. apply Qlt_bool_iff in E1.
        exists q. split; [reflexivity|].
        split; [apply Qlt_le_weak, E1|]. split; [apply Qlt_le_weak, E5|].
        split; [intros q0 [= <-] _ _; reflexivity|].
        split.
        { intros q0 [= <-] Hle. exfalso. exact (Qlt_not_le _ _ E1 Hle). }
        split.
        { intros q0 [= <-] Hle. exfalso. exact (Qlt_not_le _ _ E5 Hle). }
        split; [intros [H|H]; discriminate H|discriminate].
      * apply Qlt_bool_iff in E5. apply Qlt_bool_false_iff in E1.
        exists 1%Q. split; [reflexivity|].
        split; [discriminate|]. split; [discriminate|].
        split.
        { intros q0 [= <-] Hlt _. exfalso. exact (Qlt_not_le _ _ Hlt E1). }
        split; [intros; reflexivity|].
        split.
        { intros q0 [= <-] Hle. exfalso. exact (Qlt_not_le _ _ E5 Hle). }
        split; [intros [H|H]; discriminate H|discriminate].
    + apply Qlt_bool_false_iff in E5.
      exists 5%Q. split; [reflexivity|].
      split; [discriminate|]. split; [discriminate|].
      split.
      { intros q0 [= <-] _ Hlt. exfalso. exact (Qlt_not_le _ _ Hlt E5). }
      split.
      { intros q0 [= <-] Hle. exfalso.
        assert (Hc : (5 <= 1)%Q) by (eapply Qle_trans; eauto).
        revert Hc. vm_compute. intros Hc. apply Hc. reflexivity. }
      split; [intros; reflexivity|].
      split; [intros [H|H]; discriminate H|discriminate].
Qed.

(** C5. The payload is a function of the three arguments and the
    configured balanced-amp constant alone: its type takes no world, and
    two configurations with the same constant give the same payload.
    With the default constant 1.0 the call
    [payload_for_device(54.0, 6.0, "1")] gives exactly the documented
    body.  Whatever the configured constant is, the [balancedCurrent]
    sent is the one-decimal text of that constant clamped into
    [1.0, 5.0]: the constant itself when it lies strictly between 1 and
    5, 1 when it is at most 1 (minus infinity included) and 5 when it is
    at least 5 (plus infinity and NaN included); nothing is rejected. *)
Theorem payload_for_device_spec :
  payload_for_device default_config (fz 54) (fz 6) "1"
  = <["voltageValue" := JStr "54.0"]>
    (<["currentValue" := JStr "6.00"]>
    (<["accessibilityStatus" := JStr "1"]>
    (<["balancedVoltage" := JStr "54.0"]>
    (<["balancedCurrent" := JStr "1.0"]>
    (<["mode" := JStr "2"]> ∅)))))
  /\ (forall (C1 C2 : config) (voltage max_current : pyfloat) (access : string),
        BALANCED_AMP_ENV C1 = BALANCED_AMP_ENV C2 ->
        payload_for_device C1 voltage max_current access
        = payload_for_device C2 voltage max_current access)
  /\ forall (C : config) (voltage max_current : pyfloat) (access : string),
       exists c, (1 <= c)%Q /\ (c <= 5)%Q
         /\ payload_for_device C voltage max_current access !! "balancedCurrent"
            = Some (JStr (format_f 1 (PFin c)))
         /\ (forall q, BALANCED_AMP_ENV C = PFin q -> (1 < q)%Q -> (q < 5)%Q ->
                       c = q)
         /\ (forall q, BALANCED_AMP_ENV C = PFin q -> (q <= 1)%Q -> c = 1%Q)
         /\ (forall q, BALANCED_AMP_ENV C = PFin q -> (5 <= q)%Q -> c = 5%Q)
         /\ (BALANCED_AMP_ENV C = PNaN \/ BALANCED_AMP_ENV C = PInf false ->
             c = 5%Q)
         /\ (BALANCED_AMP_ENV C = PInf true -> c = 1%Q).
Proof.
  split; [reflexivity|]. split.
  - intros C1 C2 voltage max_current access Heq.
    unfold payload_for_device. rewrite Heq. reflexivity.
  - intros C voltage max_current access.
    destruct (clamp_balanced_amp_value (BALANCED_AMP_ENV C))
      as (c & Hc & Hlo & Hhi & Hcases).
    exists c. split; [exact Hlo|]. split; [exact Hhi|].
    split; [|exact Hcases].
    unfold payload_for_device. rewrite Hc.
    repeat (rewrite lookup_insert_ne by discriminate).
    apply lookup_insert_eq.
Qed.

(** ** State store *)

(** The content of the dictionary object at [l]. *)
Definition obj (w : world) (l : loc) : dict := default ∅ (heap w !! l).

(** The whole second that a [_now_iso()] call made in [w] reads. *)
Definition stamp_at (w : world) : Z := Qfloor (clock w (ticks w)).

(** The copy of [d] that a [save_state] started in [w] stamps. *)
Definition stamped (L : pylib) (w : world) (d : dict) : dict :=
  <["updated_at" := JStr (iso_utc L (stamp_at w))]> d.

(** The test of the first [if] of a [load_state()] started in [w]. *)
Definition cache_usable (w : world) : bool :=
  Qlt_bool (clock w (ticks w) - cache_time w) 1
  && truthy (JObj (obj w (state_cache w))).

(** The four [setdefault] calls of [load_state]. *)
Definition backfill (d : dict) : dict :=
  dict_setdefault "updated_at" JNull
    (dict_setdefault "access" (JStr "0")
       (dict_setdefault "max_current" JNull
          (dict_setdefault "voltage" JNull d))).

(** The world a [save_state(s)] started in [w] ends in. *)
Definition after_save (L : pylib) (s : loc) (w : world) : world :=
  let tmp := fresh (dom (heap w)) in
  let rec := stamped L w (obj w s) in
  World (<[tmp := rec]> (heap w)) tmp (clock w (S (ticks w)))
        (Some (Some (JObj rec))) (clock w) (S (S (ticks w)))
        (device w) (trace w).

Ltac run_monad :=
  cbv beta iota zeta delta
    [bind ret raise gets modify try_ deref alloc setitem setdefault
     dump_state_file _now_iso time_time time_sleep http lift_validate
     set_heap set_state_cache set_cache_time set_state_file set_ticks
     set_trace];
  cbn [fst snd heap state_cache cache_time state_file clock ticks device
       trace].

(** The same on a world given by its fields: the field accesses compute as
    the run goes. *)
Ltac run_world :=
  cbv beta iota zeta delta
    [bind ret raise gets modify try_ deref alloc setitem setdefault
     dump_state_file _now_iso time_time time_sleep http lift_validate
     set_heap set_state_cache set_cache_time set_state_file set_ticks
     set_trace heap state_cache cache_time state_file clock ticks device
     trace].

Lemma save_state_run (L : pylib) (s : loc) (w : world) :
  save_state L s w = (Ok tt, after_save L s w).
Proof.
  destruct w as [h c ct f clk n dev tr].
  unfold save_state, after_save, stamped, obj, stamp_at. run_world.
  rewrite alter_insert_eq, !lookup_insert_eq. reflexivity.
Qed.

Lemma fresh_not_in (h : gmap loc dict) (l : loc) :
  is_Some (h !! l) -> fresh (dom h) <> l.
Proof.
  intros Hl Heq. apply elem_of_dom in Hl. rewrite <- Heq in Hl.
  exact (is_fresh _ Hl).
Qed.

Lemma fresh_loc_not_used (w : world) (l : loc) :
  is_Some (heap w !! l) -> fresh (dom (heap w)) <> l.
Proof. apply fresh_not_in. Qed.

Lemma truthy_nonempty (k : string) (v : jval) (d : dict) :
  truthy (JObj (<[k := v]> d)) = true.
Proof.
  simpl. rewrite bool_decide_eq_false_2; [reflexivity|].
  apply insert_non_empty.
Qed.

Lemma load_state_cached (L : pylib) (w : world) :
  cache_usable w = true ->
  load_state L w = (Ok (obj w (state_cache w)), set_ticks (S (ticks w)) w).
Proof.
  destruct w as [h c ct f clk n dev tr].
  unfold cache_usable, obj, load_state. run_world. intros H.
  rewrite H. reflexivity.
Qed.

Lemma load_state_from_file (L : pylib) (w : world) (d : dict) :
  cache_usable w = false ->
  state_file w = Some (Some (JObj d)) ->
  load_state L w
  = (Ok (backfill d),
     World (<[fresh (dom (heap w)) := backfill d]> (heap w))
           (fresh (dom (heap w))) (clock w (ticks w)) (state_file w)
           (clock w) (S (ticks w)) (device w) (trace w)).
Proof.
  destruct w as [h c ct f clk n dev tr].
  unfold cache_usable, obj, load_state, backfill. run_world. intros H Hf.
  rewrite H, Hf. run_world.
  rewrite !alter_insert_eq, !lookup_insert_eq. reflexivity.
Qed.

(** C10. [save_state] never writes to the dictionary it is given: every
    object that existed before the call, the argument among them, has the
    content it had; the stamp goes into a new object, and that object is
    what the state file and the cache hold afterwards. *)
Theorem save_state_leaves_argument (L : pylib) (s : loc) (d : dict) (w : world) :
  heap w !! s = Some d ->
  let w' := snd (save_state L s w) in
  heap w' !! s = Some d
  /\ (forall l x, heap w !! l = Some x -> heap w' !! l = Some x)
  /\ heap w !! state_cache w' = None
  /\ heap w' !! state_cache w' = Some (stamped L w d)
  /\ state_file w' = Some (Some (JObj (stamped L w d))).
Proof.
  intros Hs. rewrite save_state_run. cbn [snd].
  unfold after_save. cbn [heap state_cache state_file].
  assert (Hobj : obj w s = d) by (unfold obj; rewrite Hs; reflexivity).
  rewrite Hobj.
  assert (Hkeep : forall l x, heap w !! l = Some x ->
            <[fresh (dom (heap w)) := stamped L w d]> (heap w) !! l = Some x).
  { intros l x Hl. rewrite lookup_insert_ne; [exact Hl|].
    apply fresh_loc_not_used. eauto. }
  split; [apply Hkeep, Hs|]. split; [exact Hkeep|]. split.
  - apply not_elem_of_dom, is_fresh.
  - split; [apply lookup_insert_eq|reflexivity].
Qed.

(** [save_state] on the 54 V / 6 A record at location 2. *)
Lemma save_state_leaves_argument_witness :
  heap (snd (save_state demo_lib 2%positive
               (World (<[2%positive := commanded_state (fz 54) (fz 6) "0"]>
                         {[ 1%positive := ∅ ]})
                      1%positive 0 None eighths_clock 0 idle_device [])))
    !! 2%positive
  = Some (commanded_state (fz 54) (fz 6) "0").
Proof.
  refine (proj1 (save_state_leaves_argument demo_lib 2%positive
                   (commanded_state (fz 54) (fz 6) "0") _ _)).
  apply lookup_insert_eq.
Defined.

(** The round-trip claim read literally: [load_state()] right after
    [save_state(s)] gives the three fields of [s] and the stamp of the
    save, and that stamp is no earlier than [t0], the time just before the
    call. *)
Definition roundtrip_claim (L : pylib) (w : world) (s : loc) (t0 : Q) : Prop :=
  exists r,
    fst (load_state L (snd (save_state L s w))) = Ok r
    /\ r !! "voltage" = obj w s !! "voltage"
    /\ r !! "max_current" = obj w s !! "max_current"
    /\ r !! "access" = obj w s !! "access"
    /\ r !! "updated_at" = Some (JStr (iso_utc L (stamp_at w)))
    /\ (t0 <= inject_Z (stamp_at w))%Q.

(** A process holding the record of a 54 V / 6 A command at location 2. *)
Definition roundtrip_world : world :=
  World (<[2%positive := <["voltage" := JFloat (fz 54)]>
                         (<["max_current" := JFloat (fz 6)]>
                         (<["access" := JStr "0"]> ∅))]>
         {[ 1%positive := ∅ ]})
        1%positive 0 None eighths_clock 0 idle_device [].

(** C2, the claim as stated fails: a save called at 100.25 s whose clock
    reading is 100.5 s stamps the whole second 100, which is earlier than
    100.25 s, although the load follows within the cache lifetime. *)
Lemma roundtrip_stamp_counterexample :
  ((401 # 4) <= clock roundtrip_world (ticks roundtrip_world))%Q
  /\ (clock roundtrip_world (S (S (ticks roundtrip_world)))
      - clock roundtrip_world (S (ticks roundtrip_world)) < 1)%Q
  /\ stamp_at roundtrip_world = 100
  /\ ~ roundtrip_claim demo_lib roundtrip_world 2%positive (401 # 4).
Proof.
  split; [vm_compute; discriminate|].
  split; [vm_compute; reflexivity|].
  split; [reflexivity|].
  intros (r & _ & _ & _ & _ & _ & H).
  revert H. vm_compute. intros H. apply H. reflexivity.
Qed.

(** C2, amended.  When [load_state()] follows [save_state(s)] within the
    cache lifetime, it returns [s] with [updated_at] set to the stamp of
    the save and every other field as in [s]; the stamp has second
    precision, and its second is no earlier than the whole second of the
    time just before the call. *)
Theorem save_load_roundtrip (L : pylib) (w : world) (s : loc) (t0 : Q) :
  (t0 <= clock w (ticks w))%Q ->
  (clock w (S (S (ticks w))) - clock w (S (ticks w)) < 1)%Q ->
  exists r,
    fst (load_state L (snd (save_state L s w))) = Ok r
    /\ r = <["updated_at" := JStr (iso_utc L (stamp_at w))]> (obj w s)
    /\ r !! "voltage" = obj w s !! "voltage"
    /\ r !! "max_current" = obj w s !! "max_current"
    /\ r !! "access" = obj w s !! "access"
    /\ r !! "updated_at" = Some (JStr (iso_utc L (stamp_at w)))
    /\ (Qfloor t0 <= stamp_at w)%Z.
Proof.
  intros Ht0 Hsoon. rewrite save_state_run. cbn [snd].
  assert (Hobj : obj (after_save L s w) (state_cache (after_save L s w))
                 = stamped L w (obj w s)).
  { unfold after_save, obj. cbn [heap state_cache].
    rewrite lookup_insert_eq. reflexivity. }
  assert (Huse : cache_usable (after_save L s w) = true).
  { unfold cache_usable. rewrite Hobj. unfold stamped.
    rewrite truthy_nonempty, Bool.andb_true_r.
    unfold after_save. cbn [clock ticks cache_time].
    apply Qlt_bool_iff, Hsoon. }
  rewrite (load_state_cached L _ Huse), Hobj. cbn [fst].
  exists (stamped L w (obj w s)). unfold stamped.
  split; [reflexivity|]. split; [reflexivity|].
  repeat (split; [rewrite lookup_insert_ne by discriminate; reflexivity|]).
  split; [apply lookup_insert_eq|].
  unfold stamp_at. apply Qfloor_resp_le, Ht0.
Qed.

(** The round trip run on the 54 V / 6 A record. *)
Lemma save_load_roundtrip_witness :
  exists r,
    fst (load_state demo_lib (snd (save_state demo_lib 2%positive roundtrip_world)))
    = Ok r
    /\ r !! "voltage" = Some (JFloat (fz 54))
    /\ r !! "updated_at" = Some (JStr "1970-01-01T00:01:40Z").
Proof.
  destruct (save_load_roundtrip demo_lib roundtrip_world 2%positive (401 # 4))
    as (r & Hr & _ & Hv & _ & _ & Hu & _).
  - vm_compute. discriminate.
  - vm_compute. reflexivity.
  - exists r. split; [exact Hr|]. split.
    + rewrite Hv. reflexivity.
    + rewrite Hu. vm_compute. reflexivity.
Defined.

(** The first-run branch of [load_state], run from [w]: the default record
    is allocated at [l1], [save_state] stamps a copy of it at [l2] and
    writes that copy to the file, and then the cache globals are set back
    to the unstamped [l1] and to the time read on entry. *)
Lemma load_state_bootstrap (L : pylib) (w : world) :
  cache_usable w = false ->
  state_file w = None ->
  let l1 := fresh (dom (heap w)) in
  let l2 := fresh (dom (<[l1 := default_state]> (heap w))) in
  let persisted :=
    <["updated_at" := JStr (iso_utc L (Qfloor (clock w (S (ticks w)))))]>
      default_state in
  load_state L w
  = (Ok default_state,
     World (<[l2 := persisted]> (<[l1 := default_state]> (heap w)))
           l1 (clock w (ticks w)) (Some (Some (JObj persisted)))
           (clock w) (S (S (S (ticks w)))) (device w) (trace w)).
Proof.
  destruct w as [h c ct f clk n dev tr].
  unfold cache_usable, obj, load_state. run_world. intros H Hf.
  rewrite H, Hf. run_world. rewrite save_state_run.
  unfold after_save, stamped, obj, stamp_at. run_world.
  rewrite !lookup_insert_eq. cbn [default].
  rewrite lookup_insert_ne.
  - rewrite lookup_insert_eq. reflexivity.
  - apply fresh_not_in. rewrite lookup_insert_eq. eauto.
Qed.

(** C7, what the code does on the first run.  With no state file and no
    usable cache, [load_state()] persists a record stamped with the
    second read by [save_state], but returns the unstamped default record
    and leaves that unstamped record in the cache: the record returned
    and cached has [updated_at] null and differs from the record in the
    file. *)
Theorem load_state_first_run_unstamped (L : pylib) (w : world) :
  cache_usable w = false ->
  state_file w = None ->
  exists persisted w',
    load_state L w = (Ok default_state, w')
    /\ state_file w' = Some (Some (JObj persisted))
    /\ persisted
       = <["updated_at" := JStr (iso_utc L (Qfloor (clock w (S (ticks w)))))]>
           default_state
    /\ obj w' (state_cache w') = default_state
    /\ default_state !! "updated_at" = Some JNull
    /\ default_state <> persisted.
Proof.
  intros Hc Hf. rewrite (load_state_bootstrap L w Hc Hf).
  eexists _, _. split; [reflexivity|]. cbn [state_file state_cache].
  split; [reflexivity|]. split; [reflexivity|]. split.
  - unfold obj. cbn [heap]. rewrite lookup_insert_ne.
    + rewrite lookup_insert_eq. reflexivity.
    + apply fresh_not_in. rewrite lookup_insert_eq. eauto.
  - split; [reflexivity|].
    intros Heq.
    assert (Hl : default_state !! "updated_at"
                 = Some (JStr (iso_utc L (Qfloor (clock w (S (ticks w))))))).
    { rewrite Heq at 1. apply lookup_insert_eq. }
    discriminate Hl.
Qed.

(** The first [load_state()] of a new process whose clock starts at
    100.5 s: the file gets the stamp of second 100, the caller gets
    [updated_at] null. *)
Lemma load_state_first_run_witness :
  exists w',
    load_state demo_lib (boot_world None eighths_clock idle_device)
    = (Ok default_state, w')
    /\ state_file w'
       = Some (Some (JObj (<["updated_at" := JStr "1970-01-01T00:01:40Z"]>
                             default_state)))
    /\ obj w' (state_cache w') !! "updated_at" = Some JNull.
Proof.
  destruct (load_state_first_run_unstamped demo_lib
              (boot_world None eighths_clock idle_device))
    as (p & w' & Hrun & Hfile & Hp & Hcache & _ & _).
  - vm_compute. reflexivity.
  - reflexivity.
  - exists w'. split; [exact Hrun|]. split.
    + rewrite Hfile, Hp. vm_compute. reflexivity.
    + rewrite Hcache. reflexivity.
Defined.

(** ** Device client *)

(** The answer of the device to the [n]-th of [n] consecutive sendings of
    [rq] started in [w]. *)
Definition answer (w : world) (rq : request) (n : nat) : http_result :=
  device w (requests_of (trace w) ++ replicate n rq).

(** The failures that the policy retries: an exception of the transport
    that is a [ConnectionError] or a [Timeout]. *)
Definition transient (a : http_result) : bool :=
  match a with
  | HttpFail e => is_connection_error e || is_timeout e
  | HttpResp _ _ => false
  end.

(** The pause after attempt [n]. *)
Definition backoff (n : nat) : pyfloat := PFin (wait_exponential psu_policy n).

(** The events of [n] attempts, the first being attempt number [a], with
    the pauses between them. *)
Fixpoint attempt_events (rq : request) (n a : nat) : list event :=
  match n with
  | O => []
  | S m =>
      EvRequest rq ::
      match m with
      | O => []
      | S _ => EvSleep (backoff a) :: attempt_events rq m (S a)
      end
  end.

(** One exchange followed by a world-independent reading of its result:
    the shape of both decorated bodies. *)
Definition one_exchange {A} (rq : request) (k : http_result -> res A) : M A :=
  fun w => let t := trace w ++ [EvRequest rq] in
           (k (device w (requests_of t)), set_trace t w).

Definition post_outcome (L : pylib) (a : http_result) : res string :=
  match a with
  | HttpFail e => Raise e
  | HttpResp status text =>
      if (400 <=? status) && (status <? 600)
      then Raise (Exn HTTPError (http_error_msg L status))
      else Ok text
  end.

Definition get_outcome (L : pylib) (a : http_result) : res jval :=
  match a with
  | HttpFail e => Raise e
  | HttpResp status text =>
      if (400 <=? status) && (status <? 600)
      then Raise (Exn HTTPError (http_error_msg L status))
      else match json_loads L text with
           | Some v => Ok v
           | None => Raise (Exn JSONDecodeError (decode_err_msg L))
           end
  end.

Lemma psu_post_once_exchange (L : pylib) (C : config) path payload w :
  psu_post_once L C path payload w
  = one_exchange (HttpPost (PSU_BASE C +:+ path) payload) (post_outcome L) w.
Proof.
  unfold psu_post_once, one_exchange, post_outcome, raise_for_status.
  run_monad.
  destruct (device w _) as [e|status text]; [reflexivity|].
  destruct ((400 <=? status) && (status <? 600)); reflexivity.
Qed.

Lemma psu_get_once_exchange (L : pylib) (C : config) path w :
  psu_get_once L C path w
  = one_exchange (HttpGet (PSU_BASE C +:+ path)) (get_outcome L) w.
Proof.
  unfold psu_get_once, one_exchange, get_outcome, raise_for_status.
  run_monad.
  destruct (device w _) as [e|status text]; [reflexivity|].
  destruct ((400 <=? status) && (status <? 600)); [reflexivity|].
  run_monad. destruct (json_loads L text); reflexivity.
Qed.

Lemma requests_of_app (t1 t2 : list event) :
  requests_of (t1 ++ t2) = requests_of t1 ++ requests_of t2.
Proof.
  induction t1 as [|[r|d] t1 IH]; simpl; [reflexivity| |exact IH].
  rewrite IH. reflexivity.
Qed.

Lemma sleeps_of_app (t1 t2 : list event) :
  sleeps_of (t1 ++ t2) = sleeps_of t1 ++ sleeps_of t2.
Proof.
  induction t1 as [|[r|d] t1 IH]; simpl; [reflexivity|exact IH|].
  rewrite IH. reflexivity.
Qed.

(** [attempts_from] only looks at its body through its runs. *)
Lemma attempts_from_ext {A} (p : retry_policy) (f g : M A) :
  (forall w, f w = g w) ->
  forall remaining n w,
    attempts_from p f remaining n w = attempts_from p g remaining n w.
Proof.
  intros Hfg remaining. induction remaining as [|r IH]; intros n w.
  - simpl. unfold bind, try_. rewrite Hfg. reflexivity.
  - simpl. unfold bind, try_. rewrite Hfg.
    destruct (g w) as [[a|e] w1]; [reflexivity|].
    destruct (retry_if p e); [|reflexivity].
    unfold time_sleep, modify. apply IH.
Qed.

(** The kinds of outcome reading that the two bodies use: a failure of the
    transport is raised as it is, and an error raised for a received
    response is not one that the policy retries. *)
Definition faithful_reading {A} (k : http_result -> res A) : Prop :=
  (forall e, k (HttpFail e) = Raise e)
  /\ (forall st text e, k (HttpResp st text) = Raise e ->
        retry_if psu_policy e = false).

Lemma post_outcome_faithful (L : pylib) : faithful_reading (post_outcome L).
Proof.
  split; [reflexivity|]. intros st text e. simpl.
  destruct ((400 <=? st) && (st <? 600)); [|discriminate].
  intros [= <-]. reflexivity.
Qed.

Lemma get_outcome_faithful (L : pylib) : faithful_reading (get_outcome L).
Proof.
  split; [reflexivity|]. intros st text e. simpl.
  destruct ((400 <=? st) && (st <? 600)).
  - intros [= <-]. reflexivity.
  - destruct (json_loads L text); [discriminate|].
    intros [= <-]. reflexivity.
Qed.

Lemma reading_retry {A} (k : http_result -> res A) (a : http_result) :
  faithful_reading k ->
  match k a with
  | Raise e => retry_if psu_policy e = transient a
  | Ok _ => transient a = false
  end.
Proof.
  intros [Hfail Hresp]. destruct a as [e|st text].
  - rewrite Hfail. reflexivity.
  - destruct (k (HttpResp st text)) eqn:E; [reflexivity|].
    rewrite (Hresp _ _ _ E). reflexivity.
Qed.

(** The run of a retried exchange, by the answers of the device. *)
Lemma retry_exchange_run {A} (rq : request) (k : http_result -> res A)
    (w : world) :
  faithful_reading k ->
  retry psu_policy (one_exchange rq k) w
  = if transient (answer w rq 1) then
      if transient (answer w rq 2) then
        (k (answer w rq 3), set_trace (trace w ++ attempt_events rq 3 1) w)
      else (k (answer w rq 2), set_trace (trace w ++ attempt_events rq 2 1) w)
    else (k (answer w rq 1), set_trace (trace w ++ attempt_events rq 1 1) w).
Proof.
  intros Hk. unfold retry, answer.
  cbn [stop_after_attempt psu_policy Nat.sub attempts_from].
  unfold one_exchange at 1. run_monad.
  rewrite requests_of_app. cbn [requests_of replicate attempt_events].
  pose proof (reading_retry k (device w (requests_of (trace w) ++ [rq])) Hk) as H1.
  destruct (k (device w (requests_of (trace w) ++ [rq]))) as [a|e] eqn:E1.
  { rewrite H1. reflexivity. }
  rewrite H1.
  destruct (transient (device w (requests_of (trace w) ++ [rq]))); [|reflexivity].
  unfold one_exchange at 1. run_monad.
  rewrite !requests_of_app. cbn [requests_of]. rewrite app_nil_r.
  rewrite <- !app_assoc. cbn [app].
  pose proof (reading_retry k (device w (requests_of (trace w) ++ [rq; rq])) Hk)
    as H2.
  destruct (k (device w (requests_of (trace w) ++ [rq; rq]))) as [a|e2] eqn:E2.
  { rewrite H2. reflexivity. }
  rewrite H2.
  destruct (transient (device w (requests_of (trace w) ++ [rq; rq])));
    [|reflexivity].
  unfold one_exchange at 1. run_monad.
  rewrite !requests_of_app. cbn [requests_of]. rewrite app_nil_r.
  rewrite <- !app_assoc. cbn [app].
  destruct (k (device w (requests_of (trace w) ++ [rq; rq; rq]))) as [a|e3];
    [reflexivity|].
  destruct (retry_if psu_policy e3); reflexivity.
Qed.

(** What the retry policy promises of a call that sends [rq] from [w] and
    ends with [out]: [n] attempts, between one and three, with the pauses
    of the backoff between them and nothing else; every attempt that was
    followed by another one failed with a connection error or a timeout;
    the call stopped before the third attempt only on an answer that is
    not such a failure; a failure of the transport at the last attempt is
    raised as it is; and a response with an error status ends the call
    with an [HTTPError]. *)
Definition retry_contract {A} (w : world) (rq : request)
    (out : res A * world) : Prop :=
  exists n,
    (1 <= n <= 3)%nat
    /\ trace (snd out) = trace w ++ attempt_events rq n 1
    /\ (forall k, (1 <= k < n)%nat -> transient (answer w rq k) = true)
    /\ ((n < 3)%nat -> transient (answer w rq n) = false)
    /\ (forall e, answer w rq n = HttpFail e -> fst out = Raise e)
    /\ (forall st text, answer w rq n = HttpResp st text ->
          400 <= st < 600 ->
          exists e, fst out = Raise e /\ exn_cls e = HTTPError).

Lemma retry_exchange_contract {A} (rq : request) (k : http_result -> res A)
    (w : world) :
  faithful_reading k ->
  (forall st text, 400 <= st < 600 ->
     exists e, k (HttpResp st text) = Raise e /\ exn_cls e = HTTPError) ->
  retry_contract w rq (retry psu_policy (one_exchange rq k) w).
Proof.
  intros Hk Hst. rewrite (retry_exchange_run rq k w Hk).
  destruct (transient (answer w rq 1)) eqn:T1;
    [destruct (transient (answer w rq 2)) eqn:T2|].
  - exists 3%nat. cbn [fst snd trace set_trace].
    split; [lia|]. split; [reflexivity|]. split.
    { intros j Hj. assert (j = 1 \/ j = 2)%nat as [-> | ->] by lia; assumption. }
    split; [lia|]. split.
    + intros e He. rewrite He. apply Hk.
    + intros st text Ha Hr. rewrite Ha. apply Hst, Hr.
  - exists 2%nat. cbn [fst snd trace set_trace].
    split; [lia|]. split; [reflexivity|]. split.
    { intros j Hj. assert (j = 1)%nat as -> by lia. assumption. }
    split; [intros _; exact T2|]. split.
    + intros e He. rewrite He. apply Hk.
    + intros st text Ha Hr. rewrite Ha. apply Hst, Hr.
  - exists 1%nat. cbn [fst snd trace set_trace].
    split; [lia|]. split; [reflexivity|]. split.
    { intros j Hj. lia. }
    split; [intros _; exact T1|]. split.
    + intros e He. rewrite He. apply Hk.
    + intros st text Ha Hr. rewrite Ha. apply Hst, Hr.
Qed.

Lemma status_error_raised (st : Z) :
  400 <= st < 600 -> (400 <=? st) && (st <? 600) = true.
Proof. intros H. apply Bool.andb_true_iff. split; lia. Qed.

Lemma wait_exponential_capped (n : nat) :
  (3 <= n)%nat -> (wait_exponential psu_policy n == 2)%Q.
Proof.
  intros Hn. unfold wait_exponential. cbn [psu_policy wait_min wait_max wait_multiplier].
  assert (Hpow : 4 <= 2 ^ Z.of_nat (n - 1)).
  { change 4 with (2 ^ 2). apply Z.pow_le_mono_r; lia. }
  assert (Hbig : (2 <= (1 # 2) * inject_Z (2 ^ Z.of_nat (n - 1)))%Q).
  { unfold Qle, Qmult, inject_Z. simpl. lia. }
  rewrite (Q.min_r _ _ Hbig).
  apply Q.max_r. apply Q.max_lub; discriminate.
Qed.

(** C1. Each of [psu_post] and [psu_get] makes between one and three
    attempts; an attempt is followed by another one only if it failed with
    a connection error or a timeout, so a response that was received,
    whatever its status, ends the call (with an [HTTPError] when the
    status is an error status); the pause after the first attempt is 0.5 s,
    after the second 1 s, and from the third on the formula stays at its
    cap of 2 s; and the failure of the last attempt reaches the caller as
    the very exception the transport raised. *)
Theorem psu_calls_retry_policy (L : pylib) (C : config) (w : world) :
  (forall path payload,
     retry_contract w (HttpPost (PSU_BASE C +:+ path) payload)
                    (psu_post L C path payload w))
  /\ (forall path,
        retry_contract w (HttpGet (PSU_BASE C +:+ path)) (psu_get L C path w))
  /\ (wait_exponential psu_policy 1 == 1 # 2)%Q
  /\ (wait_exponential psu_policy 2 == 1)%Q
  /\ (forall n, (3 <= n)%nat -> (wait_exponential psu_policy n == 2)%Q).
Proof.
  split; [|split; [|split; [reflexivity|split; [reflexivity|]]]].
  - intros path payload. unfold psu_post, retry.
    rewrite (attempts_from_ext psu_policy _ _
               (psu_post_once_exchange L C path payload)).
    apply (retry_exchange_contract _ (post_outcome L) w
             (post_outcome_faithful L)).
    intros st text Hst. simpl. rewrite (status_error_raised st Hst).
    eexists. split; reflexivity.
  - intros path. unfold psu_get, retry.
    rewrite (attempts_from_ext psu_policy _ _ (psu_get_once_exchange L C path)).
    apply (retry_exchange_contract _ (get_outcome L) w (get_outcome_faithful L)).
    intros st text Hst. simpl. rewrite (status_error_raised st Hst).
    eexists. split; reflexivity.
  - exact wait_exponential_capped.
Qed.

(** ** Sequence executor *)

(** A request passes [require_token]: no token is configured, or the
    header carries it. *)
Definition authorized (C : config) (rq : http_request) : Prop :=
  API_TOKEN C = "" \/ hdr_api_key rq = Some (API_TOKEN C).

Lemma require_token_pass (C : config) (rq : http_request) (w : world) :
  authorized C rq -> require_token C rq w = (Ok tt, w).
Proof.
  unfold authorized, require_token. intros [H|H].
  - rewrite H. reflexivity.
  - rewrite bool_decide_eq_true_2 by exact H.
    rewrite Bool.andb_false_r. reflexivity.
Qed.

Lemma require_token_keeps_world (C : config) (rq : http_request) (w : world) :
  snd (require_token C rq w) = w.
Proof.
  unfold require_token.
  destruct (negb (String.eqb (API_TOKEN C) "")
            && negb (bool_decide (hdr_api_key rq = Some (API_TOKEN C))));
    reflexivity.
Qed.

(** C6. A sequence of more than ten steps is refused with status 400 and
    the text "Max 10 steps allowed", and the world is exactly as before:
    nothing was validated, sent, slept or stored.  (A request that fails
    the token check is refused with 401 instead, the world untouched as
    well.) *)
Theorem set_sequence_rejects_long (L : pylib) (C : config) (rq : http_request)
    (body : dict) (seq : list jval) (w : world) :
  req_json rq = Some (JObj body) ->
  body !! "sequence" = Some (JList seq) ->
  (10 < length seq)%nat ->
  snd (set_sequence L C rq w) = w
  /\ (authorized C rq ->
      set_sequence L C rq w
      = (Ok (Response 400 (JObj (error_body "Max 10 steps allowed"))), w))
  /\ (~ authorized C rq ->
      set_sequence L C rq w = (Raise (Exn (Abort 401) "Unauthorized"), w)).
Proof.
  intros Hjson Hseq Hlen.
  assert (Hbody : py_or (req_json rq) (JObj ∅) = JObj body).
  { rewrite Hjson. unfold py_or, truthy.
    rewrite bool_decide_eq_false_2; [reflexivity|].
    intros ->. rewrite lookup_empty in Hseq. discriminate. }
  assert (Hlist : py_or (Some (JList seq)) (JList []) = JList seq).
  { destruct seq; [simpl in Hlen; lia|reflexivity]. }
  assert (Hlt : (10 <? length seq)%nat = true) by (apply Nat.ltb_lt; exact Hlen).
  assert (Hpass : authorized C rq ->
            set_sequence L C rq w
            = (Ok (Response 400 (JObj (error_body "Max 10 steps allowed"))), w)).
  { intros Ha. unfold set_sequence, bind.
    rewrite (require_token_pass C rq w Ha), Hbody.
    unfold py_get, ret. rewrite Hseq, Hlist, Hlt. reflexivity. }
  assert (Hdeny : ~ authorized C rq ->
            set_sequence L C rq w = (Raise (Exn (Abort 401) "Unauthorized"), w)).
  { intros Hn. unfold set_sequence, bind, require_token.
    destruct (String.eqb (API_TOKEN C) "") eqn:Et.
    - exfalso. apply Hn. left. apply String.eqb_eq, Et.
    - destruct (bool_decide (hdr_api_key rq = Some (API_TOKEN C))) eqn:Eh.
      + exfalso. apply Hn. right. apply bool_decide_eq_true in Eh. exact Eh.
      + reflexivity. }
  split; [|split; assumption].
  destruct (String.eqb (API_TOKEN C) "") eqn:Et.
  - rewrite Hpass; [reflexivity|]. left. apply String.eqb_eq, Et.
  - destruct (bool_decide (hdr_api_key rq = Some (API_TOKEN C))) eqn:Eh.
    + rewrite Hpass; [reflexivity|]. right.
      apply bool_decide_eq_true in Eh. exact Eh.
    + rewrite Hdeny; [reflexivity|].
      intros [H|H].
      * rewrite H in Et. discriminate.
      * rewrite bool_decide_eq_true_2 in Eh by exact H. discriminate.
Qed.

(** A request carrying eleven empty steps. *)
Definition eleven_steps : http_request :=
  HttpRequest None
    (Some (JObj {[ "sequence" := JList (replicate 11 (JObj ∅)) ]})) ∅.

Lemma set_sequence_rejects_long_witness :
  set_sequence demo_lib default_config eleven_steps
    (boot_world None eighths_clock idle_device)
  = (Ok (Response 400 (JObj (error_body "Max 10 steps allowed"))),
     boot_world None eighths_clock idle_device).
Proof.
  refine (proj1 (proj2 (set_sequence_rejects_long demo_lib default_config
            eleven_steps {[ "sequence" := JList (replicate 11 (JObj ∅)) ]}
            (replicate 11 (JObj ∅))
            (boot_world None eighths_clock idle_device) _ _ _)) _).
  - reflexivity.
  - vm_compute. reflexivity.
  - simpl. lia.
  - left. reflexivity.
Defined.

(** Everything of the world but the trace. *)
Definition store_of (w : world) :=
  (heap w, state_cache w, cache_time w, state_file w, clock w, ticks w, device w).

Lemma same_store_set_trace (w w1 : world) :
  store_of w1 = store_of w -> w1 = set_trace (trace w1) w.
Proof.
  destruct w, w1. unfold store_of, set_trace. simpl.
  intros [= -> -> -> -> -> -> ->]. reflexivity.
Qed.

(** The three conversions that open the [try] block of a step, as a
    function: the values of the step, or the exception raised. *)
Definition step_fields (L : pylib) (step : jval)
  : exn + (pyfloat * pyfloat * string) :=
  match step with
  | JObj m =>
      match m !! "voltage" with
      | None => inl (Exn KeyError "'voltage'")
      | Some vv =>
          match float_of L vv with
          | inl e => inl e
          | inr v =>
              match m !! "max_current" with
              | None => inl (Exn KeyError "'max_current'")
              | Some iv =>
                  match float_of L iv with
                  | inl e => inl e
                  | inr i =>
                      inr (v, i, py_str L (default (JStr "0") (m !! "access")))
                  end
              end
          end
      end
  | _ => inl (Exn TypeError (not_dict_msg L step))
  end.

Definition step_values (L : pylib) (step : jval)
  : option (pyfloat * pyfloat * string) :=
  match step_fields L step with
  | inr x => Some x
  | inl _ => None
  end.

(** The delay field of a step converts to a float. *)
Definition delay_ok (L : pylib) (step : jval) : bool :=
  match step with
  | JObj m =>
      match float_of L (default (JInt 0) (m !! "delay")) with
      | inr _ => true
      | inl _ => false
      end
  | _ => true
  end.

(** The world after the record of a command is allocated and saved. *)
Definition after_command (L : pylib) (v i : pyfloat) (a : string) (w : world)
  : world :=
  after_save L (fresh (dom (heap w)))
    (set_heap (<[fresh (dom (heap w)) := commanded_state v i a]> (heap w)) w).

Lemma step_try_run (L : pylib) (C : config) (idx : Z) (step : jval) (w : world) :
  step_try L C idx step w
  = match step_fields L step with
    | inl e => (Raise e, w)
    | inr (v, i, a) =>
        match validate_params L v i with
        | inl e => (Raise e, w)
        | inr _ =>
            match psu_post L C "/api/send_data" (payload_for_device C v i a) w with
            | (Raise e, w1) => (Raise e, w1)
            | (Ok resp, w1) =>
                (Ok (ok_entry idx (payload_for_device C v i a) resp),
                 after_command L v i a w1)
            end
        end
    end.
Proof.
  unfold step_try, step_fields, py_index, py_float, py_get_default.
  destruct step as [| b | z | x | s | l | m]; try reflexivity.
  destruct (m !! "voltage") as [vv|]; [|reflexivity].
  run_monad. destruct (float_of L vv) as [e|v]; [reflexivity|].
  run_monad. destruct (m !! "max_current") as [iv|]; [|reflexivity].
  run_monad. destruct (float_of L iv) as [e|i]; [reflexivity|].
  run_monad. destruct (validate_params L v i) as [e|[]]; [reflexivity|].
  run_monad.
  destruct (psu_post L C "/api/send_data" _ w) as [[resp|e] w1]; [|reflexivity].
  rewrite save_state_run. reflexivity.
Qed.

Lemma psu_post_trace_only (L : pylib) (C : config) path payload (w : world) :
  store_of (snd (psu_post L C path payload w)) = store_of w.
Proof.
  unfold psu_post, retry.
  rewrite (attempts_from_ext psu_policy _ _
             (psu_post_once_exchange L C path payload)).
  pose proof (retry_exchange_run (HttpPost (PSU_BASE C +:+ path) payload)
                (post_outcome L) w (post_outcome_faithful L)) as H.
  unfold retry in H. rewrite H.
  destruct (transient _); [destruct (transient _)|]; reflexivity.
Qed.

Lemma psu_get_trace_only (L : pylib) (C : config) path (w : world) :
  store_of (snd (psu_get L C path w)) = store_of w.
Proof.
  unfold psu_get, retry.
  rewrite (attempts_from_ext psu_policy _ _ (psu_get_once_exchange L C path)).
  pose proof (retry_exchange_run (HttpGet (PSU_BASE C +:+ path))
                (get_outcome L) w (get_outcome_faithful L)) as H.
  unfold retry in H. rewrite H.
  destruct (transient _); [destruct (transient _)|]; reflexivity.
Qed.

Lemma step_delay_run (L : pylib) (m : dict) (d : pyfloat) (w : world) :
  float_of L (default (JInt 0) (m !! "delay")) = inr d ->
  step_delay L (JObj m) w
  = (Ok tt, if flt (fz 0) d
            then set_trace (trace w ++ [EvSleep (py_min d (fz 10))]) w
            else w).
Proof.
  intros Hd. unfold step_delay, py_get_default, py_float. run_monad.
  rewrite Hd. run_monad. destruct (flt (fz 0) d); reflexivity.
Qed.

(** The stamped record of the command [(v, i, a)] is what the state file
    and the cached object hold. *)
Definition saved (w : world) (v i : pyfloat) (a : string) (rec : dict) : Prop :=
  (exists ts, rec = <["updated_at" := JStr ts]> (commanded_state v i a))
  /\ state_file w = Some (Some (JObj rec))
  /\ obj w (state_cache w) = rec.

Lemma saved_same_store (w w1 : world) v i a rec :
  store_of w1 = store_of w -> saved w v i a rec -> saved w1 v i a rec.
Proof.
  unfold store_of, saved, obj. intros [= Hh Hc _ Hf _ _ _] (Hts & Hfile & Hobj).
  rewrite Hh, Hc, Hf. auto.
Qed.

Lemma after_command_saved (L : pylib) v i a (w : world) :
  saved (after_command L v i a w) v i a
        (<["updated_at" := JStr (iso_utc L (stamp_at w))]> (commanded_state v i a)).
Proof.
  unfold saved, after_command, after_save, stamped, obj, stamp_at, set_heap.
  cbn [heap state_cache state_file clock ticks].
  rewrite !lookup_insert_eq. cbn [default].
  split; [eexists; reflexivity|]. split; reflexivity.
Qed.

Lemma backfill_complete (ts : string) v i a :
  backfill (<["updated_at" := JStr ts]> (commanded_state v i a))
  = <["updated_at" := JStr ts]> (commanded_state v i a).
Proof.
  unfold backfill, dict_setdefault, commanded_state.
  rewrite (lookup_insert_ne _ "updated_at" "voltage") by discriminate.
  rewrite lookup_insert_eq.
  rewrite (lookup_insert_ne _ "updated_at" "max_current") by discriminate.
  rewrite (lookup_insert_ne _ "voltage" "max_current") by discriminate.
  rewrite lookup_insert_eq.
  rewrite (lookup_insert_ne _ "updated_at" "access") by discriminate.
  rewrite (lookup_insert_ne _ "voltage" "access") by discriminate.
  rewrite (lookup_insert_ne _ "max_current" "access") by discriminate.
  rewrite !lookup_insert_eq. reflexivity.
Qed.

(** Once a command is saved, [load_state()] returns its record, whether
    the cache is still fresh or the file is read again, and leaves the
    file as it is. *)
Lemma load_state_saved (L : pylib) (w : world) v i a rec :
  saved w v i a rec ->
  exists w', load_state L w = (Ok rec, w')
             /\ state_file w' = Some (Some (JObj rec))
             /\ trace w' = trace w.
Proof.
  intros ((ts & Hrec) & Hfile & Hobj).
  destruct (cache_usable w) eqn:Hc.
  - rewrite (load_state_cached L w Hc), Hobj. eexists.
    split; [reflexivity|]. split; [exact Hfile|reflexivity].
  - rewrite (load_state_from_file L w rec Hc Hfile).
    rewrite Hrec, backfill_complete. eexists.
    split; [reflexivity|]. cbn [state_file trace].
    split; [rewrite Hfile, Hrec; reflexivity|reflexivity].
Qed.

(** [load_state] neither reads nor writes the trace. *)
Lemma load_state_set_trace (L : pylib) (t : list event) (w : world) :
  load_state L (set_trace t w)
  = (fst (load_state L w), set_trace t (snd (load_state L w))).
Proof.
  destruct (cache_usable w) eqn:Hc.
  - assert (Hc' : cache_usable (set_trace t w) = true) by exact Hc.
    rewrite (load_state_cached L w Hc), (load_state_cached L _ Hc').
    reflexivity.
  - assert (Hc' : cache_usable (set_trace t w) = false) by exact Hc.
    destruct (state_file w) as [[v|]|] eqn:Hf.
    + destruct w as [h c ct f clk n dev tr].
      unfold cache_usable, obj in Hc.
      cbn [heap state_cache cache_time clock ticks state_file] in Hc, Hf.
      unfold load_state. run_world. rewrite Hc, Hf.
      destruct v; reflexivity.
    + destruct w as [h c ct f clk n dev tr].
      unfold cache_usable, obj in Hc.
      cbn [heap state_cache cache_time clock ticks state_file] in Hc, Hf.
      unfold load_state. run_world. rewrite Hc, Hf. reflexivity.
    + assert (Hf' : state_file (set_trace t w) = None) by exact Hf.
      rewrite (load_state_bootstrap L w Hc Hf).
      rewrite (load_state_bootstrap L _ Hc' Hf'). reflexivity.
Qed.

Lemma load_state_same_store (L : pylib) (w w1 : world) :
  store_of w1 = store_of w ->
  fst (load_state L w1) = fst (load_state L w)
  /\ store_of (snd (load_state L w1)) = store_of (snd (load_state L w))
  /\ trace (snd (load_state L w1)) = trace w1.
Proof.
  intros H. rewrite (same_store_set_trace w w1 H), load_state_set_trace.
  cbn [fst snd]. repeat split.
Qed.

(** The outcome of the loop over [steps], numbered from [idx]: [oks] are
    the entries of the steps that went through, in order, each for a step
    whose values pass validation; [tail] is empty when every step went
    through, and else holds the one failure entry of the step right after
    them, with the text of the exception that step raised. *)
Definition fail_fast_run (L : pylib) (C : config) (idx : Z)
    (steps oks tail : list jval) : Prop :=
  (length oks <= length steps)%nat
  /\ (forall j, (j < length oks)%nat ->
        exists step v i a resp,
          steps !! j = Some step
          /\ step_values L step = Some (v, i, a)
          /\ validate_params L v i = inr tt
          /\ oks !! j = Some (ok_entry (idx + Z.of_nat j)
                                 (payload_for_device C v i a) resp))
  /\ ((tail = [] /\ length oks = length steps)
      \/ exists step e wj,
           steps !! length oks = Some step
           /\ fst (step_try L C (idx + Z.of_nat (length oks)) step wj) = Raise e
           /\ tail = [fail_entry (idx + Z.of_nat (length oks)) e]).

(** What the store holds after the loop: untouched when no step went
    through, and else the stamped record of the last step that did. *)
Definition store_after (L : pylib) (steps oks : list jval) (w w' : world)
  : Prop :=
  match length oks with
  | O => store_of w' = store_of w
  | S j => exists step v i a rec,
             steps !! j = Some step
             /\ step_values L step = Some (v, i, a)
             /\ saved w' v i a rec
  end.

Lemma seq_loop_fail_fast (L : pylib) (C : config) (steps : list jval) :
  forall (idx : Z) (acc : list jval) (w : world),
    Forall (fun s => delay_ok L s = true) steps ->
    exists oks tail w',
      seq_loop L C idx steps acc w = (Ok (acc ++ oks ++ tail), w')
      /\ fail_fast_run L C idx steps oks tail
      /\ (tail <> [] ->
          forall steps2,
            take (S (length oks)) steps2 = take (S (length oks)) steps ->
            seq_loop L C idx steps2 acc w = (Ok (acc ++ oks ++ tail), w'))
      /\ store_after L steps oks w w'.
Proof.
  induction steps as [|step rest IH]; intros idx acc w Hd.
  - exists [], [], w. simpl. rewrite app_nil_r.
    split; [reflexivity|]. split.
    + split; [simpl; lia|]. split; [intros j Hj; simpl in Hj; lia|].
      left. split; reflexivity.
    + split; [intros H; contradiction|]. reflexivity.
  - apply Forall_cons in Hd as [Hd1 Hd].
    pose proof (step_try_run L C idx step w) as Hrun.
    destruct (step_try L C idx step w) as [[entry|e] w1] eqn:Etry.
    + (* the step went through *)
      assert (exists v i a resp w0,
                step_values L step = Some (v, i, a)
                /\ validate_params L v i = inr tt
                /\ entry = ok_entry idx (payload_for_device C v i a) resp
                /\ store_of w0 = store_of w
                /\ w1 = after_command L v i a w0) as
          (v & i & a & resp & w0 & Hval & Hvalid & Hentry & Hw0 & Hw1).
      { unfold step_values. destruct (step_fields L step) as [e|[[v i] a]];
          [discriminate Hrun|].
        destruct (validate_params L v i) as [e|[]] eqn:Ev; [discriminate Hrun|].
        pose proof (psu_post_trace_only L C "/api/send_data"
                      (payload_for_device C v i a) w) as Hst.
        destruct (psu_post L C "/api/send_data" _ w) as [[resp|e] w0];
          [|discriminate Hrun].
        injection Hrun as -> ->. exists v, i, a, resp, w0.
        split; [reflexivity|]. split; [exact Ev|]. split; [reflexivity|].
        split; [exact Hst|reflexivity]. }
      assert (exists m, step = JObj m) as [m ->].
      { unfold step_values, step_fields in Hval.
        destruct step; try discriminate Hval. eauto. }
      assert (exists d, float_of L (default (JInt 0) (m !! "delay")) = inr d)
        as [d Hdelay].
      { unfold delay_ok in Hd1.
        destruct (float_of L (default (JInt 0) (m !! "delay")));
          [discriminate|eauto]. }
      pose proof (step_delay_run L m d w1 Hdelay) as Hsleep.
      set (w2 := if flt (fz 0) d
                 then set_trace (trace w1 ++ [EvSleep (py_min d (fz 10))]) w1
                 else w1) in Hsleep.
      assert (Hw2 : store_of w2 = store_of w1).
      { unfold w2. destruct (flt (fz 0) d); reflexivity. }
      destruct (IH (idx + 1) (acc ++ [entry]) w2 Hd)
        as (oks & tail & w' & Hloop & (Hlen & Hoks & Htail) & Hlater & Hstore).
      exists (entry :: oks), tail, w'.
      assert (Hres : (acc ++ [entry]) ++ oks ++ tail
                     = acc ++ (entry :: oks) ++ tail).
      { rewrite <- app_assoc. reflexivity. }
      split; [|split; [|split]].
      * cbn [seq_loop]. unfold bind at 1. unfold try_ at 1. rewrite Etry.
        unfold bind at 1. rewrite Hsleep, Hloop, Hres. reflexivity.
      * split; [simpl; lia|]. split.
        -- intros [|j] Hj.
           ++ exists (JObj m), v, i, a, resp. rewrite Z.add_0_r. simpl.
              rewrite Hentry. auto.
           ++ destruct (Hoks j ltac:(simpl in Hj; lia))
                as (st & v' & i' & a' & resp' & H1 & H2 & H3 & H4).
              exists st, v', i', a', resp'.
              replace (idx + Z.of_nat (S j)) with (idx + 1 + Z.of_nat j) by lia.
              simpl. auto.
        -- destruct Htail as [[-> Hall]|(st & e & wj & H1 & H2 & H3)].
           ++ left. split; [reflexivity|simpl; lia].
           ++ right. exists st, e, wj. cbn [length].
              replace (idx + Z.of_nat (S (length oks)))
                with (idx + 1 + Z.of_nat (length oks)) by lia.
              simpl. auto.
      * intros Hne steps2 Htake. cbn [length] in Htake.
        destruct steps2 as [|step2 rest2]; [discriminate Htake|].
        cbn [take] in Htake. injection Htake as -> Htake.
        cbn [seq_loop]. unfold bind at 1. unfold try_ at 1. rewrite Etry.
        unfold bind at 1. rewrite Hsleep.
        rewrite (Hlater Hne rest2 Htake), Hres. reflexivity.
      * unfold store_after in *. cbn [length].
        destruct (length oks) as [|j] eqn:El.
        -- exists (JObj m), v, i, a. eexists.
           split; [reflexivity|]. split; [exact Hval|].
           apply (saved_same_store w1 w'); [congruence|].
           rewrite Hw1. apply after_command_saved.
        -- destruct Hstore as (st & v' & i' & a' & rec & H1 & H2 & H3).
           exists st, v', i', a', rec. simpl. auto.
    + (* the step raised *)
      exists [], [fail_entry idx e], w1.
      assert (Hw1 : store_of w1 = store_of w).
      { destruct (step_fields L step) as [e0|[[v i] a]];
          [injection Hrun as _ ->; reflexivity|].
        destruct (validate_params L v i) as [e0|[]];
          [injection Hrun as _ ->; reflexivity|].
        pose proof (psu_post_trace_only L C "/api/send_data"
                      (payload_for_device C v i a) w) as Hst.
        destruct (psu_post L C "/api/send_data" _ w) as [[resp|e0] w0];
          [discriminate Hrun|].
        injection Hrun as _ ->. exact Hst. }
      split; [|split; [|split]].
      * cbn [seq_loop]. unfold bind at 1. unfold try_ at 1. rewrite Etry.
        reflexivity.
      * split; [simpl; lia|]. split; [intros j Hj; simpl in Hj; lia|].
        right. exists step, e, w. simpl. rewrite Z.add_0_r, Etry. auto.
      * intros _ steps2 Htake. cbn [length] in Htake.
        destruct steps2 as [|step2 rest2]; [discriminate Htake|].
        cbn [take] in Htake. injection Htake as ->.
        cbn [seq_loop]. unfold bind at 1. unfold try_ at 1. rewrite Etry.
        reflexivity.
      * exact Hw1.
Qed.

(** The state file is absent or holds a JSON object: what the bridge
    itself ever leaves there. *)
Definition store_ok (w : world) : Prop :=
  state_file w = None \/ exists d, state_file w = Some (Some (JObj d)).

Lemma load_state_total (L : pylib) (w : world) :
  store_ok w -> exists st w', load_state L w = (Ok st, w').
Proof.
  intros Hok. destruct (cache_usable w) eqn:Hc.
  - rewrite (load_state_cached L w Hc). eauto.
  - destruct Hok as [Hf|[d Hf]].
    + rewrite (load_state_bootstrap L w Hc Hf). eauto.
    + rewrite (load_state_from_file L w d Hc Hf). eauto.
Qed.

Definition sequence_response (results : list jval) (st : dict) : response :=
  Response 200 (JObj (<["results" := JList results]> (<["state" := JObj st]> ∅))).

Lemma set_sequence_run (L : pylib) (C : config) (rq : http_request)
    (body : dict) (seq : list jval) (w : world) :
  authorized C rq ->
  req_json rq = Some (JObj body) ->
  body !! "sequence" = Some (JList seq) ->
  (length seq <= 10)%nat ->
  set_sequence L C rq w
  = match seq_loop L C 1 seq [] w with
    | (Ok results, w1) =>
        match load_state L w1 with
        | (Ok st, w') => (Ok (sequence_response results st), w')
        | (Raise e, w') => (Raise e, w')
        end
    | (Raise e, w1) => (Raise e, w1)
    end.
Proof.
  intros Ha Hjson Hseq Hlen.
  assert (Hbody : py_or (req_json rq) (JObj ∅) = JObj body).
  { rewrite Hjson. unfold py_or, truthy.
    rewrite bool_decide_eq_false_2; [reflexivity|].
    intros ->. rewrite lookup_empty in Hseq. discriminate. }
  assert (Hlist : py_or (Some (JList seq)) (JList []) = JList seq).
  { destruct seq; reflexivity. }
  assert (Hlt : (10 <? length seq)%nat = false) by (apply Nat.ltb_ge; exact Hlen).
  unfold set_sequence. unfold bind at 1.
  rewrite (require_token_pass C rq w Ha), Hbody.
  unfold py_get. unfold bind at 1. unfold ret at 1.
  rewrite Hseq, Hlist, Hlt. unfold bind at 1.
  destruct (seq_loop L C 1 seq [] w) as [[results|e] w1]; [|reflexivity].
  unfold bind at 1.
  destruct (load_state L w1) as [[st|e] w']; reflexivity.
Qed.

(** The two-step sequence of the specification: 54 V / 6 A with no delay,
    then -1 V / 6 A. *)
Definition example_sequence : list jval :=
  [ JObj (<["voltage" := JInt 54]> (<["max_current" := JInt 6]>
         (<["delay" := JInt 0]> ∅)));
    JObj (<["voltage" := JInt (-1)]> (<["max_current" := JInt 6]> ∅)) ].

Lemma example_sequence_run (L : pylib) (C : config) (w : world)
    (st0 : Z) (text : string) :
  answer w (HttpPost (PSU_BASE C +:+ "/api/send_data")
                     (payload_for_device C (fz 54) (fz 6) "0")) 1
  = HttpResp st0 text ->
  ~ (400 <= st0 < 600) ->
  exists w1,
    seq_loop L C 1 example_sequence [] w
    = (Ok [ ok_entry 1 (payload_for_device C (fz 54) (fz 6) "0") text;
            fail_entry 2 (range_error L "Voltage" "V" (fz (-1))
                                      VOLT_MIN VOLT_MAX) ], w1)
    /\ saved w1 (fz 54) (fz 6) "0"
         (<["updated_at" := JStr (iso_utc L (stamp_at w))]>
            (commanded_state (fz 54) (fz 6) "0")).
Proof.
  intros Hans Hst.
  set (payload := payload_for_device C (fz 54) (fz 6) "0") in *.
  set (rq := HttpPost (PSU_BASE C +:+ "/api/send_data") payload) in *.
  set (w0 := set_trace (trace w ++ attempt_events rq 1 1) w).
  assert (Hpost : psu_post L C "/api/send_data" payload w = (Ok text, w0)).
  { unfold psu_post, retry.
    rewrite (attempts_from_ext psu_policy _ _
               (psu_post_once_exchange L C "/api/send_data" payload)).
    pose proof (retry_exchange_run rq (post_outcome L) w
                  (post_outcome_faithful L)) as H.
    unfold retry in H. fold rq. rewrite H, Hans. cbn [transient post_outcome].
    destruct ((400 <=? st0) && (st0 <? 600)) eqn:E; [|reflexivity].
    exfalso. apply Hst. apply Bool.andb_true_iff in E. lia. }
  assert (Hstep1 : step_try L C 1 (JObj (<["voltage" := JInt 54]>
                     (<["max_current" := JInt 6]> (<["delay" := JInt 0]> ∅)))) w
                   = (Ok (ok_entry 1 payload text),
                      after_command L (fz 54) (fz 6) "0" w0)).
  { rewrite step_try_run.
    assert (Hf : step_fields L (JObj (<["voltage" := JInt 54]>
                   (<["max_current" := JInt 6]> (<["delay" := JInt 0]> ∅))))
                 = inr (fz 54, fz 6, "0")) by reflexivity.
    assert (Hv : validate_params L (fz 54) (fz 6) = inr tt)
      by (rewrite validate_params_cases; reflexivity).
    rewrite Hf, Hv. fold payload. rewrite Hpost. reflexivity. }
  assert (Hdelay : step_delay L (JObj (<["voltage" := JInt 54]>
                     (<["max_current" := JInt 6]> (<["delay" := JInt 0]> ∅))))
                     (after_command L (fz 54) (fz 6) "0" w0)
                   = (Ok tt, after_command L (fz 54) (fz 6) "0" w0)).
  { rewrite (step_delay_run L _ (fz 0)); reflexivity. }
  assert (Hstep2 : step_try L C 2 (JObj (<["voltage" := JInt (-1)]>
                     (<["max_current" := JInt 6]> ∅)))
                     (after_command L (fz 54) (fz 6) "0" w0)
                   = (Raise (range_error L "Voltage" "V" (fz (-1))
                                         VOLT_MIN VOLT_MAX),
                      after_command L (fz 54) (fz 6) "0" w0)).
  { rewrite step_try_run.
    assert (Hf : step_fields L (JObj (<["voltage" := JInt (-1)]>
                   (<["max_current" := JInt 6]> ∅)))
                 = inr (fz (-1), fz 6, "0")) by reflexivity.
    rewrite Hf, validate_params_cases. reflexivity. }
  exists (after_command L (fz 54) (fz 6) "0" w0). split.
  - unfold example_sequence. cbn [seq_loop].
    unfold bind at 1. unfold try_ at 1. rewrite Hstep1.
    unfold bind at 1. rewrite Hdelay.
    unfold bind at 1. unfold try_ at 1.
    change (1 + 1) with 2. rewrite Hstep2. reflexivity.
  - apply (after_command_saved L (fz 54) (fz 6) "0" w0).
Qed.

(** The value under [k] of a JSON object. *)
Definition field (entry : jval) (k : string) : option jval :=
  match entry with
  | JObj m => m !! k
  | _ => None
  end.

(** The per-step results of a run over [seq]: [oks] holds one entry for
    each of the first steps, in order, each numbered from 1, marked
    [ok: true] and carrying the payload built from the values of its step
    (which pass validation) and the text of the device; [tail] is empty
    when every step went through, and else is the single entry of the
    next step, numbered, marked [ok: false] and carrying the text of the
    exception that the step raised. *)
Definition step_results (L : pylib) (C : config) (seq oks tail : list jval)
  : Prop :=
  (length oks <= length seq)%nat
  /\ (forall j, (j < length oks)%nat ->
        exists entry step v i a resp,
          seq !! j = Some step
          /\ step_values L step = Some (v, i, a)
          /\ validate_params L v i = inr tt
          /\ oks !! j = Some entry
          /\ field entry "step" = Some (JInt (1 + Z.of_nat j))
          /\ field entry "ok" = Some (JBool true)
          /\ field entry "sent" = Some (JObj (payload_for_device C v i a))
          /\ field entry "psu_response" = Some (JStr resp))
  /\ ((tail = [] /\ length oks = length seq)
      \/ exists entry step e wj,
           seq !! length oks = Some step
           /\ fst (step_try L C (1 + Z.of_nat (length oks)) step wj) = Raise e
           /\ tail = [entry]
           /\ field entry "step" = Some (JInt (1 + Z.of_nat (length oks)))
           /\ field entry "ok" = Some (JBool false)
           /\ field entry "error" = Some (JStr (exn_msg e))).

(** What the fail-fast executor promises of the request [rq], carrying
    the sequence [seq], run from [w]: the answer is 200 with the results
    and the state; the results are as [step_results] says; nothing after
    the failing step matters, any accepted request that agrees with this
    one up to that step being handled in the same way; and the state
    returned holds the values of the last step that went through, with
    the stamp of its save, which is also what the state file holds, or,
    when no step went through, is what [load_state()] gives at the time
    of the request. *)
Definition fail_fast_outcome (L : pylib) (C : config) (rq : http_request)
    (seq : list jval) (w : world) : Prop :=
  exists oks tail st body w',
    set_sequence L C rq w = (Ok (Response 200 (JObj body)), w')
    /\ body !! "results" = Some (JList (oks ++ tail))
    /\ body !! "state" = Some (JObj st)
    /\ step_results L C seq oks tail
    /\ (tail <> [] ->
        forall rq2 body2 seq2,
          authorized C rq2 ->
          req_json rq2 = Some (JObj body2) ->
          body2 !! "sequence" = Some (JList seq2) ->
          (length seq2 <= 10)%nat ->
          take (S (length oks)) seq2 = take (S (length oks)) seq ->
          set_sequence L C rq2 w = set_sequence L C rq w)
    /\ match length oks with
       | O => fst (load_state L w) = Ok st
       | S j => exists step v i a ts,
                  seq !! j = Some step
                  /\ step_values L step = Some (v, i, a)
                  /\ st !! "voltage" = Some (JFloat v)
                  /\ st !! "max_current" = Some (JFloat i)
                  /\ st !! "access" = Some (JStr a)
                  /\ st !! "updated_at" = Some (JStr ts)
                  /\ state_file w' = Some (Some (JObj st))
       end.

Lemma fail_fast_run_results (L : pylib) (C : config) (seq oks tail : list jval) :
  fail_fast_run L C 1 seq oks tail -> step_results L C seq oks tail.
Proof.
  intros (Hlen & Hoks & Htail). split; [exact Hlen|]. split.
  - intros j Hj. destruct (Hoks j Hj) as (step & v & i & a & resp & H1 & H2 & H3 & H4).
    exists (ok_entry (1 + Z.of_nat j) (payload_for_device C v i a) resp),
      step, v, i, a, resp.
    repeat (split; [assumption|]). repeat split.
  - destruct Htail as [H|(step & e & wj & H1 & H2 & H3)]; [left; exact H|].
    right. exists (fail_entry (1 + Z.of_nat (length oks)) e), step, e, wj.
    repeat (split; [assumption|]). repeat split.
Qed.

(** A one-step sequence whose delay is the text "soon". *)
Definition bad_delay_step : dict :=
  <["voltage" := JInt 54]> (<["max_current" := JInt 6]>
  (<["delay" := JStr "soon"]> ∅)).

Definition bad_delay_request : http_request :=
  HttpRequest None
    (Some (JObj {[ "sequence" := JList [JObj bad_delay_step] ]})) ∅.

(** A request for one step that fails validation, and a process whose
    state file does not hold JSON. *)
Definition invalid_step_request : http_request :=
  HttpRequest None
    (Some (JObj {[ "sequence" :=
                     JList [JObj (<["voltage" := JInt (-1)]>
                                 (<["max_current" := JInt 6]> ∅))] ]})) ∅.

Definition corrupt_world : world :=
  boot_world (Some None) eighths_clock idle_device.

(** C3, the claim as stated fails, in two ways.  On a state file that
    does not hold JSON, a one-step sequence whose step fails validation is
    not answered with the results and the state: the final
    [load_state()], which no handler guards, raises out of
    [set_sequence].  And on a fresh process with a device that accepts
    the command, a step whose [delay] is a text is not answered either:
    the conversion of the delay raises out of [set_sequence]. *)
Lemma set_sequence_corrupt_store_counterexample :
  (authorized default_config invalid_step_request
   /\ fst (set_sequence demo_lib default_config invalid_step_request
             corrupt_world)
      = Raise (Exn JSONDecodeError "Expecting value")
   /\ ~ fail_fast_outcome demo_lib default_config invalid_step_request
         [JObj (<["voltage" := JInt (-1)]> (<["max_current" := JInt 6]> ∅))]
         corrupt_world)
  /\ (authorized default_config bad_delay_request
      /\ fst (set_sequence demo_lib default_config bad_delay_request
                (boot_world None eighths_clock idle_device))
         = Raise (Exn ValueError "could not convert to float")
      /\ ~ fail_fast_outcome demo_lib default_config bad_delay_request
            [JObj bad_delay_step]
            (boot_world None eighths_clock idle_device)).
Proof.
  assert (Hrun : fst (set_sequence demo_lib default_config invalid_step_request
                        corrupt_world)
                 = Raise (Exn JSONDecodeError "Expecting value")).
  { vm_compute. reflexivity. }
  assert (Hrun2 : fst (set_sequence demo_lib default_config bad_delay_request
                         (boot_world None eighths_clock idle_device))
                  = Raise (Exn ValueError "could not convert to float")).
  { vm_compute. reflexivity. }
  split.
  - split; [left; reflexivity|]. split; [exact Hrun|].
    intros (oks & tail & st & body & w' & Hok & _).
    rewrite Hok in Hrun. discriminate Hrun.
  - split; [left; reflexivity|]. split; [exact Hrun2|].
    intros (oks & tail & st & body & w' & Hok & _).
    rewrite Hok in Hrun2. discriminate Hrun2.
Qed.

(** C3, amended.  For an accepted sequence whose delays are numbers, run
    while [load_state()] can read the stored state: the answer is 200
    with the list of results and the state; the results are the success
    entries of the first steps, in order, then, unless every step went
    through, one failure entry for the next step with the text of what it
    raised, and nothing for the steps after it; the run is the same for
    any sequence that agrees with this one up to the failing step, so no
    later step is executed; the state returned holds the values of the
    last step that went through, which is also what the state file still
    holds (nothing is rolled back), or, when no step went through, what
    [load_state()] gave before the request.  For the sequence
    [54 V / 6 A, delay 0] then [-1 V / 6 A] on a device that accepts the
    command, step 1 is a success, step 2 a failure with the voltage range
    error, and the state is that of step 1. *)
Theorem set_sequence_fail_fast (L : pylib) (C : config) (rq : http_request)
    (body : dict) (seq : list jval) (w : world) :
  authorized C rq ->
  req_json rq = Some (JObj body) ->
  body !! "sequence" = Some (JList seq) ->
  (length seq <= 10)%nat ->
  Forall (fun s => delay_ok L s = true) seq ->
  (exists st0, fst (load_state L w) = Ok st0) ->
  fail_fast_outcome L C rq seq w
  /\ (seq = example_sequence ->
      forall st0 text,
        answer w (HttpPost (PSU_BASE C +:+ "/api/send_data")
                           (payload_for_device C (fz 54) (fz 6) "0")) 1
        = HttpResp st0 text ->
        ~ (400 <= st0 < 600) ->
        exists w',
          set_sequence L C rq w
          = (Ok (Response 200
                   (JObj (<["results" :=
                      JList [ JObj (<["step" := JInt 1]>
                                (<["sent" := JObj (payload_for_device C
                                                     (fz 54) (fz 6) "0")]>
                                (<["psu_response" := JStr text]>
                                (<["ok" := JBool true]> ∅))));
                              JObj (<["step" := JInt 2]>
                                (<["error" := JStr
                                    ("Voltage " +:+ repr_float L (fz (-1))
                                     +:+ " V außerhalb sicherer Grenzen ("
                                     +:+ repr_float L (fz 0) +:+ ", "
                                     +:+ repr_float L (fz 100) +:+ "]")]>
                                (<["ok" := JBool false]> ∅))) ]]>
                         (<["state" :=
                              JObj (<["updated_at" :=
                                       JStr (iso_utc L (stamp_at w))]>
                                   (<["voltage" := JFloat (fz 54)]>
                                   (<["max_current" := JFloat (fz 6)]>
                                   (<["access" := JStr "0"]> ∅))))]> ∅)))),
             w')).
Proof.
  intros Ha Hjson Hseq Hlen Hdelay [st0 Hst0].
  pose proof (set_sequence_run L C rq body seq w Ha Hjson Hseq Hlen) as Hrun.
  split.
  - destruct (seq_loop_fail_fast L C seq 1 [] w Hdelay)
      as (oks & tail & w1 & Hloop & Hff & Hlater & Hstore).
    rewrite Hloop in Hrun. cbn [app] in Hrun.
    assert (exists st w',
              load_state L w1 = (Ok st, w')
              /\ match length oks with
                 | O => fst (load_state L w) = Ok st
                 | S j => exists step v i a ts,
                     seq !! j = Some step
                     /\ step_values L step = Some (v, i, a)
                     /\ st !! "voltage" = Some (JFloat v)
                     /\ st !! "max_current" = Some (JFloat i)
                     /\ st !! "access" = Some (JStr a)
                     /\ st !! "updated_at" = Some (JStr ts)
                     /\ state_file w' = Some (Some (JObj st))
                 end) as (st & w' & Hload & Hstate).
    { unfold store_after in Hstore. destruct (length oks) as [|j].
      - destruct (load_state_same_store L w w1 Hstore) as (Hfst & _ & _).
        rewrite Hst0 in Hfst.
        destruct (load_state L w1) as [r w'] eqn:El. cbn [fst] in Hfst.
        subst r. exists st0, w'. split; [reflexivity|exact Hst0].
      - destruct Hstore as (step & v & i & a & rec & H1 & H2 & Hsaved).
        destruct (load_state_saved L w1 v i a rec Hsaved) as (w' & Hl & Hf & _).
        destruct Hsaved as ((ts & Hrec) & _ & _).
        exists rec, w'. split; [exact Hl|].
        exists step, v, i, a, ts.
        split; [exact H1|]. split; [exact H2|]. rewrite Hrec in *.
        repeat split; try exact Hf. }
    rewrite Hload in Hrun.
    exists oks, tail, st. eexists. exists w'.
    split; [exact Hrun|]. split; [reflexivity|]. split; [reflexivity|].
    split; [apply fail_fast_run_results, Hff|]. split; [|exact Hstate].
    intros Hne rq2 body2 seq2 Ha2 Hjson2 Hseq2 Hlen2 Htake.
    rewrite (set_sequence_run L C rq2 body2 seq2 w Ha2 Hjson2 Hseq2 Hlen2).
    rewrite (Hlater Hne seq2 Htake). cbn [app]. rewrite Hload, Hrun.
    reflexivity.
  - intros -> st1 text Hans Hst.
    destruct (example_sequence_run L C w st1 text Hans Hst)
      as (w1 & Hloop & Hsaved).
    rewrite Hloop in Hrun.
    destruct (load_state_saved L w1 _ _ _ _ Hsaved) as (w' & Hl & _ & _).
    rewrite Hl in Hrun. exists w'. exact Hrun.
Qed.

(** The request carrying the example sequence, with no token configured. *)
Definition example_request : http_request :=
  HttpRequest None (Some (JObj {[ "sequence" := JList example_sequence ]})) ∅.

(** The example run from a fresh process on a device that answers
    200 "OK". *)
Lemma set_sequence_fail_fast_witness :
  exists w',
    set_sequence demo_lib default_config example_request
                 (boot_world None eighths_clock idle_device)
    = (Ok (Response 200
             (JObj (<["results" :=
                JList [ JObj (<["step" := JInt 1]>
                          (<["sent" := JObj (payload_for_device default_config
                                               (fz 54) (fz 6) "0")]>
                          (<["psu_response" := JStr "OK"]>
                          (<["ok" := JBool true]> ∅))));
                        JObj (<["step" := JInt 2]>
                          (<["error" := JStr
                              "Voltage -1.0 V außerhalb sicherer Grenzen (0.0, 100.0]"]>
                          (<["ok" := JBool false]> ∅))) ]]>
                   (<["state" :=
                        JObj (<["updated_at" := JStr "1970-01-01T00:01:40Z"]>
                             (<["voltage" := JFloat (fz 54)]>
                             (<["max_current" := JFloat (fz 6)]>
                             (<["access" := JStr "0"]> ∅))))]> ∅)))), w').
Proof.
  refine (proj2 (set_sequence_fail_fast demo_lib default_config example_request
            {[ "sequence" := JList example_sequence ]} example_sequence
            (boot_world None eighths_clock idle_device) _ _ _ _ _ _)
            eq_refl 200 "OK" eq_refl _).
  - left. reflexivity.
  - reflexivity.
  - reflexivity.
  - simpl. lia.
  - repeat constructor.
  - exists default_state.
    rewrite (load_state_bootstrap demo_lib
               (boot_world None eighths_clock idle_device) eq_refl eq_refl).
    reflexivity.
  - lia.
Defined.

(** C8, what the code does.  The conversion of a step's [delay] stands
    after the [try] block of the step.  When the first step goes through
    (the device is commanded and the record saved) and its [delay] does
    not convert to a float, the conversion error leaves [set_sequence] as
    an unhandled exception: no results list and no state are returned,
    although the command took effect. *)
Theorem set_sequence_delay_error_escapes (L : pylib) (C : config)
    (rq : http_request) (body m : dict) (rest : list jval) (entry : jval)
    (e : exn) (w : world) :
  authorized C rq ->
  req_json rq = Some (JObj body) ->
  body !! "sequence" = Some (JList (JObj m :: rest)) ->
  (length (JObj m :: rest) <= 10)%nat ->
  fst (step_try L C 1 (JObj m) w) = Ok entry ->
  float_of L (default (JInt 0) (m !! "delay")) = inl e ->
  set_sequence L C rq w = (Raise e, snd (step_try L C 1 (JObj m) w))
  /\ exists v i a rec,
       step_values L (JObj m) = Some (v, i, a)
       /\ saved (snd (set_sequence L C rq w)) v i a rec.
Proof.
  intros Ha Hjson Hseq Hlen Htry Hdelay.
  assert (Hrun : set_sequence L C rq w
                 = (Raise e, snd (step_try L C 1 (JObj m) w))).
  { rewrite (set_sequence_run L C rq body _ w Ha Hjson Hseq Hlen).
    cbn [seq_loop]. unfold bind at 1. unfold try_ at 1.
    destruct (step_try L C 1 (JObj m) w) as [[en|e0] w1]; [|discriminate Htry].
    cbn [snd]. unfold bind at 1.
    unfold step_delay, py_get_default, py_float. run_monad.
    rewrite Hdelay. reflexivity. }
  split; [exact Hrun|]. rewrite Hrun. cbn [snd].
  pose proof (step_try_run L C 1 (JObj m) w) as Hst.
  unfold step_values.
  destruct (step_fields L (JObj m)) as [e0|[[v i] a]].
  { rewrite Hst in Htry. discriminate Htry. }
  destruct (validate_params L v i) as [e0|[]].
  { rewrite Hst in Htry. discriminate Htry. }
  destruct (psu_post L C "/api/send_data" _ w) as [[resp|e0] w0].
  - rewrite Hst. cbn [snd]. exists v, i, a. eexists.
    split; [reflexivity|]. apply after_command_saved.
  - rewrite Hst in Htry. discriminate Htry.
Qed.

Lemma set_sequence_delay_error_witness :
  fst (set_sequence demo_lib default_config bad_delay_request
         (boot_world None eighths_clock idle_device))
  = Raise (Exn ValueError "could not convert to float")
  /\ requests_of (trace (snd (set_sequence demo_lib default_config
                                bad_delay_request
                                (boot_world None eighths_clock idle_device))))
     = [HttpPost "http://192.168.4.1/api/send_data"
                 (payload_for_device default_config (fz 54) (fz 6) "0")].
Proof.
  destruct (set_sequence_delay_error_escapes demo_lib default_config
              bad_delay_request
              {[ "sequence" := JList [JObj bad_delay_step] ]}
              bad_delay_step []
              (ok_entry 1 (payload_for_device default_config (fz 54) (fz 6) "0")
                        "OK")
              (Exn ValueError "could not convert to float")
              (boot_world None eighths_clock idle_device)) as [Hrun _].
  - left. reflexivity.
  - reflexivity.
  - vm_compute. reflexivity.
  - simpl. lia.
  - vm_compute. reflexivity.
  - vm_compute. reflexivity.
  - rewrite Hrun. split; [reflexivity|]. vm_compute. reflexivity.
Defined.

(** ** The state file under concurrent requests

    One request thread runs the file part of [save_state] while another
    runs the file part of [load_state].  Each statement that touches the
    file or its lock is one atomic step; the scheduler interleaves the
    steps of the two threads at will, a [flock] step being enabled only
    when the lock can be granted.  How much of the text given to
    [json.dump] the file object passes on to the file before it is closed
    depends on the size of its buffer: the scheduler chooses it. *)
Module Flock.

(** The first [n] characters of [s], and the rest. *)
Fixpoint str_take (n : nat) (s : string) : string :=
  match n, s with
  | S k, String c s' => String c (str_take k s')
  | _, _ => EmptyString
  end.

Fixpoint str_drop (n : nat) (s : string) : string :=
  match n, s with
  | S k, String c s' => str_drop k s'
  | _, _ => s
  end.

(** The file: its bytes, whether an exclusive lock is held, and how many
    shared locks are. *)
Record file : Type := File {
  content : string;
  exclusive : bool;
  shared : nat
}.

(** The writer of [save_state], by the statement it is about to run:
    [STATE_FILE.open("w")], [flock(LOCK_EX)], [json.dump(tmp, f)],
    [flock(LOCK_UN)], the close at the end of the [with] block. *)
Inductive writer : Type :=
| WOpen | WLock | WDump | WUnlock | WClose | WDone.

(** The reader of [load_state]: [STATE_FILE.open("r")], [flock(LOCK_SH)],
    [json.load(f)], [flock(LOCK_UN)]; [RUnlock] and [RDone] carry the
    text that was read. *)
Inductive reader : Type :=
| ROpen | RLock | RRead | RUnlock (seen : string) | RDone (seen : string).

Record system : Type := System {
  the_file : file;
  the_writer : writer;
  buffered : string;     (* what the writer's file object still holds *)
  the_reader : reader
}.

(** One step of the writer, which is saving the text [new].  Opening with
    mode "w" truncates the file at once.  Of the text given to
    [json.dump], the first [flushed] characters are written to the file
    during the call (none when the text fits the buffer) and the rest
    stays in the file object, to be written when it is closed. *)
Definition writer_step (new : string) (flushed : nat) (c : system)
  : option system :=
  let f := the_file c in
  match the_writer c with
  | WOpen => Some (System (File "" (exclusive f) (shared f))
                          WLock "" (the_reader c))
  | WLock =>
      if negb (exclusive f) && Nat.eqb (shared f) 0
      then Some (System (File (content f) true (shared f))
                        WDump (buffered c) (the_reader c))
      else None
  | WDump => Some (System (File (content f +:+ str_take flushed new)
                                (exclusive f) (shared f))
                          WUnlock (str_drop flushed new) (the_reader c))
  | WUnlock => Some (System (File (content f) false (shared f))
                            WClose (buffered c) (the_reader c))
  | WClose => Some (System (File (content f +:+ buffered c)
                                 (exclusive f) (shared f))
                           WDone "" (the_reader c))
  | WDone => None
  end.

(** One step of the reader. *)
Definition reader_step (c : system) : option system :=
  let f := the_file c in
  match the_reader c with
  | ROpen => Some (System f (the_writer c) (buffered c) RLock)
  | RLock =>
      if negb (exclusive f)
      then Some (System (File (content f) (exclusive f) (S (shared f)))
                        (the_writer c) (buffered c) RRead)
      else None
  | RRead => Some (System f (the_writer c) (buffered c) (RUnlock (content f)))
  | RUnlock s => Some (System (File (content f) (exclusive f) (pred (shared f)))
                              (the_writer c) (buffered c) (RDone s))
  | RDone _ => None
  end.

Inductive step (new : string) : system -> system -> Prop :=
| step_writer flushed c c' :
    writer_step new flushed c = Some c' -> step new c c'
| step_reader c c' : reader_step c = Some c' -> step new c c'.

Inductive reachable (new : string) (c0 : system) : system -> Prop :=
| reach_refl : reachable new c0 c0
| reach_step c c' : reachable new c0 c -> step new c c' -> reachable new c0 c'.

(** Both threads about to start on a file that holds [old]. *)
Definition start (old : string) : system :=
  System (File old false 0) WOpen "" ROpen.

(** The schedule: the writer opens (and truncates); the reader opens,
    takes the shared lock, which nobody holds yet, and reads. *)
Definition truncated_read (old : string) : system :=
  System (File "" false 1) WLock "" (RUnlock "").

Lemma truncated_read_reachable (old new : string) :
  reachable new (start old) (truncated_read old).
Proof.
  unfold truncated_read.
  eapply reach_step; [eapply reach_step; [eapply reach_step;
    [eapply reach_step; [apply reach_refl|]|]|]|].
  - apply (step_writer new 0). reflexivity.
  - apply step_reader. reflexivity.
  - apply step_reader. reflexivity.
  - apply step_reader. reflexivity.
Qed.

(** C9, what the code does.  [save_state] truncates the state file when
    it opens it, before it asks for the exclusive lock.  A [load_state]
    scheduled between the two takes the shared lock and reads an empty
    file: content that is neither the previous record nor the new one,
    whatever these are. *)
Theorem reader_sees_truncated_file (old new : string) :
  old <> "" -> new <> "" ->
  exists c,
    reachable new (start old) c
    /\ the_reader c = RUnlock ""
    /\ shared (the_file c) = 1%nat
    /\ exclusive (the_file c) = false
    /\ "" <> old /\ "" <> new.
Proof.
  intros Hold Hnew. exists (truncated_read old).
  split; [apply truncated_read_reachable|repeat split; auto].
Qed.

(** The schedule on a file holding the text of one record while the text
    of another is being saved. *)
Lemma reader_sees_truncated_file_witness :
  exists c,
    reachable "{'voltage': 12.0}" (start "{'voltage': 54.0}") c
    /\ the_reader c = RUnlock "".
Proof.
  destruct (reader_sees_truncated_file "{'voltage': 54.0}" "{'voltage': 12.0}")
    as (c & Hr & Hs & _).
  - discriminate.
  - discriminate.
  - exists c. split; [exact Hr|exact Hs].
Defined.

End Flock.

(** * Further properties of the bridge *)

(** ** Token check *)

Definition unauthorized : exn := Exn (Abort 401) "Unauthorized".

Lemma require_token_deny (C : config) (rq : http_request) (w : world) :
  ~ authorized C rq -> require_token C rq w = (Raise unauthorized, w).
Proof.
  intros Hn. unfold require_token.
  destruct (String.eqb (API_TOKEN C) "") eqn:Et.
  - exfalso. apply Hn. left. apply String.eqb_eq, Et.
  - destruct (bool_decide (hdr_api_key rq = Some (API_TOKEN C))) eqn:Eh.
    + exfalso. apply Hn. right. apply bool_decide_eq_true in Eh. exact Eh.
    + reflexivity.
Qed.

(** X1. With a token configured, a request whose [X-Api-Key] header is
    absent or different is refused by every protected route with
    [abort(401)] before anything else happens: the world is unchanged. *)
Theorem protected_routes_refuse (L : pylib) (C : config) (rq : http_request)
    (w : world) :
  API_TOKEN C <> "" ->
  hdr_api_key rq <> Some (API_TOKEN C) ->
  psu_status L C rq w = (Raise unauthorized, w)
  /\ psu_current L C rq w = (Raise unauthorized, w)
  /\ last_set L C rq w = (Raise unauthorized, w)
  /\ set_voltage_current L C rq w = (Raise unauthorized, w)
  /\ set_vc_alias L C rq w = (Raise unauthorized, w)
  /\ set_sequence L C rq w = (Raise unauthorized, w).
Proof.
  intros Ht Hh.
  assert (Hn : ~ authorized C rq) by (intros [H|H]; contradiction).
  pose proof (require_token_deny C rq w Hn) as Hd.
  unfold psu_status, psu_current, last_set, set_vc_alias, set_voltage_current,
    set_sequence.
  repeat split; unfold bind at 1; rewrite Hd; reflexivity.
Qed.

Definition locked_config : config :=
  {| PSU_BASE := "http://192.168.4.1"; API_TOKEN := "s3cret";
     STATE_FILE := "/var/lib/psu-bridge/state.json"; BALANCED_AMP_ENV := fz 1 |}.

Lemma protected_routes_refuse_witness :
  last_set demo_lib locked_config (HttpRequest (Some "guess") None ∅)
    (boot_world None eighths_clock idle_device)
  = (Raise unauthorized, boot_world None eighths_clock idle_device).
Proof.
  refine (proj1 (proj2 (proj2 (protected_routes_refuse demo_lib locked_config
            (HttpRequest (Some "guess") None ∅)
            (boot_world None eighths_clock idle_device) _ _)))).
  - discriminate.
  - discriminate.
Defined.

(** ** Device calls and the store *)

(** X2. A device call, however many attempts it takes and whatever its
    outcome, changes nothing but the trace: heap, cache globals, state
    file and clock readings are as before. *)
Theorem device_calls_leave_store (L : pylib) (C : config) (w : world) :
  (forall path payload,
     store_of (snd (psu_post L C path payload w)) = store_of w)
  /\ (forall path, store_of (snd (psu_get L C path w)) = store_of w).
Proof.
  split.
  - intros path payload. apply psu_post_trace_only.
  - intros path. apply psu_get_trace_only.
Qed.

Lemma psu_get_run (L : pylib) (C : config) (path : string) (w : world) :
  let rq := HttpGet (PSU_BASE C +:+ path) in
  psu_get L C path w
  = if transient (answer w rq 1) then
      if transient (answer w rq 2) then
        (get_outcome L (answer w rq 3),
         set_trace (trace w ++ attempt_events rq 3 1) w)
      else (get_outcome L (answer w rq 2),
            set_trace (trace w ++ attempt_events rq 2 1) w)
    else (get_outcome L (answer w rq 1),
          set_trace (trace w ++ attempt_events rq 1 1) w).
Proof.
  intros rq. unfold psu_get, retry.
  rewrite (attempts_from_ext psu_policy _ _ (psu_get_once_exchange L C path)).
  exact (retry_exchange_run rq (get_outcome L) w (get_outcome_faithful L)).
Qed.

Lemma psu_post_run (L : pylib) (C : config) (path : string) (payload : dict)
    (w : world) :
  let rq := HttpPost (PSU_BASE C +:+ path) payload in
  psu_post L C path payload w
  = if transient (answer w rq 1) then
      if transient (answer w rq 2) then
        (post_outcome L (answer w rq 3),
         set_trace (trace w ++ attempt_events rq 3 1) w)
      else (post_outcome L (answer w rq 2),
            set_trace (trace w ++ attempt_events rq 2 1) w)
    else (post_outcome L (answer w rq 1),
          set_trace (trace w ++ attempt_events rq 1 1) w).
Proof.
  intros rq. unfold psu_post, retry.
  rewrite (attempts_from_ext psu_policy _ _
             (psu_post_once_exchange L C path payload)).
  exact (retry_exchange_run rq (post_outcome L) w (post_outcome_faithful L)).
Qed.

(** ** [/psu/status] *)

Definition status_get (C : config) : request :=
  HttpGet (PSU_BASE C +:+ "/api/chargeStatus").

(** X3. When all three attempts on the device fail with a connection
    error or a timeout, [/psu/status] answers after exactly three requests
    and the two pauses: 503 "PSU nicht erreichbar" if the last failure is
    a connection error, a connect timeout included (the
    [except ConnectionError] clause comes first), and 504 "PSU Timeout"
    if it is another timeout. *)
Theorem psu_status_device_down (L : pylib) (C : config) (rq : http_request)
    (w : world) (e : exn) :
  authorized C rq ->
  transient (answer w (status_get C) 1) = true ->
  transient (answer w (status_get C) 2) = true ->
  answer w (status_get C) 3 = HttpFail e ->
  is_connection_error e || is_timeout e = true ->
  psu_status L C rq w
  = (Ok (if is_connection_error e
         then Response 503 (JObj (error_body "PSU nicht erreichbar"))
         else Response 504 (JObj (error_body "PSU Timeout"))),
     set_trace (trace w ++ [EvRequest (status_get C); EvSleep (backoff 1);
                            EvRequest (status_get C); EvSleep (backoff 2);
                            EvRequest (status_get C)]) w).
Proof.
  intros Ha H1 H2 H3 He. unfold psu_status. unfold bind at 1.
  rewrite (require_token_pass C rq w Ha). unfold bind at 1. unfold try_ at 1.
  rewrite psu_get_run. fold (status_get C). rewrite H1, H2, H3.
  cbn [get_outcome attempt_events].
  destruct (is_connection_error e); [reflexivity|].
  cbn [orb] in He. rewrite He. reflexivity.
Qed.

(** A device that refuses every connection. *)
Definition dead_device (_ : list request) : http_result :=
  HttpFail (Exn ConnectTimeout "connect timed out").

Lemma psu_status_device_down_witness :
  fst (psu_status demo_lib default_config (HttpRequest None None ∅)
         (boot_world None eighths_clock dead_device))
  = Ok (Response 503 (JObj (error_body "PSU nicht erreichbar"))).
Proof.
  rewrite (psu_status_device_down demo_lib default_config
             (HttpRequest None None ∅)
             (boot_world None eighths_clock dead_device)
             (Exn ConnectTimeout "connect timed out")).
  - reflexivity.
  - left. reflexivity.
  - reflexivity.
  - reflexivity.
  - reflexivity.
  - reflexivity.
Defined.

(** X4. A response with an error status (400 to 599) received at the
    first attempt makes [/psu/status] answer 502 with the text of the
    [HTTPError], after that single request and without any pause. *)
Theorem psu_status_error_status (L : pylib) (C : config) (rq : http_request)
    (w : world) (st : Z) (text : string) :
  authorized C rq ->
  answer w (status_get C) 1 = HttpResp st text ->
  400 <= st < 600 ->
  psu_status L C rq w
  = (Ok (Response 502 (JObj (error_body (http_error_msg L st)))),
     set_trace (trace w ++ [EvRequest (status_get C)]) w).
Proof.
  intros Ha H1 Hst. unfold psu_status. unfold bind at 1.
  rewrite (require_token_pass C rq w Ha). unfold bind at 1. unfold try_ at 1.
  rewrite psu_get_run. fold (status_get C). rewrite H1.
  cbn [transient get_outcome attempt_events].
  rewrite (status_error_raised st Hst). reflexivity.
Qed.

(** A device that answers every request with 500. *)
Definition failing_device (_ : list request) : http_result :=
  HttpResp 500 "boom".

Lemma psu_status_error_status_witness :
  psu_status demo_lib default_config (HttpRequest None None ∅)
    (boot_world None eighths_clock failing_device)
  = (Ok (Response 502 (JObj (error_body "500 Error"))),
     set_trace [EvRequest (status_get default_config)]
               (boot_world None eighths_clock failing_device)).
Proof.
  rewrite (psu_status_error_status demo_lib default_config
             (HttpRequest None None ∅)
             (boot_world None eighths_clock failing_device) 500 "boom").
  - reflexivity.
  - left. reflexivity.
  - reflexivity.
  - lia.
Defined.

(** ** More on the state store *)

Lemma lookup_setdefault (k : string) (v : jval) (d : dict) (k' : string) :
  dict_setdefault k v d !! k'
  = match d !! k' with
    | Some x => Some x
    | None => if decide (k = k') then Some v else None
    end.
Proof.
  unfold dict_setdefault. destruct (decide (k = k')) as [<-|Hne].
  - destruct (d !! k) eqn:E.
    + rewrite E. reflexivity.
    + rewrite lookup_insert_eq. reflexivity.
  - destruct (d !! k) eqn:E.
    + destruct (d !! k'); reflexivity.
    + rewrite lookup_insert_ne by exact Hne. destruct (d !! k'); reflexivity.
Qed.

(** What [load_state] puts under a key that the file lacks. *)
Definition backfill_default (k : string) : option jval :=
  if decide (k = "access") then Some (JStr "0")
  else if decide (k = "voltage") then Some JNull
  else if decide (k = "max_current") then Some JNull
  else if decide (k = "updated_at") then Some JNull
  else None.

Lemma backfill_lookup (d : dict) (k : string) :
  backfill d !! k
  = match d !! k with
    | Some x => Some x
    | None => backfill_default k
    end.
Proof.
  unfold backfill, backfill_default. rewrite !lookup_setdefault.
  destruct (d !! k); [reflexivity|].
  destruct (decide ("voltage" = k)) as [<-|H1]; [reflexivity|].
  destruct (decide ("max_current" = k)) as [<-|H2]; [reflexivity|].
  destruct (decide ("access" = k)) as [<-|H3]; [reflexivity|].
  destruct (decide ("updated_at" = k)) as [<-|H4]; [reflexivity|].
  repeat (destruct (decide _) as [->|?]; [congruence|]).
  reflexivity.
Qed.

Lemma backfill_nonempty (d : dict) : backfill d <> ∅.
Proof.
  intros H.
  assert (Hl : backfill d !! "voltage" = None) by (rewrite H; apply lookup_empty).
  rewrite backfill_lookup in Hl. destruct (d !! "voltage"); discriminate Hl.
Qed.

Lemma default_state_nonempty : default_state <> ∅.
Proof. apply insert_non_empty. Qed.

Lemma truthy_dict (d : dict) : d <> ∅ -> truthy (JObj d) = true.
Proof.
  intros H. simpl. rewrite bool_decide_eq_false_2 by exact H. reflexivity.
Qed.

Lemma truthy_dict_inv (d : dict) : truthy (JObj d) = true -> d <> ∅.
Proof.
  simpl. intros H Hd. rewrite bool_decide_eq_true_2 in H by exact Hd.
  discriminate H.
Qed.

(** X5. A fresh, non-empty cache is served without looking at the state
    file: whatever the file holds, even nothing or text that is not JSON,
    [load_state()] returns the cached record and changes nothing (the
    clock was read once). *)
Theorem load_state_serves_cache (L : pylib) (w : world)
    (f : option (option jval)) :
  cache_usable w = true ->
  load_state L (set_state_file f w)
  = (Ok (obj w (state_cache w)), set_ticks (S (ticks w)) (set_state_file f w)).
Proof.
  intros H. apply (load_state_cached L (set_state_file f w)). exact H.
Qed.

(** A process whose cache was filled at 100.4 s, read again at 100.5 s. *)
Definition warm_world : world :=
  World {[ 1%positive := commanded_state (fz 54) (fz 6) "0" ]} 1%positive
        (502 # 5) (Some None) eighths_clock 0 idle_device [].

Lemma load_state_serves_cache_witness :
  fst (load_state demo_lib (set_state_file None warm_world))
  = Ok (commanded_state (fz 54) (fz 6) "0").
Proof.
  rewrite (load_state_serves_cache demo_lib warm_world None).
  - reflexivity.
  - reflexivity.
Defined.

(** X6. Two loads in a row: if a [load_state()] returned a record, by
    whichever of its three paths, and the next one reads the clock less
    than a second after the cache time, the next one returns the same
    record and changes nothing. *)
Theorem load_state_twice (L : pylib) (w w1 : world) (r : dict) :
  load_state L w = (Ok r, w1) ->
  (clock w1 (ticks w1) - cache_time w1 < 1)%Q ->
  load_state L w1 = (Ok r, set_ticks (S (ticks w1)) w1).
Proof.
  intros Hload Hsoon.
  assert (obj w1 (state_cache w1) = r /\ r <> ∅) as [Hobj Hne].
  { destruct (cache_usable w) eqn:Hc.
    - rewrite (load_state_cached L w Hc) in Hload. injection Hload as <- <-.
      split; [reflexivity|].
      apply truthy_dict_inv. unfold cache_usable in Hc.
      apply Bool.andb_true_iff in Hc. apply Hc.
    - destruct (state_file w) as [[v|]|] eqn:Hf.
      + destruct v as [| b | z | x | s | l | d];
          try (exfalso; destruct w as [h c ct f clk n dev tr];
               unfold cache_usable, obj in Hc;
               cbn [heap state_cache cache_time clock ticks state_file] in Hc, Hf;
               unfold load_state in Hload; revert Hload; run_world;
               rewrite Hc, Hf; discriminate).
        rewrite (load_state_from_file L w d Hc Hf) in Hload.
        injection Hload as <- <-. unfold obj. cbn [heap state_cache].
        rewrite lookup_insert_eq. split; [reflexivity|apply backfill_nonempty].
      + exfalso. destruct w as [h c ct f clk n dev tr].
        unfold cache_usable, obj in Hc.
        cbn [heap state_cache cache_time clock ticks state_file] in Hc, Hf.
        unfold load_state in Hload. revert Hload. run_world.
        rewrite Hc, Hf. discriminate.
      + rewrite (load_state_bootstrap L w Hc Hf) in Hload.
        injection Hload as <- <-. unfold obj. cbn [heap state_cache].
        rewrite lookup_insert_ne.
        * rewrite lookup_insert_eq. split; [reflexivity|].
          apply default_state_nonempty.
        * apply fresh_not_in. rewrite lookup_insert_eq. eauto. }
  rewrite load_state_cached; [rewrite Hobj; reflexivity|].
  unfold cache_usable. rewrite Hobj, (truthy_dict r Hne), Bool.andb_true_r.
  apply Qlt_bool_iff, Hsoon.
Qed.

Lemma load_state_twice_witness :
  fst (load_state demo_lib
         (snd (load_state demo_lib (boot_world None eighths_clock idle_device))))
  = Ok default_state.
Proof.
  pose proof (load_state_bootstrap demo_lib
                (boot_world None eighths_clock idle_device) eq_refl eq_refl)
    as Hboot.
  rewrite Hboot. cbn [snd].
  rewrite (load_state_twice demo_lib _ _ default_state Hboot).
  - reflexivity.
  - reflexivity.
Defined.

(** X7. Reading the file: with no usable cache and a state file holding
    a JSON object, [load_state()] returns that object with the missing
    ones of the four keys filled in ("0" for [access], null for the
    others): every key of the file keeps its value, keys outside the four
    are neither added nor dropped, the file is not rewritten, and the
    record returned is the one left in the cache. *)
Theorem load_state_backfills (L : pylib) (w : world) (d : dict) :
  cache_usable w = false ->
  state_file w = Some (Some (JObj d)) ->
  exists r w',
    load_state L w = (Ok r, w')
    /\ (forall k v, d !! k = Some v -> r !! k = Some v)
    /\ (d !! "voltage" = None -> r !! "voltage" = Some JNull)
    /\ (d !! "max_current" = None -> r !! "max_current" = Some JNull)
    /\ (d !! "access" = None -> r !! "access" = Some (JStr "0"))
    /\ (d !! "updated_at" = None -> r !! "updated_at" = Some JNull)
    /\ (forall k, k <> "voltage" -> k <> "max_current" -> k <> "access" ->
                  k <> "updated_at" -> r !! k = d !! k)
    /\ state_file w' = Some (Some (JObj d))
    /\ obj w' (state_cache w') = r.
Proof.
  intros Hc Hf. rewrite (load_state_from_file L w d Hc Hf).
  exists (backfill d). eexists. split; [reflexivity|].
  cbn [state_file state_cache].
  split; [intros k v Hk; rewrite backfill_lookup, Hk; reflexivity|].
  split; [intros Hk; rewrite backfill_lookup, Hk; reflexivity|].
  split; [intros Hk; rewrite backfill_lookup, Hk; reflexivity|].
  split; [intros Hk; rewrite backfill_lookup, Hk; reflexivity|].
  split; [intros Hk; rewrite backfill_lookup, Hk; reflexivity|].
  split.
  - intros k H1 H2 H3 H4. rewrite backfill_lookup.
    destruct (d !! k); [reflexivity|]. unfold backfill_default.
    repeat (destruct (decide _) as [->|?]; [congruence|]). reflexivity.
  - split; [exact Hf|]. unfold obj. cbn [heap].
    rewrite lookup_insert_eq. reflexivity.
Qed.

(** A process started on a legacy file that only has a voltage. *)
Definition legacy_world : world :=
  boot_world (Some (Some (JObj {[ "voltage" := JFloat (fz 48) ]})))
             eighths_clock idle_device.

Lemma load_state_backfills_witness :
  exists r,
    fst (load_state demo_lib legacy_world) = Ok r
    /\ r !! "voltage" = Some (JFloat (fz 48))
    /\ r !! "access" = Some (JStr "0").
Proof.
  destruct (load_state_backfills demo_lib legacy_world
              {[ "voltage" := JFloat (fz 48) ]} eq_refl eq_refl)
    as (r & w' & Hl & Hkeep & _ & _ & Hacc & _).
  exists r. rewrite Hl. split; [reflexivity|]. split.
  - apply Hkeep. reflexivity.
  - apply Hacc. reflexivity.
Defined.

(** X8. A state file that does not hold a JSON object is not repaired:
    with no usable cache, [load_state()] raises a JSON decode error when
    the content is not JSON and an [AttributeError] when it is JSON of
    another kind; file, heap and cache globals are left as they are, so
    the next load fails in the same way. *)
Theorem load_state_corrupt_file (L : pylib) (w : world) :
  cache_usable w = false ->
  (state_file w = Some None ->
   load_state L w = (Raise (Exn JSONDecodeError (decode_err_msg L)),
                     set_ticks (S (ticks w)) w))
  /\ (forall v, state_file w = Some (Some v) ->
        (forall d, v <> JObj d) ->
        load_state L w = (Raise (Exn AttributeError (not_dict_msg L v)),
                          set_ticks (S (ticks w)) w)).
Proof.
  intros Hc. destruct w as [h c ct f clk n dev tr].
  unfold cache_usable, obj in Hc.
  cbn [heap state_cache cache_time clock ticks state_file] in Hc.
  split.
  - cbn [state_file]. intros ->. unfold load_state. run_world.
    rewrite Hc. reflexivity.
  - cbn [state_file]. intros v -> Hv. unfold load_state. run_world.
    rewrite Hc. destruct v; try reflexivity.
    exfalso. exact (Hv _ eq_refl).
Qed.

Lemma load_state_corrupt_file_witness :
  fst (load_state demo_lib
         (boot_world (Some (Some (JList []))) eighths_clock idle_device))
  = Raise (Exn AttributeError "not a dictionary").
Proof.
  rewrite (proj2 (load_state_corrupt_file demo_lib
                    (boot_world (Some (Some (JList []))) eighths_clock
                                idle_device) eq_refl) (JList []) eq_refl).
  - reflexivity.
  - discriminate.
Defined.

(** X9. The round trip through the file: when the cache has expired by
    the time of the load (the clock is read a second or more after the
    cache time set by the save), [load_state()] after [save_state(s)]
    returns the stamped copy of [s] as read back from the file, with the
    missing ones of the four keys filled in; every key of [s] other than
    [updated_at] keeps its value. *)
Theorem save_load_through_file (L : pylib) (w : world) (s : loc) :
  (1 <= clock w (S (S (ticks w))) - clock w (S (ticks w)))%Q ->
  exists r,
    fst (load_state L (snd (save_state L s w))) = Ok r
    /\ r = backfill (stamped L w (obj w s))
    /\ r !! "updated_at" = Some (JStr (iso_utc L (stamp_at w)))
    /\ (forall k v, k <> "updated_at" -> obj w s !! k = Some v ->
                    r !! k = Some v).
Proof.
  intros Hlate. rewrite save_state_run. cbn [snd].
  assert (Hc : cache_usable (after_save L s w) = false).
  { unfold cache_usable, after_save. cbn [clock ticks cache_time].
    apply Bool.andb_false_iff. left. apply Qlt_bool_false_iff, Hlate. }
  rewrite (load_state_from_file L _ (stamped L w (obj w s)) Hc eq_refl).
  cbn [fst]. eexists. split; [reflexivity|]. split; [reflexivity|]. split.
  - rewrite backfill_lookup. unfold stamped. rewrite lookup_insert_eq.
    reflexivity.
  - intros k v Hk Hv. rewrite backfill_lookup. unfold stamped.
    rewrite lookup_insert_ne by congruence. rewrite Hv. reflexivity.
Qed.

(** A clock that advances two seconds between readings. *)
Definition slow_clock (n : nat) : Q := inject_Z (100 + 2 * Z.of_nat n).

Lemma save_load_through_file_witness :
  exists r,
    fst (load_state demo_lib
           (snd (save_state demo_lib 1%positive
                   (boot_world None slow_clock idle_device)))) = Ok r
    /\ r !! "updated_at" = Some (JStr "1970-01-01T00:01:40Z")
    /\ r !! "access" = Some (JStr "0").
Proof.
  destruct (save_load_through_file demo_lib
              (boot_world None slow_clock idle_device) 1%positive)
    as (r & Hl & Hr & Hu & _).
  - vm_compute. discriminate.
  - exists r. split; [exact Hl|]. split; [exact Hu|].
    rewrite Hr, backfill_lookup. reflexivity.
Defined.

(** ** Telemetry parsing *)

Lemma parse_suffixes_sound (L : pylib) (s : string) (x : pyfloat)
    (sufs : list string) :
  parse_suffixes L s sufs = Some x ->
  exists suf, In suf sufs /\ endswith s suf = true
              /\ float_of_str L (remove_all suf s) = Some x.
Proof.
  induction sufs as [|suf rest IH]; [discriminate|]. simpl.
  destruct (endswith s suf) eqn:Ee.
  - destruct (float_of_str L (remove_all suf s)) as [y|] eqn:Ef.
    + intros [= <-]. exists suf. auto.
    + intros H. destruct (IH H) as (suf' & Hin & H1 & H2).
      exists suf'. auto.
  - intros H. destruct (IH H) as (suf' & Hin & H1 & H2). exists suf'. auto.
Qed.

(** X10. [_parse_float] gives a float only in two ways: [float(v)]
    succeeds, and then its result is returned; or [v] is a string that
    [float] rejects, ends with one of " V", "V", " A", "A", and converts
    once that suffix text is removed.  Python's [None], lists and objects
    give [None], and nothing is ever raised. *)
Theorem parse_float_sound (L : pylib) (v : option jval) :
  (forall x, _parse_float L v = Some x ->
     (exists j, v = Some j /\ float_of L j = inr x)
     \/ (exists s suf e,
           v = Some (JStr s) /\ float_of L (JStr s) = inl e
           /\ In suf unit_suffixes /\ endswith s suf = true
           /\ float_of_str L (remove_all suf s) = Some x))
  /\ (forall j x, v = Some j -> j <> JNull -> float_of L j = inr x ->
        _parse_float L v = Some x)
  /\ (forall j, v = Some j ->
        match j with JNull | JList _ | JObj _ => True | _ => False end ->
        _parse_float L v = None).
Proof.
  split; [|split].
  - intros x. destruct v as [j|]; [|discriminate]. unfold _parse_float.
    destruct j as [| b | z | y | s | l | m]; try discriminate;
      try (destruct (float_of L _) as [e|f] eqn:Ef;
           [discriminate|intros [= <-]; left; eexists; split;
                         [reflexivity|exact Ef]]).
    destruct (float_of L (JStr s)) as [e|f] eqn:Ef.
    + intros H. right.
      destruct (parse_suffixes_sound L s x unit_suffixes H)
        as (suf & Hin & H1 & H2).
      exists s, suf, e. auto.
    + intros [= <-]. left. eexists. split; [reflexivity|exact Ef].
  - intros j x -> Hj Hf. unfold _parse_float.
    destruct j; try congruence; rewrite Hf; reflexivity.
  - intros j -> Hj. destruct j; try contradiction; reflexivity.
Qed.

(** The characters of [s] other than [c]. *)
Fixpoint drop_char (c : ascii) (s : string) : string :=
  match s with
  | EmptyString => EmptyString
  | String a s' => if Ascii.eqb c a then drop_char c s'
                   else String a (drop_char c s')
  end.

Lemma remove_all_char (c : ascii) (s : string) :
  remove_all (String c EmptyString) s = drop_char c s.
Proof.
  unfold remove_all. induction s as [|a s IH]; [reflexivity|].
  cbn [remove_go drop_char String.prefix String.length Nat.sub].
  destruct (Ascii.eqb c a) eqn:E.
  - destruct (ascii_dec c a) as [_|Hn].
    + destruct s; exact IH.
    + apply Ascii.eqb_eq in E. contradiction.
  - destruct (ascii_dec c a) as [He|_].
    + apply Ascii.eqb_neq in E. contradiction.
    + rewrite IH. reflexivity.
Qed.

(** X11. The unit is stripped with [str.replace], so every occurrence of
    the suffix text goes, not only the one at the end: for a string that
    [float] rejects and that ends with "V" but not with " V", the value is
    [float] of the string with all its "V" characters dropped. *)
Theorem parse_float_strips_every_unit (L : pylib) (s : string) (x : pyfloat) :
  float_of_str L s = None ->
  endswith s " V" = false ->
  endswith s "V" = true ->
  float_of_str L (drop_char "V" s) = Some x ->
  _parse_float L (Some (JStr s)) = Some x.
Proof.
  intros Hf H1 H2 Hx. unfold _parse_float, float_of. rewrite Hf.
  unfold unit_suffixes. cbn [parse_suffixes]. rewrite H1, H2.
  rewrite (remove_all_char "V" s), Hx. reflexivity.
Qed.

Lemma parse_float_strips_every_unit_witness :
  _parse_float demo_lib (Some (JStr "1V2.5V")) = Some (PFin (25 # 2)).
Proof.
  apply (parse_float_strips_every_unit demo_lib "1V2.5V" (PFin (25 # 2)));
    reflexivity.
Defined.

(** ** Inter-step delay *)

(** X12. The delay after a step: when the [delay] field converts to a
    float, the step sleeps at most once, for a finite time that is
    positive and at most 10 s (10 s for any larger delay, infinity
    included), and does not sleep at all when the delay is zero, negative
    or NaN; nothing else changes. *)
Theorem step_delay_capped (L : pylib) (m : dict) (d : pyfloat) (w : world) :
  float_of L (default (JInt 0) (m !! "delay")) = inr d ->
  exists evs,
    step_delay L (JObj m) w = (Ok tt, set_trace (trace w ++ evs) w)
    /\ ((flt (fz 0) d = false /\ evs = [])
        \/ (flt (fz 0) d = true
            /\ exists q, evs = [EvSleep (PFin q)]
                         /\ (0 < q)%Q /\ (q <= 10)%Q
                         /\ (fle d (fz 10) = true -> d = PFin q)
                         /\ (fle d (fz 10) = false -> q = 10%Q))).
Proof.
  intros Hd. rewrite (step_delay_run L m d w Hd).
  destruct (flt (fz 0) d) eqn:E0.
  - destruct d as [|[]|q]; try discriminate E0.
    + exists [EvSleep (PFin 10)]. split; [reflexivity|]. right.
      split; [reflexivity|]. exists 10%Q.
      repeat split; discriminate.
    + unfold py_min, flt, fz. cbn [flt fle fz] in *.
      destruct (Qlt_bool (inject_Z 10) q) eqn:E10.
      * exists [EvSleep (PFin (inject_Z 10))]. split; [reflexivity|]. right.
        split; [reflexivity|]. exists (inject_Z 10).
        split; [reflexivity|]. split; [reflexivity|].
        split; [discriminate|]. split; [|intros _; reflexivity].
        intros Hle. apply Qle_bool_iff in Hle. apply Qlt_bool_iff in E10.
        exfalso. exact (Qlt_not_le _ _ E10 Hle).
      * exists [EvSleep (PFin q)]. split; [reflexivity|]. right.
        split; [reflexivity|]. exists q. split; [reflexivity|].
        apply Qlt_bool_iff in E0. apply Qlt_bool_false_iff in E10.
        split; [exact E0|]. split; [exact E10|].
        split; [intros _; reflexivity|].
        intros Hle. exfalso.
        apply Qle_bool_iff in E10. congruence.
  - exists []. rewrite app_nil_r. split.
    + destruct w; reflexivity.
    + left. split; reflexivity.
Qed.

Lemma step_delay_capped_witness :
  step_delay demo_lib (JObj {[ "delay" := JInt 3600 ]})
    (boot_world None eighths_clock idle_device)
  = (Ok tt, set_trace [EvSleep (fz 10)]
                      (boot_world None eighths_clock idle_device)).
Proof.
  assert (Hd : float_of demo_lib
                 (default (JInt 0)
                    (({[ "delay" := JInt 3600 ]} : dict) !! "delay"))
               = inr (fz 3600)) by reflexivity.
  destruct (step_delay_capped demo_lib {[ "delay" := JInt 3600 ]} (fz 3600)
              (boot_world None eighths_clock idle_device) Hd)
    as (evs & Hrun & [[Hno _]|(_ & q & -> & _ & _ & _ & Hbig)]).
  - discriminate Hno.
  - rewrite Hrun, (Hbig eq_refl). reflexivity.
Defined.

(** ** [/set] *)

(** The answer of [/set] to a failure of the second [try] block. *)
Definition set_failure_response (e : exn) (payload : dict) : response :=
  if is_connection_error e
  then Response 503 (JObj (sent_error "PSU nicht erreichbar" payload))
  else if is_timeout e
  then Response 504 (JObj (sent_error "PSU Timeout" payload))
  else Response 502 (JObj (sent_error (str_exn e) payload)).

Definition set_success_response (payload : dict) (text : string) (st : dict)
  : response :=
  Response 200 (JObj (<["sent" := JObj payload]>
                     (<["psu_response" := JStr text]>
                     (<["state" := JObj st]> ∅)))).

(** The access code of a [/set] request whose values come from the body. *)
Definition body_access (L : pylib) (body : dict) : string :=
  py_str L (py_or (body !! "access") (JStr "0")).

Lemma set_parse_run (L : pylib) (vv iv : jval) (w : world) :
  set_parse L vv iv w
  = (match float_of L vv with
     | inl e => Raise e
     | inr v =>
         match float_of L iv with
         | inl e => Raise e
         | inr i =>
             match validate_params L v i with
             | inl e => Raise e
             | inr _ => Ok (v, i)
             end
         end
     end, w).
Proof.
  unfold set_parse, py_float. run_monad.
  destruct (float_of L vv) as [e|v]; [reflexivity|]. run_monad.
  destruct (float_of L iv) as [e|i]; [reflexivity|]. run_monad.
  destruct (validate_params L v i) as [e|[]]; reflexivity.
Qed.

Lemma set_voltage_current_run (L : pylib) (C : config) (rq : http_request)
    (body : dict) (w : world) :
  authorized C rq ->
  req_args rq = ∅ ->
  req_json rq = Some (JObj body) ->
  body <> ∅ ->
  set_voltage_current L C rq w
  = if is_none (body !! "voltage") || is_none (body !! "max_current")
    then (Ok (Response 400
                (JObj (error_body "Provide 'voltage' and 'max_current'."))), w)
    else
      match fst (set_parse L (opt_json (body !! "voltage"))
                           (opt_json (body !! "max_current")) w) with
      | Raise ve =>
          if is_value_error ve
          then (Ok (Response 400 (JObj (error_body (str_exn ve)))), w)
          else (Raise ve, w)
      | Ok (v, i) =>
          let payload := payload_for_device C v i (body_access L body) in
          match set_send L C v i (body_access L body) payload w with
          | (Ok resp, w') => (Ok resp, w')
          | (Raise e, w') => (Ok (set_failure_response e payload), w')
          end
      end.
Proof.
  intros Ha Hargs Hjson Hne.
  assert (Hbody : py_or (req_json rq) (JObj ∅) = JObj body).
  { rewrite Hjson. unfold py_or. rewrite (truthy_dict body Hne). reflexivity. }
  assert (Harg : forall key w0,
            arg_or_body L rq (JObj body) key w0 = (Ok (body !! key), w0)).
  { intros key w0. unfold arg_or_body. rewrite Hargs, lookup_empty.
    reflexivity. }
  unfold set_voltage_current. unfold bind at 1.
  rewrite (require_token_pass C rq w Ha), Hbody.
  unfold bind at 1. rewrite Harg. unfold bind at 1. rewrite Harg.
  unfold bind at 1. rewrite Harg. fold (body_access L body).
  destruct (is_none (body !! "voltage") || is_none (body !! "max_current"));
    [reflexivity|].
  unfold bind at 1. unfold try_ at 1. rewrite set_parse_run. cbn [fst].
  destruct (match float_of L (opt_json (body !! "voltage")) with
            | inl e => Raise e
            | inr v => _
            end) as [[v i]|ve].
  - unfold bind at 1. unfold try_ at 1.
    destruct (set_send L C v i (body_access L body) _ w) as [[resp|e] w'];
      [reflexivity|].
    unfold set_failure_response, ret.
    destruct (is_connection_error e); [reflexivity|].
    destruct (is_timeout e); reflexivity.
  - destruct (is_value_error ve); reflexivity.
Qed.

Lemma set_send_failed (L : pylib) (C : config) (v i : pyfloat) (a : string)
    (payload : dict) (w w1 : world) (e : exn) :
  psu_post L C "/api/send_data" payload w = (Raise e, w1) ->
  set_send L C v i a payload w = (Raise e, w1).
Proof.
  intros Hp. unfold set_send. unfold bind at 1. rewrite Hp. reflexivity.
Qed.

Lemma set_send_done (L : pylib) (C : config) (v i : pyfloat) (a : string)
    (payload : dict) (w w1 : world) (text : string) :
  psu_post L C "/api/send_data" payload w = (Ok text, w1) ->
  exists w',
    set_send L C v i a payload w
    = (Ok (set_success_response payload text
             (<["updated_at" := JStr (iso_utc L (stamp_at w))]>
                (commanded_state v i a))), w')
    /\ saved w' v i a (<["updated_at" := JStr (iso_utc L (stamp_at w))]>
                         (commanded_state v i a))
    /\ trace w' = trace w1.
Proof.
  intros Hp.
  pose proof (psu_post_trace_only L C "/api/send_data" payload w) as Hst.
  rewrite Hp in Hst. cbn [snd] in Hst.
  assert (Hsaved := after_command_saved L v i a w1).
  assert (Hstamp : stamp_at w1 = stamp_at w).
  { unfold stamp_at, store_of in *. injection Hst as _ _ _ _ -> -> _.
    reflexivity. }
  rewrite Hstamp in Hsaved.
  destruct (load_state_saved L _ _ _ _ _ Hsaved) as (w' & Hl & Hf & Htr).
  exists w'. split; [|split].
  - unfold set_send. unfold bind at 1. rewrite Hp.
    unfold bind at 1. unfold alloc at 1. unfold bind at 1.
    rewrite save_state_run. unfold bind at 1.
    change (after_save L (fresh (dom (heap w1)))
              (set_heap (<[fresh (dom (heap w1)) := commanded_state v i a]>
                           (heap w1)) w1))
      with (after_command L v i a w1).
    rewrite Hl. reflexivity.
  - destruct (cache_usable (after_command L v i a w1)) eqn:Hc.
    + rewrite (load_state_cached L _ Hc) in Hl. injection Hl as _ <-.
      exact Hsaved.
    + destruct Hsaved as ((ts & Hrec) & Hfile & Hobj).
      rewrite (load_state_from_file L _ _ Hc Hfile) in Hl.
      injection Hl as <-. unfold saved, obj.
      cbn [state_file heap state_cache].
      split; [eauto|]. split; [exact Hfile|].
      rewrite lookup_insert_eq. cbn [default]. apply backfill_complete.
  - rewrite Htr. reflexivity.
Qed.

Lemma float_of_not_none (L : pylib) (o : option jval) (x : pyfloat) :
  float_of L (opt_json o) = inr x -> is_none o = false.
Proof.
  destruct o as [[]|]; simpl; intros H; try reflexivity; discriminate H.
Qed.

(** X13. A [/set] request that passes the token check, carries no query
    arguments and whose body gives a voltage and a current that convert
    and pass validation, on a device that accepts the command at the first
    attempt: the answer is 200 with the payload sent, the text of the
    device and the state; that state is the commanded record stamped with
    the second of the save, it is what the state file holds afterwards,
    and exactly one request went to the device. *)
Theorem set_command_accepted (L : pylib) (C : config) (rq : http_request)
    (body : dict) (v i : pyfloat) (st0 : Z) (text : string) (w : world) :
  authorized C rq ->
  req_args rq = ∅ ->
  req_json rq = Some (JObj body) ->
  float_of L (opt_json (body !! "voltage")) = inr v ->
  float_of L (opt_json (body !! "max_current")) = inr i ->
  validate_params L v i = inr tt ->
  answer w (HttpPost (PSU_BASE C +:+ "/api/send_data")
                     (payload_for_device C v i (body_access L body))) 1
  = HttpResp st0 text ->
  ~ (400 <= st0 < 600) ->
  let payload := payload_for_device C v i (body_access L body) in
  let rec := <["updated_at" := JStr (iso_utc L (stamp_at w))]>
               (commanded_state v i (body_access L body)) in
  exists w',
    set_voltage_current L C rq w
    = (Ok (set_success_response payload text rec), w')
    /\ state_file w' = Some (Some (JObj rec))
    /\ trace w'
       = trace w ++ [EvRequest (HttpPost (PSU_BASE C +:+ "/api/send_data")
                                         payload)].
Proof.
  intros Ha Hargs Hjson Hv Hi Hval Hans Hst payload rec.
  assert (Hne : body <> ∅).
  { intros ->. rewrite lookup_empty in Hv. discriminate Hv. }
  rewrite (set_voltage_current_run L C rq body w Ha Hargs Hjson Hne).
  rewrite (float_of_not_none L _ v Hv), (float_of_not_none L _ i Hi).
  cbn [orb]. rewrite set_parse_run, Hv, Hi, Hval. cbn [fst].
  fold payload.
  assert (Hpost : psu_post L C "/api/send_data" payload w
                  = (Ok text, set_trace (trace w ++ attempt_events
                       (HttpPost (PSU_BASE C +:+ "/api/send_data") payload) 1 1)
                       w)).
  { rewrite psu_post_run. fold payload in Hans. rewrite Hans.
    cbn [transient post_outcome].
    destruct ((400 <=? st0) && (st0 <? 600)) eqn:E; [|reflexivity].
    exfalso. apply Hst. apply Bool.andb_true_iff in E. lia. }
  destruct (set_send_done L C v i (body_access L body) payload w _ text Hpost)
    as (w' & Hsend & Hsaved & Htr).
  rewrite Hsend. exists w'. split; [reflexivity|]. split.
  - destruct Hsaved as (_ & Hf & _). exact Hf.
  - rewrite Htr. reflexivity.
Qed.

(** A [/set] request for 12.5 V and 6.5 A given as text, access level 2. *)
Definition set_request : http_request :=
  HttpRequest None
    (Some (JObj (<["voltage" := JStr "12.5"]> (<["max_current" := JStr "6.5"]>
                (<["access" := JInt 2]> ∅))))) ∅.

Lemma set_command_accepted_witness :
  exists w',
    set_voltage_current demo_lib default_config set_request
      (boot_world None eighths_clock idle_device)
    = (Ok (set_success_response
             (payload_for_device default_config (PFin (25 # 2)) (PFin (13 # 2))
                                 "2")
             "OK"
             (<["updated_at" := JStr "1970-01-01T00:01:40Z"]>
                (commanded_state (PFin (25 # 2)) (PFin (13 # 2)) "2"))), w').
Proof.
  destruct (set_command_accepted demo_lib default_config set_request
              (<["voltage" := JStr "12.5"]> (<["max_current" := JStr "6.5"]>
                 (<["access" := JInt 2]> ∅)))
              (PFin (25 # 2)) (PFin (13 # 2)) 200 "OK"
              (boot_world None eighths_clock idle_device))
    as (w' & Hrun & _).
  - left. reflexivity.
  - reflexivity.
  - reflexivity.
  - reflexivity.
  - reflexivity.
  - rewrite validate_params_cases. reflexivity.
  - reflexivity.
  - lia.
  - exists w'. exact Hrun.
Defined.

(** X14. When the device call of [/set] fails, nothing is persisted: the
    answer is 503 for a connection error, 504 for another timeout and 502
    for anything else (an error status, for one), each with the payload
    that was attempted under [sent]; heap, cache and state file are as
    before. *)
Theorem set_command_device_failure (L : pylib) (C : config) (rq : http_request)
    (body : dict) (v i : pyfloat) (e : exn) (w : world) :
  authorized C rq ->
  req_args rq = ∅ ->
  req_json rq = Some (JObj body) ->
  float_of L (opt_json (body !! "voltage")) = inr v ->
  float_of L (opt_json (body !! "max_current")) = inr i ->
  validate_params L v i = inr tt ->
  fst (psu_post L C "/api/send_data"
         (payload_for_device C v i (body_access L body)) w) = Raise e ->
  exists w',
    set_voltage_current L C rq w
    = (Ok (set_failure_response e
             (payload_for_device C v i (body_access L body))), w')
    /\ store_of w' = store_of w.
Proof.
  intros Ha Hargs Hjson Hv Hi Hval Hfail.
  assert (Hne : body <> ∅).
  { intros ->. rewrite lookup_empty in Hv. discriminate Hv. }
  rewrite (set_voltage_current_run L C rq body w Ha Hargs Hjson Hne).
  rewrite (float_of_not_none L _ v Hv), (float_of_not_none L _ i Hi).
  cbn [orb]. rewrite set_parse_run, Hv, Hi, Hval. cbn [fst].
  pose proof (psu_post_trace_only L C "/api/send_data"
                (payload_for_device C v i (body_access L body)) w) as Hst.
  destruct (psu_post L C "/api/send_data"
              (payload_for_device C v i (body_access L body)) w)
    as [r w1] eqn:Hp.
  cbn [fst] in Hfail. subst r.
  rewrite (set_send_failed L C v i _ _ w w1 e Hp).
  exists w1. split; [reflexivity|exact Hst].
Qed.

Lemma set_command_device_failure_witness :
  exists w',
    set_voltage_current demo_lib default_config set_request
      (boot_world None eighths_clock failing_device)
    = (Ok (Response 502
             (JObj (sent_error "500 Error"
                      (payload_for_device default_config (PFin (25 # 2))
                                          (PFin (13 # 2)) "2")))), w')
    /\ state_file w' = None.
Proof.
  destruct (set_command_device_failure demo_lib default_config set_request
              (<["voltage" := JStr "12.5"]> (<["max_current" := JStr "6.5"]>
                 (<["access" := JInt 2]> ∅)))
              (PFin (25 # 2)) (PFin (13 # 2)) (Exn HTTPError "500 Error")
              (boot_world None eighths_clock failing_device))
    as (w' & Hrun & Hst).
  - left. reflexivity.
  - reflexivity.
  - reflexivity.
  - reflexivity.
  - reflexivity.
  - rewrite validate_params_cases. reflexivity.
  - rewrite psu_post_run. reflexivity.
  - exists w'. split; [exact Hrun|].
    unfold store_of in Hst. injection Hst as _ _ _ -> _ _ _. reflexivity.
Defined.

(** X15. A [/set] request whose values are refused: when the conversion
    of the two values or their validation raises a [ValueError] (a text
    that is no number, a value out of range), the answer is 400 with the
    text of the error; when it raises another exception (a [TypeError]
    for a list or an object, an [OverflowError] for a huge integer), that
    exception leaves the handler, which only catches [ValueError].  In
    both cases the world is untouched: nothing was sent or stored. *)
Theorem set_command_refused (L : pylib) (C : config) (rq : http_request)
    (body : dict) (e : exn) (w : world) :
  authorized C rq ->
  req_args rq = ∅ ->
  req_json rq = Some (JObj body) ->
  is_none (body !! "voltage") = false ->
  is_none (body !! "max_current") = false ->
  fst (set_parse L (opt_json (body !! "voltage"))
                 (opt_json (body !! "max_current")) w) = Raise e ->
  set_voltage_current L C rq w
  = if is_value_error e
    then (Ok (Response 400 (JObj (error_body (str_exn e)))), w)
    else (Raise e, w).
Proof.
  intros Ha Hargs Hjson Hv Hi Hparse.
  assert (Hne : body <> ∅).
  { intros ->. rewrite lookup_empty in Hv. discriminate Hv. }
  rewrite (set_voltage_current_run L C rq body w Ha Hargs Hjson Hne).
  rewrite Hv, Hi. cbn [orb]. rewrite Hparse. reflexivity.
Qed.

(** A [/set] request whose voltage is a JSON list. *)
Definition list_voltage_request : http_request :=
  HttpRequest None
    (Some (JObj (<["voltage" := JList [JInt 12]]>
                (<["max_current" := JInt 6]> ∅)))) ∅.

Lemma set_command_refused_witness :
  set_voltage_current demo_lib default_config list_voltage_request
    (boot_world None eighths_clock idle_device)
  = (Raise (Exn TypeError "could not convert to float"),
     boot_world None eighths_clock idle_device).
Proof.
  rewrite (set_command_refused demo_lib default_config list_voltage_request
             (<["voltage" := JList [JInt 12]]> (<["max_current" := JInt 6]> ∅))
             (Exn TypeError "could not convert to float")).
  - reflexivity.
  - left. reflexivity.
  - reflexivity.
  - reflexivity.
  - reflexivity.
  - reflexivity.
  - reflexivity.
Defined.

(** X16. A [/set] request whose body lacks [voltage] or [max_current], or
    has null there, and that gives them in no query argument, is answered
    400 "Provide 'voltage' and 'max_current'." with the world untouched.
    A body that is absent or not JSON counts as an empty one. *)
Theorem set_command_incomplete (L : pylib) (C : config) (rq : http_request)
    (w : world) :
  authorized C rq ->
  req_args rq = ∅ ->
  (forall body, req_json rq = Some (JObj body) ->
     is_none (body !! "voltage") || is_none (body !! "max_current") = true ->
     set_voltage_current L C rq w
     = (Ok (Response 400
              (JObj (error_body "Provide 'voltage' and 'max_current'."))), w))
  /\ (req_json rq = None ->
      set_voltage_current L C rq w
      = (Ok (Response 400
               (JObj (error_body "Provide 'voltage' and 'max_current'."))), w)).
Proof.
  intros Ha Hargs.
  assert (Hempty : py_or (req_json rq) (JObj ∅) = JObj ∅ ->
            set_voltage_current L C rq w
            = (Ok (Response 400
                     (JObj (error_body "Provide 'voltage' and 'max_current'."))),
               w)).
  { intros Ho. unfold set_voltage_current. unfold bind at 1.
    rewrite (require_token_pass C rq w Ha), Ho.
    unfold arg_or_body. rewrite Hargs, !lookup_empty. reflexivity. }
  split.
  - intros body Hjson Hnone.
    destruct (decide (body = ∅)) as [->|Hne].
    + apply Hempty. rewrite Hjson. reflexivity.
    + rewrite (set_voltage_current_run L C rq body w Ha Hargs Hjson Hne).
      rewrite Hnone. reflexivity.
  - intros Hjson. apply Hempty. rewrite Hjson. reflexivity.
Qed.

Lemma set_command_incomplete_witness :
  set_voltage_current demo_lib default_config (HttpRequest None None ∅)
    (boot_world None eighths_clock idle_device)
  = (Ok (Response 400
           (JObj (error_body "Provide 'voltage' and 'max_current'."))),
     boot_world None eighths_clock idle_device).
Proof.
  apply (proj2 (set_command_incomplete demo_lib default_config
                  (HttpRequest None None ∅)
                  (boot_world None eighths_clock idle_device)
                  (or_introl eq_refl) eq_refl)).
  reflexivity.
Defined.

(** ** [/psu/current] *)

Definition first_parsed (L : pylib) (a b : option jval) : option pyfloat :=
  match _parse_float L a with
  | Some x => Some x
  | None => _parse_float L b
  end.

(** What [/psu/current] makes of the JSON document of the device. *)
Definition telemetry_response (L : pylib) (set_max_current : option jval)
    (js : jval) : res response :=
  match js with
  | JObj m =>
      Ok (Response 200
            (JObj (<["current_now" :=
                       JStr (format_f 2 (float_or_zero
                              (first_parsed L (m !! "currentNow")
                                              (m !! "current_now"))))]>
                  (<["voltage_now" :=
                       JStr (format_f 2 (float_or_zero
                              (first_parsed L (m !! "voltageNow")
                                              (m !! "voltage_now"))))]>
                  (<["set_max_current" := opt_json set_max_current]> ∅)))))
  | _ => Raise (Exn AttributeError (not_dict_msg L js))
  end.

Lemma psu_current_try_run (L : pylib) (C : config) (smc : option jval)
    (w : world) :
  psu_current_try L C smc w
  = match psu_get L C "/api/chargeStatus" w with
    | (Ok js, w1) => (telemetry_response L smc js, w1)
    | (Raise e, w1) => (Raise e, w1)
    end.
Proof.
  unfold psu_current_try. unfold bind at 1.
  destruct (psu_get L C "/api/chargeStatus" w) as [[js|e] w1]; [|reflexivity].
  unfold telemetry_response, first_parsed, py_get.
  destruct js as [| b | z | x | s | l | m]; try reflexivity.
  run_monad.
  destruct (_parse_float L (m !! "currentNow"));
    destruct (_parse_float L (m !! "voltageNow")); reflexivity.
Qed.

(** The answer of [/psu/current] to a failure of its [try] block. *)
Definition current_failure_response (e : exn) (smc : option jval) : response :=
  if is_connection_error e
  then Response 503 (JObj (error_body "PSU nicht erreichbar"))
  else if is_timeout e
  then Response 504 (JObj (error_body "PSU Timeout"))
  else Response 502 (JObj (<["error" := JStr (str_exn e)]>
                          (<["set_max_current" := opt_json smc]> ∅))).

Lemma psu_current_run (L : pylib) (C : config) (rq : http_request)
    (w w1 : world) (st : dict) :
  authorized C rq ->
  load_state L w = (Ok st, w1) ->
  psu_current L C rq w
  = match psu_get L C "/api/chargeStatus" w1 with
    | (Ok js, w2) =>
        (Ok (match telemetry_response L (st !! "max_current") js with
             | Ok resp => resp
             | Raise e => current_failure_response e (st !! "max_current")
             end), w2)
    | (Raise e, w2) =>
        (Ok (current_failure_response e (st !! "max_current")), w2)
    end.
Proof.
  intros Ha Hl. unfold psu_current. unfold bind at 1.
  rewrite (require_token_pass C rq w Ha). unfold bind at 1. rewrite Hl.
  unfold bind at 1. unfold try_ at 1. rewrite psu_current_try_run.
  unfold current_failure_response, ret.
  destruct (psu_get L C "/api/chargeStatus" w1) as [[js|e] w2].
  - destruct (telemetry_response L (st !! "max_current") js) as [resp|e];
      [reflexivity|].
    destruct (is_connection_error e); [reflexivity|].
    destruct (is_timeout e); reflexivity.
  - destruct (is_connection_error e); [reflexivity|].
    destruct (is_timeout e); reflexivity.
Qed.

(** X17. Once the token check and the initial [load_state()] have passed,
    [/psu/current] always answers: with 200, 503, 504 or 502, never with
    an exception, whatever the device does or sends (a document that is
    not an object gives 502); and it changes nothing but the trace. *)
Theorem psu_current_always_answers (L : pylib) (C : config)
    (rq : http_request) (w w1 : world) (st : dict) :
  authorized C rq ->
  load_state L w = (Ok st, w1) ->
  exists resp w',
    psu_current L C rq w = (Ok resp, w')
    /\ (resp_status resp = 200 \/ resp_status resp = 503
        \/ resp_status resp = 504 \/ resp_status resp = 502)
    /\ store_of w' = store_of w1.
Proof.
  intros Ha Hl. rewrite (psu_current_run L C rq w w1 st Ha Hl).
  pose proof (psu_get_trace_only L C "/api/chargeStatus" w1) as Hst.
  assert (Hfail : forall e smc,
            resp_status (current_failure_response e smc) = 503
            \/ resp_status (current_failure_response e smc) = 504
            \/ resp_status (current_failure_response e smc) = 502).
  { intros e smc. unfold current_failure_response.
    destruct (is_connection_error e); [auto|].
    destruct (is_timeout e); auto. }
  destruct (psu_get L C "/api/chargeStatus" w1) as [[js|e] w2];
    cbn [snd] in Hst.
  - eexists _, w2. split; [reflexivity|]. split; [|exact Hst].
    destruct js; cbn [telemetry_response]; auto.
  - eexists _, w2. split; [reflexivity|]. split; [|exact Hst]. auto.
Qed.

Lemma psu_current_always_answers_witness :
  exists resp w',
    psu_current demo_lib default_config (HttpRequest None None ∅)
      (boot_world None eighths_clock dead_device) = (Ok resp, w')
    /\ resp_status resp = 503.
Proof.
  destruct (psu_current_always_answers demo_lib default_config
              (HttpRequest None None ∅)
              (boot_world None eighths_clock dead_device) _ default_state
              (or_introl eq_refl)
              (load_state_bootstrap demo_lib
                 (boot_world None eighths_clock dead_device) eq_refl eq_refl))
    as (resp & w' & Hrun & _ & _).
  exists resp, w'. split; [exact Hrun|].
  rewrite (psu_current_run demo_lib default_config _ _ _ default_state
             (or_introl eq_refl)
             (load_state_bootstrap demo_lib
                (boot_world None eighths_clock dead_device) eq_refl eq_refl))
    in Hrun.
  rewrite psu_get_run in Hrun. injection Hrun as <- _. reflexivity.
Defined.

Lemma telemetry_missing (L : pylib) (smc : option jval) (m : dict) :
  is_none (m !! "currentNow") = true ->
  is_none (m !! "current_now") = true ->
  is_none (m !! "voltageNow") = true ->
  is_none (m !! "voltage_now") = true ->
  telemetry_response L smc (JObj m)
  = Ok (Response 200
          (JObj (<["current_now" := JStr "0.00"]>
                (<["voltage_now" := JStr "0.00"]>
                (<["set_max_current" := opt_json smc]> ∅))))).
Proof.
  intros H1 H2 H3 H4.
  assert (Hnone : forall o, is_none o = true -> _parse_float L o = None).
  { intros [[]|]; simpl; intros H; try discriminate H; reflexivity. }
  unfold telemetry_response, first_parsed.
  rewrite (Hnone _ H1), (Hnone _ H2), (Hnone _ H3), (Hnone _ H4).
  reflexivity.
Qed.

(** X18. Missing telemetry reads as zero: when the device answers at the
    first attempt with a document that is an object with none of
    [currentNow], [current_now], [voltageNow], [voltage_now] (or with null
    there), [/psu/current] answers 200 and reports "0.00" for both
    readings, next to the current limit of the stored state. *)
Theorem psu_current_missing_telemetry (L : pylib) (C : config)
    (rq : http_request) (w w1 : world) (st m : dict) (st0 : Z) (text : string) :
  authorized C rq ->
  load_state L w = (Ok st, w1) ->
  answer w1 (status_get C) 1 = HttpResp st0 text ->
  ~ (400 <= st0 < 600) ->
  json_loads L text = Some (JObj m) ->
  is_none (m !! "currentNow") = true ->
  is_none (m !! "current_now") = true ->
  is_none (m !! "voltageNow") = true ->
  is_none (m !! "voltage_now") = true ->
  psu_current L C rq w
  = (Ok (Response 200
           (JObj (<["current_now" := JStr "0.00"]>
                 (<["voltage_now" := JStr "0.00"]>
                 (<["set_max_current" := opt_json (st !! "max_current")]> ∅))))),
     set_trace (trace w1 ++ [EvRequest (status_get C)]) w1).
Proof.
  intros Ha Hl Hans Hst Hjs H1 H2 H3 H4.
  rewrite (psu_current_run L C rq w w1 st Ha Hl), psu_get_run.
  fold (status_get C). rewrite Hans. cbn [transient get_outcome].
  destruct ((400 <=? st0) && (st0 <? 600)) eqn:E.
  { exfalso. apply Hst. apply Bool.andb_true_iff in E. lia. }
  rewrite Hjs, (telemetry_missing L _ m H1 H2 H3 H4). reflexivity.
Qed.

(** A device whose status document is the empty object. *)
Definition mute_device (_ : list request) : http_result := HttpResp 200 "{}".

Lemma psu_current_missing_telemetry_witness :
  fst (psu_current demo_lib default_config (HttpRequest None None ∅)
         (boot_world None eighths_clock mute_device))
  = Ok (Response 200
          (JObj (<["current_now" := JStr "0.00"]>
                (<["voltage_now" := JStr "0.00"]>
                (<["set_max_current" := JNull]> ∅))))).
Proof.
  rewrite (psu_current_missing_telemetry demo_lib default_config
             (HttpRequest None None ∅)
             (boot_world None eighths_clock mute_device) _ default_state ∅
             200 "{}" (or_introl eq_refl)
             (load_state_bootstrap demo_lib
                (boot_world None eighths_clock mute_device) eq_refl eq_refl)).
  - reflexivity.
  - reflexivity.
  - lia.
  - reflexivity.
  - reflexivity.
  - reflexivity.
  - reflexivity.
  - reflexivity.
Defined.

(** ** [/health] *)

(** X19. [/health] asks for no token and does not fail with the device:
    once its [load_state()] has returned, it answers 200 with
    [bridge_ok] true, [psu_reachable] telling whether the device call
    went through, and [last_communication] holding the [updated_at] of
    the stored state; only the trace changes after the load. *)
Theorem health_always_answers (L : pylib) (C : config) (rq : http_request)
    (w w1 : world) (st : dict) :
  load_state L w = (Ok st, w1) ->
  exists body w',
    health L C rq w = (Ok (Response 200 (JObj body)), w')
    /\ body !! "bridge_ok" = Some (JBool true)
    /\ body !! "psu_reachable"
       = Some (JBool (match fst (psu_get L C "/api/chargeStatus" w1) with
                      | Ok _ => true
                      | Raise _ => false
                      end))
    /\ body !! "last_communication" = Some (opt_json (st !! "updated_at"))
    /\ store_of w' = store_of w1.
Proof.
  intros Hl. unfold health. unfold bind at 1. rewrite Hl.
  unfold bind at 1. unfold try_ at 1.
  pose proof (psu_get_trace_only L C "/api/chargeStatus" w1) as Hst.
  destruct (psu_get L C "/api/chargeStatus" w1) as [[js|e] w2];
    cbn [snd fst] in *; eexists _, w2; (split; [reflexivity|]);
    (split; [reflexivity|]); (split; [reflexivity|]);
    (split; [reflexivity|exact Hst]).
Qed.

Lemma health_always_answers_witness :
  exists body w',
    health demo_lib locked_config (HttpRequest None None ∅)
      (boot_world None eighths_clock dead_device)
    = (Ok (Response 200 (JObj body)), w')
    /\ body !! "psu_reachable" = Some (JBool false).
Proof.
  destruct (health_always_answers demo_lib locked_config
              (HttpRequest None None ∅)
              (boot_world None eighths_clock dead_device) _ default_state
              (load_state_bootstrap demo_lib
                 (boot_world None eighths_clock dead_device) eq_refl eq_refl))
    as (body & w' & Hrun & _ & Hreach & _).
  exists body, w'. split; [exact Hrun|].
  rewrite Hreach, psu_get_run. reflexivity.
Defined.

(** ** [/set_sequence]: degenerate requests *)

(** X20. A sequence request whose body object has no [sequence], or null,
    or an empty list there, runs no step: it answers as [load_state()]
    does, with an empty results list and the current state, and sends
    nothing.  A [sequence] that is any other non-list value (a text, a
    number, an object) is refused with 400 "sequence must be a list", the
    world untouched. *)
Theorem set_sequence_degenerate (L : pylib) (C : config) (rq : http_request)
    (body : dict) (w : world) :
  authorized C rq ->
  req_json rq = Some (JObj body) ->
  (py_or (body !! "sequence") (JList []) = JList [] ->
   set_sequence L C rq w
   = match load_state L w with
     | (Ok st, w') => (Ok (sequence_response [] st), w')
     | (Raise e, w') => (Raise e, w')
     end)
  /\ (forall v, body !! "sequence" = Some v -> truthy v = true ->
        (forall l, v <> JList l) ->
        set_sequence L C rq w
        = (Ok (Response 400 (JObj (error_body "sequence must be a list"))), w)).
Proof.
  intros Ha Hjson.
  assert (Hget : forall w0,
            py_get L (py_or (req_json rq) (JObj ∅)) "sequence" w0
            = (Ok (body !! "sequence"), w0)).
  { intros w0. rewrite Hjson. unfold py_or.
    destruct (truthy (JObj body)) eqn:Et; [reflexivity|].
    assert (body = ∅) as ->.
    { simpl in Et. apply Bool.negb_false_iff in Et.
      apply bool_decide_eq_true in Et. exact Et. }
    reflexivity. }
  split.
  - intros Hempty. unfold set_sequence. unfold bind at 1.
    rewrite (require_token_pass C rq w Ha). unfold bind at 1.
    rewrite Hget, Hempty. cbn [length Nat.ltb Nat.leb seq_loop].
    unfold bind at 1. unfold ret at 1. unfold bind at 1.
    destruct (load_state L w) as [[st|e] w']; reflexivity.
  - intros v Hv Ht Hnl. unfold set_sequence. unfold bind at 1.
    rewrite (require_token_pass C rq w Ha). unfold bind at 1.
    rewrite Hget, Hv. unfold py_or. rewrite Ht.
    destruct v; try reflexivity. exfalso. exact (Hnl _ eq_refl).
Qed.

Lemma set_sequence_degenerate_witness :
  set_sequence demo_lib default_config
    (HttpRequest None (Some (JObj {[ "sequence" := JStr "54,6" ]})) ∅)
    (boot_world None eighths_clock idle_device)
  = (Ok (Response 400 (JObj (error_body "sequence must be a list"))),
     boot_world None eighths_clock idle_device).
Proof.
  apply (proj2 (set_sequence_degenerate demo_lib default_config
                  (HttpRequest None
                     (Some (JObj {[ "sequence" := JStr "54,6" ]})) ∅)
                  {[ "sequence" := JStr "54,6" ]}
                  (boot_world None eighths_clock idle_device)
                  (or_introl eq_refl) eq_refl) (JStr "54,6")).
  - reflexivity.
  - reflexivity.
  - discriminate.
Defined.

(** ** Clamp and payload *)

(** X21. [_clamp_balanced_amp] leaves a value that lies strictly between
    1 and 5 as it is, sends NaN and everything from 5 up to 5.0 and
    everything up to 1 down to 1.0, and clamping twice is clamping
    once. *)
Theorem clamp_balanced_amp_cases (v : pyfloat) :
  (forall q, v = PFin q -> (1 < q)%Q -> (q < 5)%Q ->
     _clamp_balanced_amp v = v)
  /\ (v = PNaN \/ fle (fz 5) v = true -> _clamp_balanced_amp v = fz 5)
  /\ (fle v (fz 1) = true -> _clamp_balanced_amp v = fz 1)
  /\ _clamp_balanced_amp (_clamp_balanced_amp v) = _clamp_balanced_amp v.
Proof.
  unfold _clamp_balanced_amp, py_max, py_min, fz.
  destruct v as [|[]|q]; cbn [flt fle].
  - repeat split; try discriminate; intros; reflexivity.
  - repeat split; try discriminate; intros; try reflexivity.
    destruct H as [H|H]; discriminate H.
  - repeat split; try discriminate; intros; reflexivity.
  - destruct (Qlt_bool q (inject_Z 5)) eqn:E5.
    + cbn [flt]. destruct (Qlt_bool (inject_Z 1) q) eqn:E1.
      * split; [intros; reflexivity|]. split.
        { intros [H|H]; [discriminate H|].
          apply Qle_bool_iff in H. apply Qlt_bool_iff in E5.
          exfalso. exact (Qlt_not_le _ _ E5 H). }
        split.
        { intros H. apply Qle_bool_iff in H. apply Qlt_bool_iff in E1.
          exfalso. exact (Qlt_not_le _ _ E1 H). }
        cbn [flt]. rewrite E5. cbn [flt]. rewrite E1. reflexivity.
      * split.
        { intros q0 [= <-] H1 _. apply Qlt_bool_iff in H1.
          change 1%Q with (inject_Z 1) in H1. congruence. }
        split.
        { intros [H|H]; [discriminate H|].
          apply Qle_bool_iff in H. apply Qlt_bool_iff in E5.
          exfalso. exact (Qlt_not_le _ _ E5 H). }
        split; [intros; reflexivity|reflexivity].
    + cbn [flt]. split.
      { intros q0 [= <-] _ H5. apply Qlt_bool_iff in H5.
        change 5%Q with (inject_Z 5) in H5. congruence. }
      split; [intros; reflexivity|]. split; [|reflexivity].
      intros H. apply Qle_bool_iff in H. apply Qlt_bool_false_iff in E5.
      exfalso.
      assert (Hc : (inject_Z 5 <= inject_Z 1)%Q) by (eapply Qle_trans; eauto).
      revert Hc. vm_compute. intros Hc. apply Hc. reflexivity.
Qed.

(** X22. The payload has the six keys of the device protocol and no
    other: [balancedVoltage] repeats [voltageValue], the one-decimal text
    of the voltage; [currentValue] is the two-decimal text of the current;
    [mode] is "2"; and an empty access code is sent as "0". *)
Theorem payload_for_device_keys (C : config) (voltage max_current : pyfloat)
    (access : string) :
  let p := payload_for_device C voltage max_current access in
  p !! "voltageValue" = Some (JStr (format_f 1 voltage))
  /\ p !! "balancedVoltage" = Some (JStr (format_f 1 voltage))
  /\ p !! "currentValue" = Some (JStr (format_f 2 max_current))
  /\ p !! "mode" = Some (JStr "2")
  /\ p !! "accessibilityStatus"
     = Some (JStr (if String.eqb access "" then "0" else access))
  /\ dom p = {[ "voltageValue"; "currentValue"; "accessibilityStatus";
                "balancedVoltage"; "balancedCurrent"; "mode" ]}.
Proof.
  intros p. unfold p, payload_for_device, access_or_default.
  split; [apply lookup_insert_eq|].
  split; [repeat (rewrite lookup_insert_ne by discriminate);
          apply lookup_insert_eq|].
  split; [repeat (rewrite lookup_insert_ne by discriminate);
          apply lookup_insert_eq|].
  split; [repeat (rewrite lookup_insert_ne by discriminate);
          apply lookup_insert_eq|].
  split; [repeat (rewrite lookup_insert_ne by discriminate);
          apply lookup_insert_eq|].
  rewrite !dom_insert_L, dom_empty_L. set_solver.
Qed.

(** ** Invariants of the interleaved file accesses *)
Module FlockInvariants.
Import Flock.

Lemma str_take_drop (n : nat) (s : string) :
  str_take n s +:+ str_drop n s = s.
Proof.
  revert n. induction s as [|c s IH]; intros [|n]; try reflexivity.
  cbn [str_take str_drop]. change (String c (str_take n s) +:+ str_drop n s)
    with (String c (str_take n s +:+ str_drop n s)).
  rewrite IH. reflexivity.
Qed.

Lemma str_take_all (s : string) : str_take (String.length s) s = s.
Proof. induction s as [|c s IH]; [reflexivity|]. simpl. rewrite IH. reflexivity. Qed.

(** The reader holds the shared lock. *)
Definition reader_locked (r : reader) : bool :=
  match r with RRead | RUnlock _ => true | _ => false end.

(** The writer holds the exclusive lock. *)
Definition writer_locked (wr : writer) : bool :=
  match wr with WDump | WUnlock => true | _ => false end.

(** [s] is the old text or the beginning of the new one. *)
Definition old_or_prefix (old new s : string) : Prop :=
  s = old \/ exists n, s = str_take n new.

(** What the file and the buffer hold, by the statement the writer is
    at. *)
Definition content_ok (old new : string) (c : system) : Prop :=
  match the_writer c with
  | WOpen => content (the_file c) = old
  | WLock | WDump => content (the_file c) = ""
  | WUnlock | WClose =>
      exists n, content (the_file c) = str_take n new
                /\ buffered c = str_drop n new
  | WDone => content (the_file c) = new
  end.

(** What the reader can have read. *)
Definition seen_ok (old new : string) (c : system) : Prop :=
  match the_reader c with
  | RUnlock s | RDone s => old_or_prefix old new s
  | _ => True
  end.

Definition invariant (old new : string) (c : system) : Prop :=
  exclusive (the_file c) = writer_locked (the_writer c)
  /\ shared (the_file c) = (if reader_locked (the_reader c) then 1 else 0)%nat
  /\ (exclusive (the_file c) = true -> shared (the_file c) = 0%nat)
  /\ content_ok old new c
  /\ seen_ok old new c.

Lemma invariant_start (old new : string) : invariant old new (start old).
Proof.
  unfold invariant, content_ok, seen_ok. simpl. repeat split; discriminate.
Qed.

Lemma content_old_or_prefix (old new : string) (c : system) :
  content_ok old new c -> old_or_prefix old new (content (the_file c)).
Proof.
  unfold content_ok, old_or_prefix. destruct (the_writer c); intros H.
  - left. exact H.
  - right. exists 0%nat. rewrite H. destruct new; reflexivity.
  - right. exists 0%nat. rewrite H. destruct new; reflexivity.
  - destruct H as (n & H & _). right. exists n. exact H.
  - destruct H as (n & H & _). right. exists n. exact H.
  - right. exists (String.length new). rewrite H. symmetry.
    apply str_take_all.
Qed.

Lemma invariant_step (old new : string) (c c' : system) :
  invariant old new c -> step new c c' -> invariant old new c'.
Proof.
  intros (Hex & Hsh & Hexcl & Hcont & Hseen) Hstep.
  pose proof (content_old_or_prefix old new c Hcont) as Hread.
  destruct c as [[ct ex sh] wr buf rd].
  unfold seen_ok, content_ok in *. cbn [the_file the_writer the_reader
    buffered content exclusive shared] in *.
  inversion Hstep as [n c0 c0' Hw|c0 c0' Hr]; subst c0 c0'.
  - unfold writer_step in Hw.
    cbn [the_file the_writer the_reader buffered content exclusive shared]
      in Hw.
    destruct wr; cbn [writer_locked] in *.
    + injection Hw as <-. unfold invariant, content_ok, seen_ok.
      cbn [the_file the_writer the_reader buffered content exclusive shared
           writer_locked].
      repeat split; auto.
    + rewrite Hex in Hw. cbn [negb andb] in Hw.
      destruct (Nat.eqb sh 0) eqn:E0; [|discriminate Hw].
      apply Nat.eqb_eq in E0. injection Hw as <-.
      unfold invariant, content_ok, seen_ok.
      cbn [the_file the_writer the_reader buffered content exclusive shared
           writer_locked].
      repeat split; auto.
    + injection Hw as <-. unfold invariant, content_ok, seen_ok.
      cbn [the_file the_writer the_reader buffered content exclusive shared
           writer_locked].
      split; [exact Hex|]. split; [exact Hsh|]. split; [exact Hexcl|].
      split; [|exact Hseen]. exists n. rewrite Hcont. split; reflexivity.
    + injection Hw as <-. unfold invariant, content_ok, seen_ok.
      cbn [the_file the_writer the_reader buffered content exclusive shared
           writer_locked].
      split; [reflexivity|]. split; [exact Hsh|].
      split; [discriminate|]. split; [exact Hcont|exact Hseen].
    + injection Hw as <-. unfold invariant, content_ok, seen_ok.
      cbn [the_file the_writer the_reader buffered content exclusive shared
           writer_locked].
      destruct Hcont as (k & Hc & Hb).
      split; [exact Hex|]. split; [exact Hsh|]. split; [exact Hexcl|].
      split; [rewrite Hc, Hb; apply str_take_drop|exact Hseen].
    + discriminate Hw.
  - unfold reader_step in Hr.
    cbn [the_file the_writer the_reader buffered content exclusive shared]
      in Hr.
    destruct rd; cbn [reader_locked] in *.
    + injection Hr as <-. unfold invariant, content_ok, seen_ok.
      cbn [the_file the_writer the_reader buffered content exclusive shared
           reader_locked].
      repeat split; auto.
    + destruct ex; cbn [negb] in Hr; [discriminate Hr|].
      injection Hr as <-. unfold invariant, content_ok, seen_ok.
      cbn [the_file the_writer the_reader buffered content exclusive shared
           reader_locked].
      split; [exact Hex|]. split; [rewrite Hsh; reflexivity|].
      split; [discriminate|]. split; [exact Hcont|exact I].
    + injection Hr as <-. unfold invariant, content_ok, seen_ok.
      cbn [the_file the_writer the_reader buffered content exclusive shared
           reader_locked].
      split; [exact Hex|]. split; [exact Hsh|]. split; [exact Hexcl|].
      split; [exact Hcont|exact Hread].
    + injection Hr as <-. unfold invariant, content_ok, seen_ok.
      cbn [the_file the_writer the_reader buffered content exclusive shared
           reader_locked].
      split; [exact Hex|]. split; [rewrite Hsh; reflexivity|].
      split; [intros He; rewrite Hsh in *; reflexivity|].
      split; [exact Hcont|exact Hseen].
    + discriminate Hr.
Qed.

Lemma invariant_reachable (old new : string) (c : system) :
  reachable new (start old) c -> invariant old new c.
Proof.
  induction 1 as [|c c' _ IH Hstep].
  - apply invariant_start.
  - exact (invariant_step old new c c' IH Hstep).
Qed.

(** X23. The locks themselves exclude each other: in every state that
    the two threads can reach, the exclusive lock is held exactly while
    the writer is between its [flock(LOCK_EX)] and its [flock(LOCK_UN)],
    the shared lock exactly while the reader is between its own two
    [flock] calls, and never both at once. *)
Theorem locks_exclude (old new : string) (c : system) :
  reachable new (start old) c ->
  exclusive (the_file c) = writer_locked (the_writer c)
  /\ shared (the_file c) = (if reader_locked (the_reader c) then 1 else 0)%nat
  /\ ~ (writer_locked (the_writer c) = true
        /\ reader_locked (the_reader c) = true).
Proof.
  intros Hr. destruct (invariant_reachable old new c Hr)
    as (Hex & Hsh & Hexcl & _).
  split; [exact Hex|]. split; [exact Hsh|].
  intros [Hw Hrd]. rewrite Hw in Hex. specialize (Hexcl Hex).
  rewrite Hsh, Hrd in Hexcl. discriminate Hexcl.
Qed.

Lemma locks_exclude_witness :
  ~ (writer_locked (the_writer (truncated_read "old")) = true
     /\ reader_locked (the_reader (truncated_read "old")) = true).
Proof.
  exact (proj2 (proj2 (locks_exclude "old" "new" (truncated_read "old")
                         (truncated_read_reachable "old" "new")))).
Defined.

(** The schedule in which the buffer passes the first [n] characters on
    during [json.dump] and the reader comes after the unlock, before the
    close. *)
Definition partial_read (new : string) (n : nat) : system :=
  System (File (str_take n new) false 1) WClose (str_drop n new)
         (RUnlock (str_take n new)).

Lemma partial_read_reachable (old new : string) (n : nat) :
  reachable new (start old) (partial_read new n).
Proof.
  unfold partial_read.
  eapply reach_step; [eapply reach_step; [eapply reach_step;
    [eapply reach_step; [eapply reach_step; [eapply reach_step;
      [eapply reach_step; [apply reach_refl|]|]|]|]|]|]|].
  - apply (step_writer new 0). reflexivity.
  - apply (step_writer new 0). reflexivity.
  - apply (step_writer new n). reflexivity.
  - apply (step_writer new 0). reflexivity.
  - apply step_reader. reflexivity.
  - apply step_reader. reflexivity.
  - apply step_reader. reflexivity.
Qed.

(** X24. What the file holds and what a reader can see: in every
    reachable state the file holds the old text until the writer has
    opened it, nothing from the open to the dump, the beginning of the
    new text that the buffer has passed on (possibly nothing, possibly
    all of it) from the dump to the close, and the new text once the
    writer has closed it; a reader can only have read the old text or a
    beginning of the new text; and every beginning of the new text can
    indeed be read, by a reader that comes between the unlock and the
    close. *)
Theorem file_content_by_writer_phase (old new : string) (c : system) :
  reachable new (start old) c ->
  (the_writer c = WOpen -> content (the_file c) = old)
  /\ (the_writer c = WLock \/ the_writer c = WDump ->
      content (the_file c) = "")
  /\ (the_writer c = WUnlock \/ the_writer c = WClose ->
      exists n, content (the_file c) = str_take n new
                /\ content (the_file c) +:+ buffered c = new)
  /\ (the_writer c = WDone -> content (the_file c) = new)
  /\ (forall s, the_reader c = RUnlock s \/ the_reader c = RDone s ->
        s = old \/ exists n, s = str_take n new)
  /\ (forall n, exists c',
        reachable new (start old) c'
        /\ the_reader c' = RUnlock (str_take n new)).
Proof.
  intros Hr. destruct (invariant_reachable old new c Hr)
    as (_ & _ & _ & Hcont & Hseen).
  unfold content_ok in Hcont. unfold seen_ok, old_or_prefix in Hseen.
  split; [intros Hw; rewrite Hw in Hcont; exact Hcont|].
  split; [intros [Hw|Hw]; rewrite Hw in Hcont; exact Hcont|].
  split.
  { intros [Hw|Hw]; rewrite Hw in Hcont; destruct Hcont as (n & H1 & H2);
      exists n; (split; [exact H1|]); rewrite H1, H2; apply str_take_drop. }
  split; [intros Hw; rewrite Hw in Hcont; exact Hcont|].
  split.
  { intros s [Hs|Hs]; rewrite Hs in Hseen; exact Hseen. }
  intros n. exists (partial_read new n).
  split; [apply partial_read_reachable|reflexivity].
Qed.

Lemma file_content_by_writer_phase_witness :
  content (the_file (partial_read "{'voltage': 12.0}" 5)) = "{'vol".
Proof.
  destruct (file_content_by_writer_phase "old" "{'voltage': 12.0}"
              (partial_read "{'voltage': 12.0}" 5)
              (partial_read_reachable "old" "{'voltage': 12.0}" 5))
    as (_ & _ & Hmid & _).
  destruct (Hmid (or_intror eq_refl)) as (n & _ & _). reflexivity.
Defined.

End FlockInvariants.

(** ** More on the handlers and the store *)

(** X25. [load_state()] writes the state file only on the first run: the
    file after the call differs from the file before only if there was no
    usable cache and no file, and then it holds the stamped default
    record. *)
Theorem load_state_writes_only_first_run (L : pylib) (w : world) :
  state_file (snd (load_state L w)) <> state_file w ->
  cache_usable w = false
  /\ state_file w = None
  /\ state_file (snd (load_state L w))
     = Some (Some (JObj (<["updated_at" :=
                            JStr (iso_utc L (Qfloor (clock w (S (ticks w)))))]>
                          default_state))).
Proof.
  intros Hdiff. destruct (cache_usable w) eqn:Hc.
  - exfalso. apply Hdiff. rewrite (load_state_cached L w Hc). reflexivity.
  - destruct (state_file w) as [[v|]|] eqn:Hf.
    + exfalso. apply Hdiff.
      destruct w as [h c ct f clk n dev tr].
      unfold cache_usable, obj in Hc.
      cbn [heap state_cache cache_time clock ticks state_file] in Hc, Hf.
      unfold load_state. run_world. rewrite Hc, Hf.
      destruct v; reflexivity.
    + exfalso. apply Hdiff.
      destruct w as [h c ct f clk n dev tr].
      unfold cache_usable, obj in Hc.
      cbn [heap state_cache cache_time clock ticks state_file] in Hc, Hf.
      unfold load_state. run_world. rewrite Hc, Hf. reflexivity.
    + split; [reflexivity|]. split; [reflexivity|].
      rewrite (load_state_bootstrap L w Hc Hf). reflexivity.
Qed.

Lemma load_state_writes_only_first_run_witness :
  state_file (boot_world None eighths_clock idle_device) = None.
Proof.
  refine (proj1 (proj2 (load_state_writes_only_first_run demo_lib
                          (boot_world None eighths_clock idle_device) _))).
  rewrite (load_state_bootstrap demo_lib
             (boot_world None eighths_clock idle_device) eq_refl eq_refl).
  discriminate.
Defined.

(** X26. A sequence step whose values convert but fail validation raises
    the range error without sending anything: the world after the [try]
    block is the world before it. *)
Theorem step_invalid_sends_nothing (L : pylib) (C : config) (idx : Z)
    (step : jval) (v i : pyfloat) (a : string) (e : exn) (w : world) :
  step_values L step = Some (v, i, a) ->
  validate_params L v i = inl e ->
  step_try L C idx step w = (Raise e, w).
Proof.
  intros Hv He. rewrite step_try_run. unfold step_values in Hv.
  destruct (step_fields L step) as [e0|[[v0 i0] a0]]; [discriminate Hv|].
  injection Hv as -> -> ->. rewrite He. reflexivity.
Qed.

Lemma step_invalid_sends_nothing_witness :
  step_try demo_lib default_config 2
    (JObj (<["voltage" := JInt 120]> (<["max_current" := JInt 6]> ∅)))
    (boot_world None eighths_clock idle_device)
  = (Raise (Exn ValueError
              "Voltage 120.0 V außerhalb sicherer Grenzen (0.0, 100.0]"),
     boot_world None eighths_clock idle_device).
Proof.
  apply (step_invalid_sends_nothing demo_lib default_config 2 _
           (fz 120) (fz 6) "0").
  - reflexivity.
  - rewrite validate_params_cases. reflexivity.
Defined.

(** The outcome of the token check, which only reads the header. *)
Definition token_check (C : config) (key : option string) : res unit :=
  if negb (String.eqb (API_TOKEN C) "")
     && negb (bool_decide (key = Some (API_TOKEN C)))
  then Raise unauthorized
  else Ok tt.

Lemma require_token_result (C : config) (rq : http_request) (w : world) :
  require_token C rq w = (token_check C (hdr_api_key rq), w).
Proof.
  unfold require_token, token_check.
  destruct (negb (String.eqb (API_TOKEN C) "")
            && negb (bool_decide (hdr_api_key rq = Some (API_TOKEN C))));
    reflexivity.
Qed.

Lemma set_with_query_arguments (L : pylib) (C : config)
    (key : option string) (args : gmap string string)
    (sv si sa : string) (w : world) :
  args !! "voltage" = Some sv -> sv <> "" ->
  args !! "max_current" = Some si -> si <> "" ->
  args !! "access" = Some sa -> sa <> "" ->
  exists r, forall j, set_voltage_current L C (HttpRequest key j args) w = r.
Proof.
  intros Hv Hvn Hi Hin Ha Han.
  assert (Hneq : forall s, s <> "" -> String.eqb s "" = false).
  { intros s Hs. apply String.eqb_neq, Hs. }
  assert (Harg : forall j data k s w0, args !! k = Some s -> s <> "" ->
            arg_or_body L (HttpRequest key j args) data k w0
            = (Ok (Some (JStr s)), w0)).
  { intros j data k s w0 Hk Hs. unfold arg_or_body. cbn [req_args].
    rewrite Hk, (Hneq s Hs). reflexivity. }
  eexists. intros j.
  unfold set_voltage_current. unfold bind at 1.
  rewrite require_token_result. cbn [hdr_api_key].
  unfold bind at 1. rewrite (Harg j _ _ _ _ Hv Hvn).
  unfold bind at 1. rewrite (Harg j _ _ _ _ Hi Hin).
  unfold bind at 1. rewrite (Harg j _ _ _ _ Ha Han).
  cbv beta iota zeta. reflexivity.
Qed.

(** X27. Query arguments win over the body: when [voltage],
    [max_current] and [access] are all given as non-empty query
    arguments, the body is never consulted, so two requests that differ
    only in their body, whatever it is, are handled alike. *)
Theorem set_query_arguments_win (L : pylib) (C : config)
    (key : option string) (args : gmap string string) (j1 j2 : option jval)
    (sv si sa : string) (w : world) :
  args !! "voltage" = Some sv -> sv <> "" ->
  args !! "max_current" = Some si -> si <> "" ->
  args !! "access" = Some sa -> sa <> "" ->
  set_voltage_current L C (HttpRequest key j1 args) w
  = set_voltage_current L C (HttpRequest key j2 args) w.
Proof.
  intros Hv Hvn Hi Hin Ha Han.
  destruct (set_with_query_arguments L C key args sv si sa w
              Hv Hvn Hi Hin Ha Han) as [r Hr].
  rewrite (Hr j1), (Hr j2). reflexivity.
Qed.

Lemma set_query_arguments_win_witness :
  set_voltage_current demo_lib default_config
    (HttpRequest None (Some (JList [JInt 1]))
       (<["voltage" := "54"]> (<["max_current" := "6.5"]>
          (<["access" := "1"]> ∅))))
    (boot_world None eighths_clock idle_device)
  = set_voltage_current demo_lib default_config
      (HttpRequest None None
         (<["voltage" := "54"]> (<["max_current" := "6.5"]>
            (<["access" := "1"]> ∅))))
      (boot_world None eighths_clock idle_device).
Proof.
  apply (set_query_arguments_win demo_lib default_config None _ _ _
           "54" "6.5" "1"); (reflexivity || discriminate).
Defined.
